(** * Photo watermark tool: placement, EXIF date, naming and batch CLI

    A shallow embedding of the parts of [watermark_exif_date.py] (the
    command-line tool) and [watermark_app.py] (the GUI application) that
    decide where a watermark is put, which date text is extracted, how
    output files are named and what the command-line tool returns.

    Conventions.
    - Python [int] is [Z]; [//] by a positive constant is [Z.div]
      (floor), [int(float)] truncates towards zero.
    - Python [str] is [string]; a character is a code point below 256.
    - Python [float] is IEEE 754 binary64, taken from [SpecFloat] with
      [prec = 53] and [emax = 1024].
    - An operation that can raise is a value of [Exc]. *)

From Stdlib Require Import ZArith Lia Bool List Ascii String SpecFloat.
From Stdlib Require Import Decimal DecimalString DecimalPos DecimalZ.
From Stdlib Require Import Sorting.Sorted Sorting.Permutation.
From stdpp Require Import base option list strings gmap sorting.

Local Open Scope string_scope.
Local Open Scope Z_scope.

(** ** Exceptions *)

(** The exception classes that the modelled code can meet. Every one of
    them derives from [Exception], so [except Exception] and a bare
    [except] both catch all of them. *)
Inductive exn : Type :=
  | ValueError
  | ZeroDivisionError
  | OverflowError
  | FileExistsError
  | FileNotFoundError
  | NotADirectoryError
  | IsADirectoryError
  | PermissionError
  | UnsupportedOperation
  | UnicodeEncodeError
  | OSError
  | LibraryError (code : Z).

(** A computation that returns or raises. *)
Inductive Exc (A : Type) : Type :=
  | Ret (a : A)
  | Raise (e : exn).
Arguments Ret {A} a.
Arguments Raise {A} e.

Definition ebind {A B : Type} (c : Exc A) (k : A -> Exc B) : Exc B :=
  match c with
  | Ret a => k a
  | Raise e => Raise e
  end.

(** [try: c  except: h] *)
Definition try_except {A : Type} (c : Exc A) (h : exn -> Exc A) : Exc A :=
  match c with
  | Ret a => Ret a
  | Raise e => h e
  end.

Declare Scope exc_scope.
Delimit Scope exc_scope with exc.
Notation "'let!' x ':=' c 'in' k" := (ebind c (fun x => k))
  (at level 10, x name, c at level 100, k at level 200) : exc_scope.

(** ** Python floats *)

Module PyFloat.

Definition prec : Z := 53.
Definition emax : Z := 1024.

Definition float : Type := spec_float.

(** An integer as an exact (unrounded) binary number. *)
Definition exact_of_int (n : Z) : spec_float :=
  match n with
  | Z0 => S754_zero false
  | Zpos p => S754_finite false p 0
  | Zneg p => S754_finite true p 0
  end.

(** [float(n)], the conversion that [int * float] performs on its
    integer operand: round to nearest even, [OverflowError] when the
    integer is too large. *)
Definition of_int (n : Z) : Exc float :=
  match binary_normalize prec emax n 0 false with
  | S754_infinity _ => Raise OverflowError
  | f => Ret f
  end.

(** [a / b] on two integers: the correctly rounded quotient. *)
Definition truediv (a b : Z) : Exc float :=
  if Z.eqb b 0 then Raise ZeroDivisionError
  else match SFdiv prec emax (exact_of_int a) (exact_of_int b) with
       | S754_infinity _ => Raise OverflowError
       | f => Ret f
       end.

(** [n * f] with [n] an integer and [f] a float. *)
Definition int_mul (n : Z) (f : float) : Exc float :=
  (let! x := of_int n in Ret (SFmul prec emax x f))%exc.

(** [int(f)]: truncation towards zero. *)
Definition to_int (f : float) : Exc Z :=
  match f with
  | S754_zero _ => Ret 0
  | S754_infinity _ => Raise OverflowError
  | S754_nan => Raise ValueError
  | S754_finite s m e =>
      let a := match e with
               | Z0 => Zpos m
               | Zpos _ => Z.shiftl (Zpos m) e
               | Zneg _ => Z.shiftr (Zpos m) (- e)
               end in
      Ret (if s then - a else a)
  end.

End PyFloat.

(** ** Python strings *)

Module PyStr.

Definition code (c : ascii) : Z := Z.of_N (N_of_ascii c).

(** [c.isspace()] on the code points below 256. *)
Definition is_space (c : ascii) : bool :=
  let n := code c in
  ((9 <=? n) && (n <=? 13)) || ((28 <=? n) && (n <=? 32))
  || Z.eqb n 133 || Z.eqb n 160.

Fixpoint lstrip (s : string) : string :=
  match s with
  | EmptyString => EmptyString
  | String c s' => if is_space c then lstrip s' else s
  end.

Fixpoint rstrip (s : string) : string :=
  match s with
  | EmptyString => EmptyString
  | String c s' =>
      match rstrip s' with
      | EmptyString => if is_space c then EmptyString else String c EmptyString
      | r => String c r
      end
  end.

(** [s.strip()] *)
Definition strip (s : string) : string := rstrip (lstrip s).

(** [s.split(sep)] for a separator of one character: one more part than
    there are separators, never the empty list. *)
Fixpoint split (sep : ascii) (s : string) : list string :=
  match s with
  | EmptyString => [EmptyString]
  | String c s' =>
      if Ascii.eqb c sep then EmptyString :: split sep s'
      else match split sep s' with
           | [] => [String c EmptyString]
           | w :: ws => String c w :: ws
           end
  end.

(** [s.replace(a, b)] for [a] and [b] of one character. *)
Fixpoint replace (a b : ascii) (s : string) : string :=
  match s with
  | EmptyString => EmptyString
  | String c s' => String (if Ascii.eqb c a then b else c) (replace a b s')
  end.

(** [s.startswith(p)] *)
Definition startswith (p s : string) : bool := String.prefix p s.


(** [c in s] for one character. *)
Fixpoint has_char (c : ascii) (s : string) : bool :=
  match s with
  | EmptyString => false
  | String a s' => Ascii.eqb a c || has_char c s'
  end.

(** [s.rfind(c)], [None] for Python's [-1]. *)
Fixpoint rfind (c : ascii) (s : string) : option nat :=
  match s with
  | EmptyString => None
  | String a s' =>
      match rfind c s' with
      | Some i => Some (S i)
      | None => if Ascii.eqb a c then Some O else None
      end
  end.

(** [c.lower()] on the code points below 256: the ASCII capitals and
    the Latin-1 capitals U+00C0..U+00DE without the sign U+00D7. *)
Definition lower_char (c : ascii) : ascii :=
  let n := code c in
  if ((65 <=? n) && (n <=? 90))
     || ((192 <=? n) && (n <=? 222) && negb (Z.eqb n 215))
  then ascii_of_N (Z.to_N (n + 32)) else c.

Fixpoint lower (s : string) : string :=
  match s with
  | EmptyString => EmptyString
  | String c s' => String (lower_char c) (lower s')
  end.

Definition is_digit (c : ascii) : bool :=
  let n := code c in (48 <=? n) && (n <=? 57).

(** The value of a run of decimal digits, most significant first;
    [None] when a character is not a digit. *)
Fixpoint digits_value (acc : Z) (s : string) : option Z :=
  match s with
  | EmptyString => Some acc
  | String c s' =>
      if is_digit c then digits_value (10 * acc + (code c - 48)) s' else None
  end.

(** The whitespace that [int] drops around a number: the ASCII
    whitespace and, from code point 127 on, the characters that are
    spaces. The separators U+001C..U+001F, which [str.strip] drops, are
    no whitespace for [int]. *)
Definition is_int_space (c : ascii) : bool :=
  let n := code c in
  ((9 <=? n) && (n <=? 13)) || Z.eqb n 32 || Z.eqb n 133 || Z.eqb n 160.

Fixpoint int_lstrip (s : string) : string :=
  match s with
  | EmptyString => EmptyString
  | String c s' => if is_int_space c then int_lstrip s' else s
  end.

Fixpoint int_rstrip (s : string) : string :=
  match s with
  | EmptyString => EmptyString
  | String c s' =>
      match int_rstrip s' with
      | EmptyString =>
          if is_int_space c then EmptyString else String c EmptyString
      | r => String c r
      end
  end.

Definition int_strip (s : string) : string := int_rstrip (int_lstrip s).

(** [int(s)] in base 10: surrounding whitespace is dropped, one sign is
    allowed, at least one digit is needed. Underscores between digits,
    which [int] also accepts, cannot reach it here because its callers
    pass the pieces of a split at underscores. The interpreter's limit
    on the length of a number (4300 digits by default) is not part of
    this model: the numbers here are widget coordinates. *)
Definition to_int (s : string) : Exc Z :=
  let body (t : string) : Exc Z :=
    match t with
    | EmptyString => Raise ValueError
    | _ => match digits_value 0 t with
           | Some v => Ret v
           | None => Raise ValueError
           end
    end in
  match int_strip s with
  | String "-" t => (let! v := body t in Ret (- v))%exc
  | String "+" t => body t
  | t => body t
  end.

End PyStr.

(** ** Paths and the file system *)

(** A path is the list of its components under its anchor (the root or
    the working directory); the empty list is the anchor itself. *)
Abbreviation path := (list string).

Module PyPath.

(** [p.name] *)
Definition name (p : path) : string := List.last p EmptyString.

(** [p.parent]; the anchor is its own parent. *)
Definition parent (p : path) : path := List.removelast p.

(** [p / s] for [s] without a separator; joining the empty string
    returns [p]. *)
Definition joinpath (p : path) (s : string) : path :=
  match s with
  | EmptyString => p
  | _ => p ++ [s]
  end.

(** Whether the last dot of a name starts a suffix:
    [0 < i < len(name) - 1]. *)
Definition suffix_index (nm : string) : option nat :=
  match PyStr.rfind "." nm with
  | Some i => if (Nat.ltb 0 i && Nat.ltb (S i) (String.length nm))%bool
              then Some i else None
  | None => None
  end.

(** [p.suffix] *)
Definition suffix (p : path) : string :=
  let nm := name p in
  match suffix_index nm with
  | Some i => String.substring i (String.length nm - i) nm
  | None => EmptyString
  end.


(** The order of paths: that of their component lists, component by
    component, strings by code point. *)
Fixpoint compare (p q : path) : comparison :=
  match p, q with
  | [], [] => Eq
  | [], _ :: _ => Lt
  | _ :: _, [] => Gt
  | a :: p', b :: q' =>
      match String.compare a b with
      | Eq => compare p' q'
      | c => c
      end
  end.

Definition le (p q : path) : Prop := compare p q <> Gt.

#[global] Instance le_dec (p q : path) : Decision (le p q).
Proof. unfold le. destruct (compare p q); [left | left | right]; congruence. Defined.

End PyPath.

Module Fs.

(** What a path can lead to: a regular file, a directory, or a special
    file that cannot be opened for writing and seeking (a FIFO, a
    socket, a terminal). *)
Inductive kind : Type := File | Dir | Special.

#[global] Instance kind_eq_dec : EqDecision kind.
Proof. solve_decision. Defined.

(** What is stored under each path; the anchor is always a directory. *)
Abbreviation filesystem := (gmap (list string) kind).

Definition kind_of (fs : filesystem) (p : path) : option kind :=
  match p with
  | [] => Some Dir
  | _ => fs !! p
  end.

(** The answers of [p.exists()], [p.is_file()], [p.is_dir()] when the
    system lets the program look at [p]. *)
Definition exists_ (fs : filesystem) (p : path) : bool :=
  match kind_of fs p with Some _ => true | None => false end.
Definition is_file (fs : filesystem) (p : path) : bool :=
  match kind_of fs p with Some File => true | _ => false end.
Definition is_dir (fs : filesystem) (p : path) : bool :=
  match kind_of fs p with Some Dir => true | _ => false end.

(** [p.iterdir()] on a directory that the system lets the program
    read: its entries, in the order in which the system lists them. *)
Definition iterdir (fs : filesystem) (p : path) : list path :=
  filter (fun q => q <> [] /\ PyPath.parent q = p) (map fst (map_to_list fs)).

(** [os.mkdir(p)] *)
Definition os_mkdir (fs : filesystem) (p : path) : Exc filesystem :=
  match kind_of fs p with
  | Some _ => Raise FileExistsError
  | None =>
      match kind_of fs (PyPath.parent p) with
      | Some Dir => Ret (<[p := Dir]> fs)
      | Some _ => Raise NotADirectoryError
      | None => Raise FileNotFoundError
      end
  end.

(** [p.mkdir(parents=parents, exist_ok=exist_ok)] of [pathlib]; [n]
    bounds the missing ancestors, at most the length of [p]. *)
Fixpoint mkdir (n : nat) (parents exist_ok : bool)
    (fs : filesystem) (p : path) : Exc filesystem :=
  match os_mkdir fs p with
  | Ret fs' => Ret fs'
  | Raise FileNotFoundError =>
      match n with
      | O => Raise FileNotFoundError
      | S n' =>
          if (negb parents || bool_decide (PyPath.parent p = p))%bool
          then Raise FileNotFoundError
          else match mkdir n' true true fs (PyPath.parent p) with
               | Ret fs' => mkdir n' false exist_ok fs' p
               | Raise e => Raise e
               end
      end
  | Raise e =>
      if (negb exist_ok || negb (is_dir fs p))%bool then Raise e else Ret fs
  end.

(** Opening [p] with mode [w+b] and writing, as [save] does: a regular
    file is created or replaced; a directory and a special file refuse
    the opening. *)
Definition write_file (fs : filesystem) (p : path) : Exc filesystem :=
  match kind_of fs p with
  | Some Dir => Raise IsADirectoryError
  | Some Special => Raise UnsupportedOperation
  | Some File => Ret (<[p := File]> fs)
  | None =>
      match kind_of fs (PyPath.parent p) with
      | Some Dir => Ret (<[p := File]> fs)
      | Some _ => Raise NotADirectoryError
      | None => Raise FileNotFoundError
      end
  end.

End Fs.

(** ** Values, the outside libraries and the world of the CLI *)

(** A Python value as it can sit in an EXIF tag. *)
Inductive pyval : Type :=
  | PyNone
  | PyStr (s : string)
  | PyBytes (b : list Byte.byte)
  | PyInt (n : Z)
  | PyObject (truth : bool).

(** [bool(v)] *)
Definition truthy (v : pyval) : bool :=
  match v with
  | PyNone => false
  | PyStr s => negb (String.eqb s EmptyString)
  | PyBytes b => match b with [] => false | _ => true end
  | PyInt n => negb (Z.eqb n 0)
  | PyObject truth => truth
  end.

(** A line printed by the command-line tool. *)
Inductive message : Type :=
  | WarnFont (font_path : string) (e : exn)
  | WarnColor (color : string)
  | SkipNoDate (image_path : path)
  | OkSaved (image_path out_path : path)
  | ErrorFailed (image_path : path) (e : exn)
  | NoInputPath (input_path : path)
  | NoImageFiles.

(** What the standard library and the operating system do for the
    program. The system can refuse a call for a reason that lies outside
    the file system modelled here, such as the permissions of a
    directory; [sys.stdout] can refuse a line. *)
Class Runtime : Type := {
  (* [b.decode("utf-8", errors="ignore")] *)
  bytes_decode : list Byte.byte -> Exc string;
  (* [datetime.strptime(s, fmt)], of which only success matters *)
  strptime : string -> string -> Exc unit;
  (* the error, if any, with which [os.stat] on the path fails and which
     [exists], [is_file] and [is_dir] of pathlib pass on:
     [PermissionError] below a directory that cannot be searched *)
  stat_error : path -> option exn;
  (* the error, if any, with which listing the directory fails:
     [PermissionError] on a directory that cannot be read *)
  listdir_error : path -> option exn;
  (* the error, if any, with which the system refuses to create a
     directory under a free name: [PermissionError] in a directory that
     cannot be written, [OSError] on a full or read-only disk *)
  mkdir_error : path -> option exn;
  (* the error, if any, with which [sys.stdout] refuses the line:
     [UnicodeEncodeError] on a name outside its encoding, a closed pipe *)
  stdout_error : message -> option exn
}.

(** What Pillow does for the command-line tool. *)
Class Pillow : Type := {
  image : Type;
  font : Type;
  Image_open : path -> Exc image;
  Image_getexif : image -> Exc (gmap Z pyval);
  Image_mode : image -> string;
  Image_size : image -> Z * Z;
  Image_convert : image -> string -> Exc image;
  (* encoding for [save], before the file is written *)
  Image_encode : image -> path -> list (string * Z) -> Exc unit;
  ImageColor_getrgb : string -> Exc (list Z);
  ImageFont_truetype : string -> Z -> Exc font;
  ImageFont_load_default : Exc font;
  ImageDraw_textbbox : image -> Z * Z -> string -> font -> Exc (Z * Z * Z * Z);
  ImageDraw_text : image -> Z * Z -> string -> font -> list Z -> Exc image
}.

(** The file system and the standard output. *)
Record World : Type := {
  fs : gmap (list string) Fs.kind;
  stdout : list message
}.

(** A computation on the world that returns or raises; what it did
    before raising stays done. *)
Definition M (A : Type) : Type := World -> Exc A * World.

Definition wret {A : Type} (a : A) : M A := fun w => (Ret a, w).

Definition wraise {A : Type} (e : exn) : M A := fun w => (Raise e, w).

Definition wbind {A B : Type} (c : M A) (k : A -> M B) : M B :=
  fun w => match c w with
           | (Ret a, w') => k a w'
           | (Raise e, w') => (Raise e, w')
           end.

(** [try: c  except Exception as e: h e] *)
Definition wtry {A : Type} (c : M A) (h : exn -> M A) : M A :=
  fun w => match c w with
           | (Ret a, w') => (Ret a, w')
           | (Raise e, w') => h e w'
           end.

Definition lift {A : Type} (c : Exc A) : M A := fun w => (c, w).

(** [print(line)]: the line is written, or the error of [sys.stdout]
    is raised and nothing is written. *)
Definition print {RT : Runtime} (m : message) : M unit :=
  fun w => match stdout_error m with
           | Some e => (Raise e, w)
           | None => (Ret tt, {| fs := fs w; stdout := stdout w ++ [m] |})
           end.

Definition get_fs : M (gmap (list string) Fs.kind) := fun w => (Ret (fs w), w).

(** A step on the file system; a step that raises leaves it as it was. *)
Definition on_fs (f : gmap (list string) Fs.kind -> Exc (gmap (list string) Fs.kind))
    : M unit :=
  fun w => match f (fs w) with
           | Ret fs' => (Ret tt, {| fs := fs'; stdout := stdout w |})
           | Raise e => (Raise e, w)
           end.

Declare Scope world_scope.
Delimit Scope world_scope with M.
Notation "'let!' x ':=' c 'in' k" := (wbind c (fun x => k))
  (at level 10, x name, c at level 100, k at level 200) : world_scope.
Notation "c ';;' k" := (wbind c (fun _ => k))
  (at level 100, k at level 200, right associativity) : world_scope.

(** ** The command-line tool *)

Module Cli.

Definition EXIF_TAG_DATETIME : Z := 306.
Definition EXIF_TAG_DATETIME_ORIGINAL : Z := 36867.
Definition EXIF_TAG_DATETIME_DIGITIZED : Z := 36868.

Definition SUPPORTED_EXTENSIONS : gset string :=
  {[ ".jpg"; ".jpeg"; ".png"; ".tif"; ".tiff"; ".webp" ]}.

Record WatermarkOptions : Type := {
  font_size : Z;
  color : string;
  position : string;
  margin : Z;
  font_path : option string
}.

(** What [parse_args] returns. *)
Record Namespace : Type := {
  args_input_path : path;
  args_font_size : Z;
  args_color : string;
  args_position : string;
  args_margin : Z;
  args_font : option string
}.

(** [p.suffix.lower() in SUPPORTED_EXTENSIONS] *)
Definition supported (p : path) : bool :=
  bool_decide (PyStr.lower (PyPath.suffix p) ∈ SUPPORTED_EXTENSIONS).

(** [list(iter_image_files(path))] on a system that refuses no call:
    the list that the run of the generator, [list_iter_image_files]
    below, returns whenever it returns. *)
Definition iter_image_files (fs : gmap (list string) Fs.kind) (p : path)
    : list path :=
  if Fs.is_file fs p then
    if supported p then [p] else []
  else if Fs.is_dir fs p then
    List.filter (fun q => Fs.is_file fs q && supported q)
                (merge_sort PyPath.le (Fs.iterdir fs p))
  else [].

(** [compute_position]: four corner keys, every other key is the
    centre. *)
Definition compute_position (img_size text_size : Z * Z)
    (position : string) (margin : Z) : Z * Z :=
  let '(img_w, img_h) := img_size in
  let '(text_w, text_h) := text_size in
  if String.eqb position "tl" then (margin, margin)
  else if String.eqb position "tr" then (img_w - text_w - margin, margin)
  else if String.eqb position "bl" then (margin, img_h - text_h - margin)
  else if String.eqb position "br"
       then (img_w - text_w - margin, img_h - text_h - margin)
  else ((img_w - text_w) / 2, (img_h - text_h) / 2).

Section WithLibraries.
Context {RT : Runtime} {PIL : Pillow}.

(** The body of the loop of [extract_exif_date] for one tag value:
    [Some d] when the function returns [d], [None] when the loop goes
    on to the next tag. *)
Definition date_of_value (value : pyval) : Exc (option string) :=
  if negb (truthy value) then Ret None
  else
    let decoded : option pyval :=
      match value with
      | PyBytes b =>
          match bytes_decode b with
          | Ret s => Some (PyStr s)
          | Raise _ => None
          end
      | v => Some v
      end in
    match decoded with
    | None => Ret None
    | Some (PyStr s) =>
        match PyStr.split " " (PyStr.strip s) with
        | [] => Ret None
        | part0 :: rest =>
            let date_str := PyStr.replace ":" "-" part0 in
            let _validated :=
              try_except
                (if PyStr.has_char ":" part0
                 then strptime part0
                        (match rest with
                         | [] => "%Y:%m:%d%H:%M:%S"
                         | _ => "%Y:%m:%d"
                         end)
                 else strptime date_str "%Y-%m-%d")
                (fun _ => Ret tt) in
            match _validated with
            | Ret _ => Ret (Some date_str)
            | Raise e => Raise e
            end
        end
    | Some _ => Ret None
    end.

Fixpoint scan_tags (exif : gmap Z pyval) (tags : list Z) : Exc (option string) :=
  match tags with
  | [] => Ret None
  | tag :: tags' =>
      let value := default PyNone (exif !! tag) in
      match date_of_value value with
      | Ret None => scan_tags exif tags'
      | r => r
      end
  end.

(** [extract_exif_date(image)] *)
Definition extract_exif_date (im : image) : Exc (option string) :=
  match Image_getexif im with
  | Raise _ => Ret None
  | Ret exif =>
      if bool_decide (exif = ∅) then Ret None
      else scan_tags exif [EXIF_TAG_DATETIME_ORIGINAL;
                           EXIF_TAG_DATETIME_DIGITIZED;
                           EXIF_TAG_DATETIME]
  end.

(** [load_font(font_path, font_size)] *)
Definition load_font (font_path : option string) (font_size : Z) : M font :=
  (let! found :=
     match font_path with
     | Some fp =>
         wtry (let! f := lift (ImageFont_truetype fp font_size) in wret (Some f))
              (fun exc => print (WarnFont fp exc) ;; wret None)
     | None => wret None
     end in
   match found with
   | Some f => wret f
   | None =>
       wtry (lift ImageFont_load_default)
            (fun _ => lift (ImageFont_truetype
                              "/usr/share/fonts/truetype/dejavu/DejaVuSans.ttf"
                              font_size))
   end)%M.

(** [draw_watermark(image, text, options)] *)
Definition draw_watermark (im : image) (text : string)
    (options : WatermarkOptions) : M image :=
  (let! img := lift (Image_convert im "RGBA") in
   let! text_color :=
     (fun w => match ImageColor_getrgb (color options) with
               | Ret c => wret c w
               | Raise ValueError =>
                   (print (WarnColor (color options)) ;; wret [255; 255; 255]) w
               | Raise e => wraise e w
               end) in
   let! fnt := load_font (font_path options) (font_size options) in
   let! bbox := lift (ImageDraw_textbbox img (0, 0) text fnt) in
   let '(b0, b1, b2, b3) := bbox in
   let text_w := b2 - b0 in
   let text_h := b3 - b1 in
   let '(x, y) := compute_position (Image_size img) (text_w, text_h)
                    (position options) (margin options) in
   let shadow_offset := Z.max 1 (font_size options / 24) in
   let shadow_color := [0; 0; 0; 160] in
   let! img1 :=
     wtry (lift (ImageDraw_text img (x + shadow_offset, y + shadow_offset)
                   text fnt shadow_color))
          (fun _ => wret img) in
   let! img2 := lift (ImageDraw_text img1 (x, y) text fnt text_color) in
   lift (Image_convert img2 (Image_mode im)))%M.

(** [ensure_output_dir(base)] on a system that refuses no call: the
    directory and its creation. *)
Definition ensure_output_dir (base : path) : M path :=
  (let! fs0 := get_fs in
   let parent := if Fs.is_file fs0 base then PyPath.parent base else base in
   let out_dir := PyPath.joinpath parent (PyPath.name parent +:+ "_watermark") in
   on_fs (fun f => Fs.mkdir (List.length out_dir) true true f out_dir) ;;
   wret out_dir)%M.

(** [process_image_file(image_path, options, out_dir)] *)
Definition process_image_file (image_path : path)
    (options : WatermarkOptions) (out_dir : path) : M unit :=
  wtry
    (let! im := lift (Image_open image_path) in
     let! date_text := lift (extract_exif_date im) in
     match date_text with
     | None | Some EmptyString => print (SkipNoDate image_path)
     | Some text =>
         let! watermarked := draw_watermark im text options in
         let out_path := PyPath.joinpath out_dir (PyPath.name image_path) in
         let lsuffix := PyStr.lower (PyPath.suffix out_path) in
         let save_params :=
           if (String.eqb lsuffix ".jpg" || String.eqb lsuffix ".jpeg")%bool
           then [("quality", 95); ("subsampling", 2)] else [] in
         lift (Image_encode watermarked out_path save_params) ;;
         on_fs (fun f => Fs.write_file f out_path) ;;
         print (OkSaved image_path out_path)
     end)%M
    (fun exc => print (ErrorFailed image_path exc)).

(** [for f in files: process_image_file(f, options, out_dir)] *)
Fixpoint process_all (files : list path) (options : WatermarkOptions)
    (out_dir : path) : M unit :=
  match files with
  | [] => wret tt
  | f :: files' =>
      (process_image_file f options out_dir ;;
       process_all files' options out_dir)%M
  end.

(** [os.stat(p)], of which pathlib takes the kind of [p]: the system
    answers, or refuses with an error that pathlib passes on. *)
Definition os_stat (p : path) : Exc unit :=
  match stat_error p with
  | Some e => Raise e
  | None => Ret tt
  end.

(** [p.exists()], [p.is_file()], [p.is_dir()] as calls. *)
Definition path_exists (fs : gmap (list string) Fs.kind) (p : path) : Exc bool :=
  (let! _ := os_stat p in Ret (Fs.exists_ fs p))%exc.

Definition path_is_file (fs : gmap (list string) Fs.kind) (p : path) : Exc bool :=
  (let! _ := os_stat p in Ret (Fs.is_file fs p))%exc.

Definition path_is_dir (fs : gmap (list string) Fs.kind) (p : path) : Exc bool :=
  (let! _ := os_stat p in Ret (Fs.is_dir fs p))%exc.

(** [p.iterdir()], consumed by [sorted]. *)
Definition path_iterdir (fs : gmap (list string) Fs.kind) (p : path)
    : Exc (list path) :=
  match listdir_error p with
  | Some e => Raise e
  | None => Ret (Fs.iterdir fs p)
  end.

(** The loop of [iter_image_files] over the sorted entries:
    [if p.is_file() and p.suffix.lower() in SUPPORTED_EXTENSIONS] for
    each of them in turn. *)
Fixpoint image_files_among (fs : gmap (list string) Fs.kind)
    (entries : list path) : Exc (list path) :=
  match entries with
  | [] => Ret []
  | q :: rest =>
      (let! file := path_is_file fs q in
       let! found := image_files_among fs rest in
       Ret (if (file && supported q)%bool then q :: found else found))%exc
  end.

(** [list(iter_image_files(path))] as [main] runs it: every look at the
    file system is a call that the system can refuse, and the generator
    passes the refusal on. *)
Definition list_iter_image_files (fs : gmap (list string) Fs.kind) (p : path)
    : Exc (list path) :=
  (let! file := path_is_file fs p in
   if file then Ret (if supported p then [p] else [])
   else
     let! dir := path_is_dir fs p in
     if dir then
       let! entries := path_iterdir fs p in
       image_files_among fs (merge_sort PyPath.le entries)
     else Ret [])%exc.

(** [out_dir.mkdir(parents=True, exist_ok=True)] as a call: under a
    free name the system can refuse to create the directory; under a
    name that is taken [os.mkdir] fails and [mkdir] asks the system
    whether the path is a directory. Either refusal is passed on. *)
Definition path_mkdir (fs : gmap (list string) Fs.kind) (p : path)
    : Exc (gmap (list string) Fs.kind) :=
  match Fs.kind_of fs p with
  | None =>
      match mkdir_error p with
      | Some e => Raise e
      | None => Fs.mkdir (List.length p) true true fs p
      end
  | Some _ =>
      (let! _ := os_stat p in Fs.mkdir (List.length p) true true fs p)%exc
  end.

(** [ensure_output_dir(base)] as [main] runs it: [base.is_file()] and
    [mkdir] are calls that the system can refuse. Whenever it returns,
    it has done what [ensure_output_dir] above does. *)
Definition ensure_output_dir_call (base : path) : M path :=
  (let! fs0 := get_fs in
   let! file := lift (path_is_file fs0 base) in
   let parent := if file then PyPath.parent base else base in
   let out_dir := PyPath.joinpath parent (PyPath.name parent +:+ "_watermark") in
   on_fs (fun f => path_mkdir f out_dir) ;;
   wret out_dir)%M.

(** [main], from the parsed arguments on. *)
Definition main (args : Namespace) : M Z :=
  let input_path := args_input_path args in
  let options := {| font_size := args_font_size args;
                    color := args_color args;
                    position := args_position args;
                    margin := args_margin args;
                    font_path := args_font args |} in
  (let! fs0 := get_fs in
   let! present := lift (path_exists fs0 input_path) in
   if negb present then
     print (NoInputPath input_path) ;; wret 1
   else
     let! files := lift (list_iter_image_files fs0 input_path) in
     match files with
     | [] => print NoImageFiles ;; wret 1
     | _ =>
         let! dir := lift (path_is_dir fs0 input_path) in
         let! out_dir := ensure_output_dir_call
                           (if dir then input_path
                            else PyPath.parent input_path) in
         process_all files options out_dir ;;
         wret 0
     end)%M.

End WithLibraries.

End Cli.

(** ** The application *)

(** The type of the lambdas stored in [WATERMARK_POSITIONS]:
    [lambda img_w, img_h, w, h, m: (x, y)]. *)
Definition pos_func : Type := Z -> Z -> Z -> Z -> Z -> Z * Z.

(** [WATERMARK_POSITIONS] of [watermark_app.py], in the order of the
    source; each entry is a key with its label and its lambda. The
    labels, which the interface shows and nothing reads, are written in
    English here. *)
Definition WATERMARK_POSITIONS : list (string * (string * pos_func)) :=
  [ ("tl", ("top-left", fun img_w img_h w h m => (m, m)));
    ("tr", ("top-right", fun img_w img_h w h m => (img_w - w - m, m)));
    ("bl", ("bottom-left", fun img_w img_h w h m => (m, img_h - h - m)));
    ("br", ("bottom-right",
            fun img_w img_h w h m => (img_w - w - m, img_h - h - m)));
    ("center", ("center",
                fun img_w img_h w h m => ((img_w - w) / 2, (img_h - h) / 2))) ].

(** [d[key]] / [key in d] on a dict written as its item list. *)
Fixpoint dict_get {V : Type} (d : list (string * V)) (key : string) : option V :=
  match d with
  | [] => None
  | (k, v) :: d' => if String.eqb key k then Some v else dict_get d' key
  end.

Module Gui.

(** The part of [WatermarkApp] that the modelled methods read: the
    stored position tag and the values of the widgets. *)
Record App : Type := {
  last_position : string;
  preview_label_width : Z;            (* self.preview_label.width() *)
  preview_label_height : Z;           (* self.preview_label.height() *)
  margin_spin : Z;                    (* self.margin_spin.value() *)
  watermark_image_path : string;      (* self.watermark_image_path.text() *)
  watermark_image_size_slider : Z;
  watermark_image_opacity_slider : Z;
  output_format_combo : string;       (* currentText() *)
  keep_name_radio : bool;             (* isChecked() of the three boxes *)
  add_prefix_radio : bool;
  add_suffix_radio : bool;
  prefix_edit : string;
  suffix_edit : string
}.

Definition set_last_position (app : App) (p : string) : App :=
  {| last_position := p;
     preview_label_width := preview_label_width app;
     preview_label_height := preview_label_height app;
     margin_spin := margin_spin app;
     watermark_image_path := watermark_image_path app;
     watermark_image_size_slider := watermark_image_size_slider app;
     watermark_image_opacity_slider := watermark_image_opacity_slider app;
     output_format_combo := output_format_combo app;
     keep_name_radio := keep_name_radio app;
     add_prefix_radio := add_prefix_radio app;
     add_suffix_radio := add_suffix_radio app;
     prefix_edit := prefix_edit app;
     suffix_edit := suffix_edit app |}.

(** [int(int(p) * scale)] *)
Definition scale_coord (p : string) (scale : PyFloat.float) : Exc Z :=
  (let! n := PyStr.to_int p in
   let! f := PyFloat.int_mul n scale in
   PyFloat.to_int f)%exc.

(** [max(0, min(x, bound))] *)
Definition clamp (x bound : Z) : Z := Z.max 0 (Z.min x bound).

(** The body of the [try] of [_calculate_watermark_position]: the
    position read from a [custom_<x>_<y>] tag, taken from the preview to
    the image and kept inside the image. *)
Definition custom_position (app : App)
    (img_width img_height wm_width wm_height : Z) : Exc (Z * Z) :=
  match PyStr.split "_" (last_position app) with
  | [_; preview_x; preview_y] =>
      (let! scale_x := PyFloat.truediv img_width (preview_label_width app) in
       let! scale_y := PyFloat.truediv img_height (preview_label_height app) in
       let! x := scale_coord preview_x scale_x in
       let! y := scale_coord preview_y scale_y in
       Ret (clamp x (img_width - wm_width), clamp y (img_height - wm_height)))%exc
  | _ => Raise ValueError
  end.

(** The part of [_calculate_watermark_position] after the [try]: the
    lambda of a known key, the bottom-right corner otherwise. *)
Definition preset_position (app : App)
    (img_width img_height wm_width wm_height margin : Z) : Z * Z :=
  match dict_get WATERMARK_POSITIONS (last_position app) with
  | Some (_, pos_func) => pos_func img_width img_height wm_width wm_height margin
  | None => (img_width - wm_width - margin, img_height - wm_height - margin)
  end.

(** [WatermarkApp._calculate_watermark_position]: the position and the
    application afterwards (the handler of the bare [except] stores
    ['br'] in [last_position]). *)
Definition _calculate_watermark_position (app : App)
    (img_width img_height wm_width wm_height margin : Z) : Exc ((Z * Z) * App) :=
  if PyStr.startswith "custom_" (last_position app) then
    try_except
      (let! xy := custom_position app img_width img_height wm_width wm_height in
       Ret (xy, app))%exc
      (fun _ =>
         let app' := set_last_position app "br" in
         Ret (preset_position app' img_width img_height wm_width wm_height margin,
              app'))
  else
    Ret (preset_position app img_width img_height wm_width wm_height margin, app).

(** An RGBA raster: its size and its rows of pixels, top row first. *)
Definition pixel : Type := Byte.byte * Byte.byte * Byte.byte * Byte.byte.

Record Image : Type := {
  size : Z * Z;                       (* (width, height) *)
  rows : list (list pixel)
}.

Definition width (im : Image) : Z := fst (size im).
Definition height (im : Image) : Z := snd (size im).

Definition Z_of_byte (b : Byte.byte) : Z := Z.of_N (Byte.to_N b).

(** A sample stored into 8 bits, clipped to [0, 255]. *)
Definition clip8 (z : Z) : Byte.byte :=
  default Byte.x00 (Byte.of_N (Z.to_N (Z.max 0 (Z.min z 255)))).

(** Pillow's [DIV255] and [BLEND8]. *)
Definition div255 (a : Z) : Z :=
  let tmp := a + 128 in Z.shiftr (Z.shiftr tmp 8 + tmp) 8.

Definition blend8 (mask in1 in2 : Byte.byte) : Byte.byte :=
  clip8 (div255 (Z_of_byte in1 * (255 - Z_of_byte mask)
                 + Z_of_byte in2 * Z_of_byte mask)).

Definition alpha (p : pixel) : Byte.byte := snd p.

(** One pixel of [paste]: copied without a mask, every channel blended
    by the alpha of the mask's pixel with one. *)
Definition paste_pixel (mask : option pixel) (out inp : pixel) : pixel :=
  match mask with
  | None => inp
  | Some m =>
      let '(r1, g1, b1, a1) := out in
      let '(r2, g2, b2, a2) := inp in
      (blend8 (alpha m) r1 r2, blend8 (alpha m) g1 g2,
       blend8 (alpha m) b1 b2, blend8 (alpha m) a1 a2)
  end.

Definition zlookup {A : Type} (l : list A) (i : Z) : option A :=
  if i <? 0 then None else l !! Z.to_nat i.

Definition paste_row (x : Z) (src : list pixel) (mask : option (list pixel))
    (dst : list pixel) : list pixel :=
  imap (fun i out =>
          match zlookup src (Z.of_nat i - x) with
          | None => out
          | Some inp =>
              match mask with
              | None => inp
              | Some mrow =>
                  match zlookup mrow (Z.of_nat i - x) with
                  | Some m => paste_pixel (Some m) out inp
                  | None => out
                  end
              end
          end) dst.

(** [dst.paste(src, (x, y))] and [dst.paste(src, (x, y), mask)]: the
    part of [src] that falls inside [dst] is written, the rest of [dst]
    stays. *)
Definition paste (dst src : Image) (box : Z * Z) (mask : option Image) : Image :=
  let '(x, y) := box in
  {| size := size dst;
     rows := imap (fun j drow =>
                     match zlookup (rows src) (Z.of_nat j - y) with
                     | None => drow
                     | Some srow =>
                         match mask with
                         | None => paste_row x srow None drow
                         | Some m =>
                             match zlookup (rows m) (Z.of_nat j - y) with
                             | Some mrow => paste_row x srow (Some mrow) drow
                             | None => drow
                             end
                         end
                     end) (rows dst) |}.

(** [Image.new('RGBA', size, color)] *)
Definition Image_new (sz : Z * Z) (color : pixel) : Image :=
  {| size := sz;
     rows := replicate (Z.to_nat (snd sz)) (replicate (Z.to_nat (fst sz)) color) |}.

(** [int(x * opacity / 100)] *)
Definition scale_alpha (opacity x : Z) : Exc Z :=
  (let! f := PyFloat.truediv (x * opacity) 100 in PyFloat.to_int f)%exc.

(** The table that [point] builds from the lambda: its value at each of
    [range(256)], in order. *)
Fixpoint build_lut (opacity : Z) (xs : list Z) : Exc (list Byte.byte) :=
  match xs with
  | [] => Ret []
  | x :: xs' =>
      (let! v := scale_alpha opacity x in
       let! t := build_lut opacity xs' in
       Ret (clip8 v :: t))%exc
  end.

Definition range256 : list Z := map Z.of_nat (seq 0 256).

(** [split], [a.point(lut)] and [merge]: the alpha of every pixel is
    looked up in the table, the colours stay. *)
Definition point_alpha (lut : list Byte.byte) (im : Image) : Image :=
  {| size := size im;
     rows := map (map (fun p : pixel =>
                         let '(r, g, b, a) := p in
                         (r, g, b, default a (lut !! Z.to_nat (Z_of_byte a)))))
                 (rows im) |}.

(** What the system and Pillow do for the application's overlay. *)
Class Overlay : Type := {
  overlay : Type;
  os_path_exists : string -> bool;
  Image_open : string -> Exc overlay;
  overlay_width : overlay -> Z;
  overlay_height : overlay -> Z;
  (* [resize((w, h), Image.LANCZOS)] *)
  Image_resize : overlay -> Z * Z -> Exc overlay;
  (* the pixels in mode RGBA, after [convert] when the mode is another *)
  overlay_rgba : overlay -> Exc Image
}.

Section WithOverlay.
Context {OV : Overlay}.

(** [int(n * scale)] *)
Definition scaled (n : Z) (scale : PyFloat.float) : Exc Z :=
  (let! f := PyFloat.int_mul n scale in PyFloat.to_int f)%exc.

(** [WatermarkApp._apply_image_watermark] *)
Definition _apply_image_watermark (app : App) (img : Image) : Exc (Image * App) :=
  let watermark_path := watermark_image_path app in
  if (String.eqb watermark_path EmptyString || negb (os_path_exists watermark_path))%bool
  then Ret (img, app)
  else
    (let! wm_img := Image_open watermark_path in
     let! scale := PyFloat.truediv (watermark_image_size_slider app) 100 in
     let! wm_width := scaled (overlay_width wm_img) scale in
     let! wm_height := scaled (overlay_height wm_img) scale in
     let! wm_img1 := Image_resize wm_img (wm_width, wm_height) in
     let opacity := watermark_image_opacity_slider app in
     let! wm_rgba := overlay_rgba wm_img1 in
     let! lut := build_lut opacity range256 in
     let wm := point_alpha lut wm_rgba in
     let margin := margin_spin app in
     let! pos := _calculate_watermark_position app (width img) (height img)
                   wm_width wm_height margin in
     let '((x, y), app') := pos in
     let result := Image_new (size img)
                     (Byte.xff, Byte.xff, Byte.xff, Byte.x00) in
     let result1 := paste result img (0, 0) None in
     let result2 := paste result1 wm (x, y) (Some wm) in
     Ret (result2, app'))%exc.

End WithOverlay.


End Gui.

(** ** The words of the specification, for comparison *)

(** The first whitespace-delimited token of a string: what is left of
    the string after its leading whitespace, up to the next whitespace
    character. *)
Fixpoint take_token (s : string) : string :=
  match s with
  | EmptyString => EmptyString
  | String c s' =>
      if PyStr.is_space c then EmptyString else String c (take_token s')
  end.

Definition spec_first_whitespace_token (s : string) : string :=
  take_token (PyStr.lstrip s).

(** A tag value from which [extract_exif_date] takes no date: one that
    is false, or neither text nor bytes. *)
Definition no_date_value (v : pyval) : Prop :=
  truthy v = false \/ (exists n, v = PyInt n) \/ (exists t, v = PyObject t).

(** A tag value that is present with the text [s]: a text that is not
    empty, or bytes that are not empty and decode to [s]. *)
Definition tag_gives {RT : Runtime} (v : pyval) (s : string) : Prop :=
  (v = PyStr s /\ s <> EmptyString)
  \/ (exists b, v = PyBytes b /\ b <> [] /\ bytes_decode b = Ret s).

(** A tag value that is passed over like an absent tag: one from which
    no date is taken, or bytes that do not decode. *)
Definition tag_passed_over {RT : Runtime} (v : pyval) : Prop :=
  no_date_value v
  \/ (exists b e, v = PyBytes b /\ bytes_decode b = Raise e).

(** A raster whose rows agree with its size. *)
Definition wf_image (im : Gui.Image) : Prop :=
  length (Gui.rows im) = Z.to_nat (Gui.height im)
  /\ Forall (fun r => length r = Z.to_nat (Gui.width im)) (Gui.rows im).

(** The colours of a raster, without its alpha. *)
Definition colours (im : Gui.Image) : list (list (Byte.byte * Byte.byte * Byte.byte)) :=
  map (map (fun p : Gui.pixel => fst p)) (Gui.rows im).

(** A file system in which every entry lies in a directory. *)
Definition fs_wf (fs : gmap (list string) Fs.kind) : Prop :=
  forall p k, fs !! p = Some k -> Fs.kind_of fs (PyPath.parent p) = Some Fs.Dir.

Definition is_warning (m : message) : Prop :=
  match m with
  | WarnFont _ _ | WarnColor _ => True
  | _ => False
  end.

(** A computation that leaves the file system alone and prints nothing
    but warnings. *)
Definition warns_only {A : Type} (c : M A) : Prop :=
  forall w r w', c w = (r, w') ->
    fs w' = fs w
    /\ exists msgs : list message,
         stdout w' = (stdout w ++ msgs)%list /\ Forall is_warning msgs.

(** ** Sample data *)

Module Sample.
Definition app_custom_off_image : Gui.App :=
  {| Gui.last_position := "custom_900_-20";
     Gui.preview_label_width := 800; Gui.preview_label_height := 600;
     Gui.margin_spin := 12; Gui.watermark_image_path := "";
     Gui.watermark_image_size_slider := 50; Gui.watermark_image_opacity_slider := 100;
     Gui.output_format_combo := "JPEG"; Gui.keep_name_radio := true;
     Gui.add_prefix_radio := false; Gui.add_suffix_radio := false;
     Gui.prefix_edit := "wm_"; Gui.suffix_edit := "_watermarked" |}.

Definition app_custom_bad_tag : Gui.App :=
  {| Gui.last_position := "custom_12_";
     Gui.preview_label_width := 0; Gui.preview_label_height := 600;
     Gui.margin_spin := 12; Gui.watermark_image_path := "";
     Gui.watermark_image_size_slider := 50; Gui.watermark_image_opacity_slider := 100;
     Gui.output_format_combo := "JPEG"; Gui.keep_name_radio := true;
     Gui.add_prefix_radio := false; Gui.add_suffix_radio := false;
     Gui.prefix_edit := "wm_"; Gui.suffix_edit := "_watermarked" |}.

(** A standard library whose date parser rejects every string and whose
    decoder is given ASCII bytes, on a system that refuses nothing. *)
Definition runtime : Runtime :=
  {| bytes_decode := fun b => Ret (string_of_list_byte b);
     strptime := fun _ _ => Raise ValueError;
     stat_error := fun _ => None;
     listdir_error := fun _ => None;
     mkdir_error := fun _ => None;
     stdout_error := fun _ => None |}.

Definition exif_of (value : string) : gmap Z pyval :=
  {[ Cli.EXIF_TAG_DATETIME_ORIGINAL := PyStr value ]}.

(** A Pillow whose images are their EXIF reading: the file
    [broken.jpg] does not decode, [nodate.jpg] has no EXIF tags, every
    other file was taken on 2023-11-05. *)
Definition pillow : Pillow :=
  {| image := Exc (gmap Z pyval);
     font := unit;
     Image_open := fun p =>
       if String.eqb (PyPath.name p) "broken.jpg" then Raise (LibraryError 1)
       else if String.eqb (PyPath.name p) "nodate.jpg" then Ret (Ret ∅)
       else Ret (Ret (exif_of "2023:11:05 14:22:10"));
     Image_getexif := fun im => im;
     Image_mode := fun _ => "RGB";
     Image_size := fun _ => (800, 600);
     Image_convert := fun im _ => Ret im;
     Image_encode := fun _ _ _ => Ret tt;
     ImageColor_getrgb := fun _ => Ret [255; 255; 255];
     ImageFont_truetype := fun _ _ => Ret tt;
     ImageFont_load_default := Ret tt;
     ImageDraw_textbbox := fun _ _ _ _ => Ret (0, 0, 100, 40);
     ImageDraw_text := fun im _ _ _ _ => Ret im |}.

(** An application set to add the prefix [wm_] and to write JPEG. *)
Definition app_prefix_jpeg : Gui.App :=
  {| Gui.last_position := "br";
     Gui.preview_label_width := 800; Gui.preview_label_height := 600;
     Gui.margin_spin := 12; Gui.watermark_image_path := "logo.png";
     Gui.watermark_image_size_slider := 100;
     Gui.watermark_image_opacity_slider := 0;
     Gui.output_format_combo := "JPEG (" +:+ "*.jpg)";
     Gui.keep_name_radio := false;
     Gui.add_prefix_radio := true; Gui.add_suffix_radio := false;
     Gui.prefix_edit := "wm_"; Gui.suffix_edit := "_watermarked" |}.

Definition red : Gui.pixel := (Byte.xff, Byte.x00, Byte.x00, Byte.xff).
Definition grey : Gui.pixel := (Byte.x80, Byte.x80, Byte.x80, Byte.x40).
Definition blue : Gui.pixel := (Byte.x00, Byte.x00, Byte.xff, Byte.xff).

(** A base of 3 by 2 pixels and a logo of 2 by 1. *)
Definition base_image : Gui.Image :=
  {| Gui.size := (3, 2);
     Gui.rows := [[red; grey; red]; [grey; red; grey]] |}.

Definition logo : Gui.Image :=
  {| Gui.size := (2, 1); Gui.rows := [[blue; blue]] |}.

(** A system that holds [logo.png] alone, with a Pillow that resizes an
    image to its own size and to no other. *)
Definition overlay_lib : Gui.Overlay :=
  {| Gui.overlay := Gui.Image;
     Gui.os_path_exists := fun p => String.eqb p "logo.png";
     Gui.Image_open := fun _ => Ret logo;
     Gui.overlay_width := Gui.width;
     Gui.overlay_height := Gui.height;
     Gui.Image_resize := fun im sz =>
       if (Z.eqb (fst sz) (Gui.width im) && Z.eqb (snd sz) (Gui.height im))%bool
       then Ret im else Raise (LibraryError 2);
     Gui.overlay_rgba := fun im => Ret im |}.

(** A directory [photos] with two pictures, a text file, a
    subdirectory with a picture, and a regular file that bears the name
    of the output directory. *)
Definition album : gmap (list string) Fs.kind :=
  {[ ["photos"] := Fs.Dir;
     ["photos"; "b.JPG"] := Fs.File;
     ["photos"; "a.png"] := Fs.File;
     ["photos"; "notes.txt"] := Fs.File;
     ["photos"; "sub"] := Fs.Dir;
     ["photos"; "sub"; "c.jpg"] := Fs.File ]}.

Definition album_blocked : gmap (list string) Fs.kind :=
  <[ ["photos"; "photos_watermark"] := Fs.File ]> album.

Definition args_photos : Cli.Namespace :=
  {| Cli.args_input_path := ["photos"];
     Cli.args_font_size := 36;
     Cli.args_color := "#FFFFFF";
     Cli.args_position := "br";
     Cli.args_margin := 12;
     Cli.args_font := None |}.

(** A date and a time with a tab between them. *)
Definition tab_separated : string :=
  "2023:11:05" +:+ String "009" "14:22:10".

End Sample.

(** ** The application: position tags, preview and colours *)

Module Interaction.
Import Gui.

(** [str(n)] of an integer, as an f-string writes it. *)
Definition str_of_int (n : Z) : string := NilEmpty.string_of_int (Z.to_int n).

(** [WatermarkApp.on_watermark_position_changed]: the tag
    [custom_<x>_<y>] is stored. *)
Definition on_watermark_position_changed (app : App) (x y : Z) : App :=
  set_last_position app ("custom_" +:+ str_of_int x +:+ "_" +:+ str_of_int y).

(** The body of the [try] that [_update_text_watermark_preview] and
    [_update_image_watermark_preview] share: the position of the
    watermark label on the preview for a custom tag. *)
Definition preview_custom_position (app : App)
    (img_width img_height wm_width wm_height : Z) : Exc (Z * Z) :=
  match PyStr.split "_" (last_position app) with
  | [_; x; y] =>
      (let! x := PyStr.to_int x in
       let! y := PyStr.to_int y in
       Ret (clamp x (img_width - wm_width), clamp y (img_height - wm_height)))%exc
  | _ => Raise ValueError
  end.

(** The float [1.0]. *)
Definition one : PyFloat.float := S754_finite false 4503599627370496 (-52).

(** [a < b] on floats. *)
Definition flt (a b : PyFloat.float) : bool :=
  SFltb a b.

(** [min(a, b)] on floats: the first argument unless the second is
    smaller. *)
Definition fmin (a b : PyFloat.float) : PyFloat.float :=
  if flt b a then b else a.

(** The size of the preview that [update_preview] computes for an image
    and sets on [preview_label]:
    [scale = min(800 / w, 600 / h, 1.0)], [int(w * scale)],
    [int(h * scale)]. *)
Definition preview_size (img_width img_height : Z) : Exc (Z * Z) :=
  (let! by_width := PyFloat.truediv 800 img_width in
   let! by_height := PyFloat.truediv 600 img_height in
   let scale := fmin (fmin by_width by_height) one in
   let! new_width := scaled img_width scale in
   let! new_height := scaled img_height scale in
   Ret (new_width, new_height))%exc.

(** [s[i:j]] for [0 <= i <= j]. *)
Definition slice (i j : nat) (s : string) : string :=
  String.substring i (j - i) s.

Definition hex_digit (c : ascii) : option Z :=
  let n := PyStr.code c in
  if (48 <=? n) && (n <=? 57) then Some (n - 48)
  else if (97 <=? n) && (n <=? 102) then Some (n - 87)
  else if (65 <=? n) && (n <=? 70) then Some (n - 55)
  else None.

Fixpoint hex_value (acc : Z) (s : string) : option Z :=
  match s with
  | EmptyString => Some acc
  | String c s' =>
      match hex_digit c with
      | Some d => hex_value (16 * acc + d) s'
      | None => None
      end
  end.

(** [int(s, 16)] on a string of at most two characters, as
    [is_dark_color] passes it: whitespace is dropped, one sign is
    allowed, at least one hexadecimal digit is needed. In so short a
    string neither the prefix [0x] nor an underscore can be part of a
    literal that [int] accepts. *)
Definition to_int16 (s : string) : Exc Z :=
  let body (t : string) : Exc Z :=
    match t with
    | EmptyString => Raise ValueError
    | _ => match hex_value 0 t with
           | Some v => Ret v
           | None => Raise ValueError
           end
    end in
  match PyStr.int_strip s with
  | String "-" t => (let! v := body t in Ret (- v))%exc
  | String "+" t => body t
  | t => body t
  end.

(** [WatermarkApp.is_dark_color]: the handler of the bare [except]
    returns [False]. *)
Definition is_dark_color (color_hex : string) : bool :=
  match
    (let! r := to_int16 (slice 1 3 color_hex) in
     let! g := to_int16 (slice 3 5 color_hex) in
     let! b := to_int16 (slice 5 7 color_hex) in
     let! brightness := PyFloat.truediv (r * 299 + g * 587 + b * 114) 1000 in
     let! limit := PyFloat.of_int 128 in
     Ret (flt brightness limit))%exc
  with
  | Ret dark => dark
  | Raise _ => false
  end.

End Interaction.

(** ** More sample data *)

Module Studio.

(** A Pillow like [Sample.pillow] that knows one colour and no font
    file: every other colour is rejected with [ValueError], every font
    file fails to load. *)
Definition pillow : Pillow :=
  {| image := Exc (gmap Z pyval);
     font := unit;
     Image_open := fun p => Ret (Ret (Sample.exif_of "2023:11:05 14:22:10"));
     Image_getexif := fun im => im;
     Image_mode := fun _ => "RGB";
     Image_size := fun _ => (800, 600);
     Image_convert := fun im _ => Ret im;
     Image_encode := fun _ _ _ => Ret tt;
     ImageColor_getrgb := fun c =>
       if String.eqb c "#FFFFFF" then Ret [255; 255; 255] else Raise ValueError;
     ImageFont_truetype := fun _ _ => Raise (LibraryError 3);
     ImageFont_load_default := Ret tt;
     ImageDraw_textbbox := fun _ _ _ _ => Ret (0, 0, 100, 40);
     ImageDraw_text := fun im _ _ _ _ => Ret im |}.

Definition options_bad : Cli.WatermarkOptions :=
  {| Cli.font_size := 36; Cli.color := "nocolour"; Cli.position := "br";
     Cli.margin := 12; Cli.font_path := Some "missing.ttf" |}.

(** An application that puts [logo.png], at its own size and fully
    opaque, into the bottom-right corner without a margin. *)
Definition app_logo_corner : Gui.App :=
  {| Gui.last_position := "br";
     Gui.preview_label_width := 800; Gui.preview_label_height := 600;
     Gui.margin_spin := 0; Gui.watermark_image_path := "logo.png";
     Gui.watermark_image_size_slider := 100;
     Gui.watermark_image_opacity_slider := 100;
     Gui.output_format_combo := "PNG";
     Gui.keep_name_radio := true;
     Gui.add_prefix_radio := false; Gui.add_suffix_radio := false;
     Gui.prefix_edit := "wm_"; Gui.suffix_edit := "_watermarked" |}.


(** A Pillow that, like the real one, refuses to resize to an empty
    size, and an application that halves [logo.png] at opacity 0. *)
Definition overlay_pillow : Gui.Overlay :=
  {| Gui.overlay := Gui.Image;
     Gui.os_path_exists := fun p => String.eqb p "logo.png";
     Gui.Image_open := fun _ => Ret Sample.logo;
     Gui.overlay_width := Gui.width;
     Gui.overlay_height := Gui.height;
     Gui.Image_resize := fun im sz =>
       if ((fst sz <=? 0) || (snd sz <=? 0))%bool then Raise ValueError
       else Ret (Gui.Image_new sz Sample.blue);
     Gui.overlay_rgba := fun im => Ret im |}.

Definition app_half_logo : Gui.App :=
  {| Gui.last_position := "br";
     Gui.preview_label_width := 800; Gui.preview_label_height := 600;
     Gui.margin_spin := 12; Gui.watermark_image_path := "logo.png";
     Gui.watermark_image_size_slider := 50;
     Gui.watermark_image_opacity_slider := 0;
     Gui.output_format_combo := "JPEG (" +:+ "*.jpg)";
     Gui.keep_name_radio := true;
     Gui.add_prefix_radio := false; Gui.add_suffix_radio := false;
     Gui.prefix_edit := "wm_"; Gui.suffix_edit := "_watermarked" |}.

(** A system on which the directory [photos] cannot be read, and one
    whose standard output refuses every line. *)
Definition runtime_unreadable : Runtime :=
  {| bytes_decode := fun b => Ret (string_of_list_byte b);
     strptime := fun _ _ => Raise ValueError;
     stat_error := fun _ => None;
     listdir_error := fun p =>
       if bool_decide (p = ["photos"]) then Some PermissionError else None;
     mkdir_error := fun _ => None;
     stdout_error := fun _ => None |}.

(** A system on which nothing can be created. *)
Definition runtime_readonly : Runtime :=
  {| bytes_decode := fun b => Ret (string_of_list_byte b);
     strptime := fun _ _ => Raise ValueError;
     stat_error := fun _ => None;
     listdir_error := fun _ => None;
     mkdir_error := fun _ => Some PermissionError;
     stdout_error := fun _ => None |}.

Definition runtime_mute : Runtime :=
  {| bytes_decode := fun b => Ret (string_of_list_byte b);
     strptime := fun _ _ => Raise ValueError;
     stat_error := fun _ => None;
     listdir_error := fun _ => None;
     mkdir_error := fun _ => None;
     stdout_error := fun _ => Some UnicodeEncodeError |}.

(** [Sample.base_image] with [Sample.logo] on the right of its second
    row. *)
Definition stamped : Gui.Image :=
  {| Gui.size := (3, 2);
     Gui.rows := [[Sample.red; Sample.grey; Sample.red];
                  [Sample.grey; Sample.blue; Sample.blue]] |}.

End Studio.

(** The pixel in column [i] of row [j], when the raster has one. *)
Definition pixel_at (im : Gui.Image) (i j : nat) : option Gui.pixel :=
  match Gui.rows im !! j with
  | Some row => row !! i
  | None => None
  end.

(** * Properties *)

(** ** The models of floats and of the file system at work *)

Example truediv_one_third :
  PyFloat.truediv 1 3 = Ret (S754_finite false 6004799503160661 (-54)).
Proof. vm_compute. reflexivity. Qed.

Example truediv_by_zero : PyFloat.truediv 4000 0 = Raise ZeroDivisionError.
Proof. reflexivity. Qed.

(** [int(49 * (1 / 49))] is 0 and [int(100 * (4000 / 800))] is 500. *)
Example scale_coord_rounds :
  (let! s := PyFloat.truediv 1 49 in Gui.scale_coord "49" s)%exc = Ret 0
  /\ (let! s := PyFloat.truediv 4000 800 in Gui.scale_coord "100" s)%exc = Ret 500.
Proof. split; vm_compute; reflexivity. Qed.

Lemma mkdir_without_parents (n m : nat) (exist_ok : bool)
    (fs0 : gmap (list string) Fs.kind) (p : path) :
  Fs.mkdir n false exist_ok fs0 p = Fs.mkdir m false exist_ok fs0 p.
Proof.
  destruct n, m; simpl; destruct (Fs.os_mkdir fs0 p) as [fs1|[]]; reflexivity.
Qed.

(** The bound of [mkdir] does not matter once it reaches the length of
    the path. *)
Lemma mkdir_enough_fuel (n m : nat) (parents exist_ok : bool)
    (fs0 : gmap (list string) Fs.kind) (p : path) :
  (length p <= n)%nat -> (length p <= m)%nat ->
  Fs.mkdir n parents exist_ok fs0 p = Fs.mkdir m parents exist_ok fs0 p.
Proof.
  revert m parents exist_ok fs0 p.
  induction n as [|n IH]; intros m parents exist_ok fs0 p Hn Hm.
  - destruct p; [|simpl in Hn; lia].
    destruct m; simpl; reflexivity.
  - destruct p as [|a p] using rev_ind.
    { destruct m; reflexivity. }
    rewrite length_app in Hn, Hm. simpl in Hn, Hm.
    destruct m as [|m]; [lia|]. simpl.
    destruct (Fs.os_mkdir fs0 (p ++ [a])) as [fs1|[]]; try reflexivity.
    destruct (negb parents || _)%bool; [reflexivity|].
    unfold PyPath.parent. rewrite List.removelast_last.
    rewrite (IH m true true fs0 p) by lia.
    destruct (Fs.mkdir m true true fs0 p) as [fs1|e]; [|reflexivity].
    apply mkdir_without_parents.
Qed.

(** ** Placement *)

Section Placement.
Import Gui.

Lemma ebind_Ret {A B : Type} (c : Exc A) (k : A -> Exc B) (b : B) :
  ebind c k = Ret b -> exists a, c = Ret a /\ k a = Ret b.
Proof. destruct c as [a|e]; simpl; intros E; [eauto | discriminate]. Qed.

Lemma ebind_ret_l {A B : Type} (a : A) (k : A -> Exc B) :
  ebind (Ret a) k = k a.
Proof. reflexivity. Qed.

Lemma clamp_bounds (x bound : Z) :
  0 <= clamp x bound /\ (0 <= bound -> clamp x bound <= bound)
  /\ (bound < 0 -> clamp x bound = 0).
Proof. unfold clamp. lia. Qed.

(** The nearest point of [[0, bound]] to [x], for a range that is not
    empty. *)
Lemma clamp_nearest (x bound : Z) :
  0 <= bound ->
  clamp x bound = (if x <? 0 then 0 else if bound <? x then bound else x).
Proof.
  intros Hb. unfold clamp.
  destruct (Z.ltb_spec x 0); destruct (Z.ltb_spec bound x); lia.
Qed.

(** C1. For every image size [(W, H)], watermark size [(w, h)] and
    margin [m], both programs place a preset by the anchor formulas:
    top-left [(m, m)], top-right [(W-w-m, m)], bottom-left
    [(m, H-h-m)], bottom-right [(W-w-m, H-h-m)], centre
    [((W-w)/2, (H-h)/2)] with floor division; 800x600, 100x40 and
    margin 12 at bottom-right give [(688, 548)]. *)
Theorem preset_anchor_formulas (app : App) (W H w h m : Z) :
  (Cli.compute_position (W, H) (w, h) "tl" m = (m, m)
   /\ Cli.compute_position (W, H) (w, h) "tr" m = (W - w - m, m)
   /\ Cli.compute_position (W, H) (w, h) "bl" m = (m, H - h - m)
   /\ Cli.compute_position (W, H) (w, h) "br" m = (W - w - m, H - h - m)
   /\ Cli.compute_position (W, H) (w, h) "center" m
      = ((W - w) `div` 2, (H - h) `div` 2))
  /\ (_calculate_watermark_position (set_last_position app "tl") W H w h m
        = Ret ((m, m), set_last_position app "tl")
      /\ _calculate_watermark_position (set_last_position app "tr") W H w h m
        = Ret ((W - w - m, m), set_last_position app "tr")
      /\ _calculate_watermark_position (set_last_position app "bl") W H w h m
        = Ret ((m, H - h - m), set_last_position app "bl")
      /\ _calculate_watermark_position (set_last_position app "br") W H w h m
        = Ret ((W - w - m, H - h - m), set_last_position app "br")
      /\ _calculate_watermark_position (set_last_position app "center") W H w h m
        = Ret (((W - w) `div` 2, (H - h) `div` 2),
               set_last_position app "center"))
  /\ Cli.compute_position (800, 600) (100, 40) "br" 12 = (688, 548)
  /\ _calculate_watermark_position (set_last_position app "br") 800 600 100 40 12
     = Ret ((688, 548), set_last_position app "br").
Proof.
  repeat split; reflexivity.
Qed.

(** How a custom position that is returned was computed. *)
Lemma custom_position_Ret (app : App) (W H w h x y : Z) :
  custom_position app W H w h = Ret (x, y) ->
  exists tag px py sx sy x0 y0,
    PyStr.split "_" (last_position app) = [tag; px; py]
    /\ PyFloat.truediv W (preview_label_width app) = Ret sx
    /\ PyFloat.truediv H (preview_label_height app) = Ret sy
    /\ scale_coord px sx = Ret x0
    /\ scale_coord py sy = Ret y0
    /\ x = clamp x0 (W - w) /\ y = clamp y0 (H - h).
Proof.
  unfold custom_position. intros E.
  destruct (PyStr.split "_" (last_position app)) as [|tag [|px [|py [|? ?]]]];
    try discriminate.
  apply ebind_Ret in E as (sx & Hsx & E).
  apply ebind_Ret in E as (sy & Hsy & E).
  apply ebind_Ret in E as (x0 & Hx0 & E).
  apply ebind_Ret in E as (y0 & Hy0 & E).
  injection E as <- <-.
  exists tag, px, py, sx, sy, x0, y0. repeat split; assumption.
Qed.

(** C2. When the stored point of a custom position is mapped to the
    image, the position that is returned is the mapped point clamped to
    [[0, W-w]] and [[0, H-h]]: never negative, never beyond [W-w] or
    [H-h] when those are not negative, the nearest boundary when the
    mapped point is outside, and 0 on an axis where the watermark is
    larger than the image. *)
Theorem custom_position_is_clamped (app : App) (W H w h m x y : Z) :
  PyStr.startswith "custom_" (last_position app) = true ->
  custom_position app W H w h = Ret (x, y) ->
  _calculate_watermark_position app W H w h m = Ret ((x, y), app)
  /\ (0 <= x /\ 0 <= y)
  /\ (w <= W -> x <= W - w)
  /\ (h <= H -> y <= H - h)
  /\ (W < w -> x = 0)
  /\ (H < h -> y = 0)
  /\ exists tag px py sx sy x0 y0,
       PyStr.split "_" (last_position app) = [tag; px; py]
       /\ PyFloat.truediv W (preview_label_width app) = Ret sx
       /\ PyFloat.truediv H (preview_label_height app) = Ret sy
       /\ scale_coord px sx = Ret x0
       /\ scale_coord py sy = Ret y0
       /\ x = Z.max 0 (Z.min x0 (W - w))
       /\ y = Z.max 0 (Z.min y0 (H - h))
       /\ (w <= W -> x = if x0 <? 0 then 0 else if W - w <? x0 then W - w else x0)
       /\ (h <= H -> y = if y0 <? 0 then 0 else if H - h <? y0 then H - h else y0).
Proof.
  intros Hc E. split.
  { unfold _calculate_watermark_position. rewrite Hc, E. reflexivity. }
  destruct (custom_position_Ret _ _ _ _ _ _ _ E)
    as (tag & px & py & sx & sy & x0 & y0 & Hs & Hsx & Hsy & Hx0 & Hy0 & -> & ->).
  pose proof (clamp_bounds x0 (W - w)) as (Hx1 & Hx2 & Hx3).
  pose proof (clamp_bounds y0 (H - h)) as (Hy1 & Hy2 & Hy3).
  repeat (split; [lia|]).
  exists tag, px, py, sx, sy, x0, y0.
  repeat (split; [assumption || reflexivity|]).
  split; intros; apply clamp_nearest; lia.
Qed.

Lemma custom_position_is_clamped_witness :
  _calculate_watermark_position Sample.app_custom_off_image 4000 3000 100 40 12
  = Ret ((3900, 0), Sample.app_custom_off_image).
Proof.
  apply (custom_position_is_clamped Sample.app_custom_off_image 4000 3000 100 40 12 3900 0);
    vm_compute; reflexivity.
Defined.

Lemma calculate_position_returns (app : App) (W H w h m : Z) :
  exists r, _calculate_watermark_position app W H w h m = Ret r.
Proof.
  unfold _calculate_watermark_position.
  destruct (PyStr.startswith _ _); [|eauto].
  destruct (custom_position app W H w h) as [xy|e]; simpl; eauto.
Qed.

(** C3. [_calculate_watermark_position] never raises. When the body of
    its [try] fails on a custom position (the tag does not split into
    three parts, a coordinate is not an integer, or a preview dimension
    is zero), it returns the bottom-right position for the margin it
    was called with, and stores ['br']. *)
Theorem custom_failure_falls_back (app : App) (W H w h m : Z) :
  (exists r, _calculate_watermark_position app W H w h m = Ret r)
  /\ (PyStr.startswith "custom_" (last_position app) = true ->
      (forall e, custom_position app W H w h = Raise e ->
         _calculate_watermark_position app W H w h m
         = Ret ((W - w - m, H - h - m), set_last_position app "br"))
      /\ (preview_label_width app = 0 \/ preview_label_height app = 0 ->
          exists e, custom_position app W H w h = Raise e)
      /\ (length (PyStr.split "_" (last_position app)) <> 3%nat ->
          custom_position app W H w h = Raise ValueError)
      /\ (forall tag px py,
            PyStr.split "_" (last_position app) = [tag; px; py] ->
            PyStr.to_int px = Raise ValueError
            \/ PyStr.to_int py = Raise ValueError ->
            exists e, custom_position app W H w h = Raise e)).
Proof.
  split; [apply calculate_position_returns|].
  intros Hc. repeat split.
  - intros e E. unfold _calculate_watermark_position. rewrite Hc, E.
    reflexivity.
  - intros Hz. unfold custom_position.
    destruct (PyStr.split "_" (last_position app)) as [|tag [|px [|py [|? ?]]]];
      eauto.
    unfold PyFloat.truediv at 1.
    destruct (Z.eqb_spec (preview_label_width app) 0) as [Hw|Hw]; simpl; eauto.
    destruct Hz as [Hz|Hz]; [contradiction|].
    destruct (match SFdiv _ _ _ _ with S754_infinity _ => _ | _ => _ end);
      simpl; eauto.
    unfold PyFloat.truediv. rewrite Hz. simpl. eauto.
  - intros Hl. unfold custom_position.
    destruct (PyStr.split "_" (last_position app)) as [|tag [|px [|py [|? ?]]]];
      try reflexivity.
    simpl in Hl. congruence.
  - intros tag px py Hs Hbad. unfold custom_position. rewrite Hs.
    destruct (PyFloat.truediv W _) as [sx|]; simpl; eauto.
    destruct (PyFloat.truediv H _) as [sy|]; simpl; eauto.
    unfold scale_coord at 1.
    destruct (PyStr.to_int px) as [n|e1] eqn:Epx; simpl; eauto.
    destruct (PyFloat.int_mul n sx) as [f|]; simpl; eauto.
    destruct (PyFloat.to_int f) as [x0|]; simpl; eauto.
    destruct Hbad as [Hbad|Hbad]; [discriminate|].
    unfold scale_coord. rewrite Hbad. simpl. eauto.
Qed.

Lemma custom_failure_falls_back_witness :
  _calculate_watermark_position Sample.app_custom_bad_tag 800 600 100 40 12
  = Ret ((688, 548), set_last_position Sample.app_custom_bad_tag "br").
Proof.
  destruct (custom_failure_falls_back Sample.app_custom_bad_tag 800 600 100 40 12)
    as (_ & Hfall).
  destruct (Hfall eq_refl) as (Hraise & Hzero & _).
  destruct (Hzero (or_introl eq_refl)) as (e & He).
  exact (Hraise e He).
Defined.

End Placement.

(** ** The capture date *)

Section ExifDate.
Context {RT : Runtime} {PIL : Pillow}.
Import Cli.

Lemma split_cons (sep : ascii) (s : string) :
  exists a l, PyStr.split sep s = a :: l.
Proof.
  induction s as [|c s IH]; simpl; [eauto|].
  destruct (Ascii.eqb c sep); [eauto|].
  destruct IH as (a & l & ->). eauto.
Qed.

Lemma validation_is_caught (c : Exc unit) :
  try_except c (fun _ => Ret tt) = Ret tt.
Proof. destruct c as [[]|e]; reflexivity. Qed.

(** The date that a text value yields. *)
Lemma date_of_text (s : string) :
  date_of_value (PyStr s) =
  if String.eqb s EmptyString then Ret None
  else Ret (Some (PyStr.replace ":" "-"
                    (hd EmptyString (PyStr.split " " (PyStr.strip s))))).
Proof.
  unfold date_of_value. simpl. destruct (String.eqb s EmptyString); simpl; [reflexivity|].
  destruct (split_cons " " (PyStr.strip s)) as (a & l & ->). simpl.
  rewrite validation_is_caught. reflexivity.
Qed.

Lemma date_of_decoded (b : list Byte.byte) (s : string) :
  b <> [] -> bytes_decode b = Ret s ->
  date_of_value (PyBytes b) =
  Ret (Some (PyStr.replace ":" "-"
               (hd EmptyString (PyStr.split " " (PyStr.strip s))))).
Proof.
  intros Hb Hd. unfold date_of_value.
  destruct b as [|x b]; [congruence|]. simpl. rewrite Hd.
  destruct (split_cons " " (PyStr.strip s)) as (a & l & ->). simpl.
  rewrite validation_is_caught. reflexivity.
Qed.

Lemma date_of_no_date (v : pyval) :
  no_date_value v -> date_of_value v = Ret None.
Proof.
  intros [Hf|[(n & ->)|(t & ->)]]; unfold date_of_value.
  - rewrite Hf. reflexivity.
  - simpl. destruct (Z.eqb n 0); reflexivity.
  - simpl. destruct t; reflexivity.
Qed.

Lemma date_of_value_returns (v : pyval) : exists r, date_of_value v = Ret r.
Proof.
  destruct v as [|s|b|n|t].
  - exists None. reflexivity.
  - rewrite date_of_text. destruct (String.eqb s EmptyString); eauto.
  - destruct b as [|x b]; [exists None; reflexivity|].
    destruct (bytes_decode (x :: b)) as [s|e] eqn:Hd.
    + erewrite date_of_decoded by (eassumption || discriminate). eauto.
    + exists None. unfold date_of_value. simpl. rewrite Hd. reflexivity.
  - exists None. apply date_of_no_date. right. left. eauto.
  - exists None. apply date_of_no_date. right. right. eauto.
Qed.

Lemma scan_tags_returns (exif : gmap Z pyval) (tags : list Z) :
  exists r, scan_tags exif tags = Ret r.
Proof.
  induction tags as [|tag tags IH]; simpl; [eauto|].
  destruct (date_of_value_returns (default PyNone (exif !! tag))) as ([d|] & ->);
    eauto.
Qed.

Lemma scan_tags_skip (exif : gmap Z pyval) (tag : Z) (tags : list Z) :
  date_of_value (default PyNone (exif !! tag)) = Ret None ->
  scan_tags exif (tag :: tags) = scan_tags exif tags.
Proof. intros H. simpl. rewrite H. reflexivity. Qed.

Lemma scan_tags_hit (exif : gmap Z pyval) (tag : Z) (tags : list Z) (d : string) :
  date_of_value (default PyNone (exif !! tag)) = Ret (Some d) ->
  scan_tags exif (tag :: tags) = Ret (Some d).
Proof. intros H. simpl. rewrite H. reflexivity. Qed.

Lemma extract_scans (im : image) (exif : gmap Z pyval) :
  Image_getexif im = Ret exif -> exif <> ∅ ->
  extract_exif_date im
  = scan_tags exif [EXIF_TAG_DATETIME_ORIGINAL; EXIF_TAG_DATETIME_DIGITIZED;
                    EXIF_TAG_DATETIME].
Proof.
  intros Hg Hne. unfold extract_exif_date. rewrite Hg.
  rewrite bool_decide_eq_false_2 by assumption. reflexivity.
Qed.

Lemma text_tag_not_empty (exif : gmap Z pyval) (tag : Z) (s : string) :
  default PyNone (exif !! tag) = PyStr s -> exif <> ∅.
Proof.
  intros H ->. rewrite lookup_empty in H. discriminate.
Qed.

Lemma text_date (s : string) :
  s <> EmptyString ->
  date_of_value (PyStr s)
  = Ret (Some (PyStr.replace ":" "-"
                 (hd EmptyString (PyStr.split " " (PyStr.strip s))))).
Proof.
  intros Hs. rewrite date_of_text.
  destruct (String.eqb_spec s EmptyString); [contradiction|reflexivity].
Qed.

Lemma date_of_given (v : pyval) (s : string) :
  tag_gives v s ->
  date_of_value v
  = Ret (Some (PyStr.replace ":" "-"
                 (hd EmptyString (PyStr.split " " (PyStr.strip s))))).
Proof.
  intros [(-> & Hs)|(b & -> & Hb & Hd)].
  - apply text_date, Hs.
  - apply date_of_decoded; assumption.
Qed.

Lemma date_of_passed_over (v : pyval) :
  tag_passed_over v -> date_of_value v = Ret None.
Proof.
  intros [Hno|(b & e & -> & Hd)]; [apply date_of_no_date, Hno|].
  unfold date_of_value. destruct b as [|x b]; [reflexivity|].
  simpl. rewrite Hd. reflexivity.
Qed.

Lemma given_tag_not_empty (exif : gmap Z pyval) (tag : Z) (s : string) :
  tag_gives (default PyNone (exif !! tag)) s -> exif <> ∅.
Proof.
  intros H ->. rewrite lookup_empty in H.
  destruct H as [(H & _)|(b & H & _)]; discriminate.
Qed.

(** C4, as amended. The tags are read in the order DateTimeOriginal,
    DateTimeDigitized, DateTime, and the first present one gives the
    result. A tag is present when its value is a text that is not empty,
    or bytes that are not empty, which are decoded first; a tag whose
    value is false, is neither text nor bytes, or does not decode, is
    passed over like an absent one. The result is the text of that tag
    without its surrounding whitespace, cut at its first space
    character, colons replaced by hyphens; this holds whatever the
    strict date parser answers. When every tag is absent or passed over
    the result is [None]. *)
Theorem exif_date_priority_and_format (im : image) (exif : gmap Z pyval) :
  Image_getexif im = Ret exif ->
  let date_of (s : string) :=
    PyStr.replace ":" "-" (hd EmptyString (PyStr.split " " (PyStr.strip s))) in
  let value (tag : Z) := default PyNone (exif !! tag) in
  (forall s, tag_gives (value EXIF_TAG_DATETIME_ORIGINAL) s ->
     extract_exif_date im = Ret (Some (date_of s)))
  /\ (forall s, tag_passed_over (value EXIF_TAG_DATETIME_ORIGINAL) ->
        tag_gives (value EXIF_TAG_DATETIME_DIGITIZED) s ->
        extract_exif_date im = Ret (Some (date_of s)))
  /\ (forall s, tag_passed_over (value EXIF_TAG_DATETIME_ORIGINAL) ->
        tag_passed_over (value EXIF_TAG_DATETIME_DIGITIZED) ->
        tag_gives (value EXIF_TAG_DATETIME) s ->
        extract_exif_date im = Ret (Some (date_of s)))
  /\ (tag_passed_over (value EXIF_TAG_DATETIME_ORIGINAL) ->
      tag_passed_over (value EXIF_TAG_DATETIME_DIGITIZED) ->
      tag_passed_over (value EXIF_TAG_DATETIME) ->
      extract_exif_date im = Ret None)
  /\ (forall tag, exif !! tag = None -> tag_passed_over (value tag))
  /\ (forall tag v,
        exif !! tag = Some v ->
        (exists s, tag_gives (value tag) s) \/ tag_passed_over (value tag))
  /\ date_of "2023:11:05 14:22:10" = "2023-11-05".
Proof.
  intros Hg date_of value. split; [|split; [|split; [|split; [|split; [|split]]]]].
  - intros s Hv. rewrite (extract_scans im exif Hg (given_tag_not_empty _ _ _ Hv)).
    apply scan_tags_hit. apply date_of_given, Hv.
  - intros s H1 Hv.
    rewrite (extract_scans im exif Hg (given_tag_not_empty _ _ _ Hv)).
    rewrite scan_tags_skip by (apply date_of_passed_over, H1).
    apply scan_tags_hit. apply date_of_given, Hv.
  - intros s H1 H2 Hv.
    rewrite (extract_scans im exif Hg (given_tag_not_empty _ _ _ Hv)).
    rewrite scan_tags_skip by (apply date_of_passed_over, H1).
    rewrite scan_tags_skip by (apply date_of_passed_over, H2).
    apply scan_tags_hit. apply date_of_given, Hv.
  - intros H1 H2 H3. unfold extract_exif_date. rewrite Hg.
    destruct (bool_decide (exif = ∅)); [reflexivity|].
    rewrite scan_tags_skip by (apply date_of_passed_over, H1).
    rewrite scan_tags_skip by (apply date_of_passed_over, H2).
    rewrite scan_tags_skip by (apply date_of_passed_over, H3).
    reflexivity.
  - intros tag Hnone. unfold value. rewrite Hnone. left. left. reflexivity.
  - intros tag v Hv. unfold value. rewrite Hv. simpl.
    destruct v as [|s|b|n|t].
    + right. left. left. reflexivity.
    + destruct (String.eqb_spec s EmptyString) as [->|Hs].
      * right. left. left. reflexivity.
      * left. exists s. left. split; [reflexivity|exact Hs].
    + destruct b as [|x b]; [right; left; left; reflexivity|].
      destruct (bytes_decode (x :: b)) as [s|e] eqn:Hd.
      * left. exists s. right. exists (x :: b).
        split; [reflexivity|]. split; [discriminate|exact Hd].
      * right. right. exists (x :: b), e. split; [reflexivity|exact Hd].
    + right. left. right. left. eauto.
    + right. left. right. right. eauto.
  - reflexivity.
Qed.

(** C9. [extract_exif_date] returns for every image, a text or [None],
    and never raises: an EXIF block that cannot be read or is empty
    gives [None]; a tag value that is false is passed over; a value of
    bytes is decoded and treated as the decoded text; a value that is
    neither text nor bytes is passed over. *)
Theorem extract_exif_date_total (im : image) :
  (exists r, extract_exif_date im = Ret r)
  /\ (forall e, Image_getexif im = Raise e -> extract_exif_date im = Ret None)
  /\ (Image_getexif im = Ret ∅ -> extract_exif_date im = Ret None)
  /\ (forall v, truthy v = false -> date_of_value v = Ret None)
  /\ (forall b s, b <> [] -> bytes_decode b = Ret s ->
        date_of_value (PyBytes b)
        = Ret (Some (PyStr.replace ":" "-"
                       (hd EmptyString (PyStr.split " " (PyStr.strip s))))))
  /\ (forall n, date_of_value (PyInt n) = Ret None)
  /\ (forall t, date_of_value (PyObject t) = Ret None)
  /\ (forall exif tag tags,
        date_of_value (default PyNone (exif !! tag)) = Ret None ->
        scan_tags exif (tag :: tags) = scan_tags exif tags).
Proof.
  repeat split.
  - unfold extract_exif_date. destruct (Image_getexif im) as [exif|e]; [|eauto].
    destruct (bool_decide (exif = ∅)); [eauto|]. apply scan_tags_returns.
  - intros e He. unfold extract_exif_date. rewrite He. reflexivity.
  - intros He. unfold extract_exif_date. rewrite He. reflexivity.
  - intros v Hv. apply date_of_no_date. left. assumption.
  - apply date_of_decoded.
  - intros n. apply date_of_no_date. right. left. eauto.
  - intros t. apply date_of_no_date. right. right. eauto.
  - apply scan_tags_skip.
Qed.

End ExifDate.

Lemma exif_date_priority_and_format_witness :
  Cli.extract_exif_date (RT := Sample.runtime) (PIL := Sample.pillow)
    (Ret (Sample.exif_of "2023:11:05 14:22:10"))
  = Ret (Some "2023-11-05").
Proof.
  destruct (exif_date_priority_and_format (RT := Sample.runtime)
              (PIL := Sample.pillow)
              (Ret (Sample.exif_of "2023:11:05 14:22:10"))
              (Sample.exif_of "2023:11:05 14:22:10") eq_refl) as (H & _).
  apply (H "2023:11:05 14:22:10"). left. split; [reflexivity | discriminate].
Defined.

(** The claim C4 in its own words fails on a value whose date and time
    are separated by a tab: the function returns the whole value with
    its colons replaced, not the first whitespace-delimited token. *)
Lemma exif_date_whitespace_counterexample :
  ~ (forall (RT : Runtime) (PIL : Pillow) (im : image) (exif : gmap Z pyval)
            (s : string),
       Image_getexif im = Ret exif ->
       exif !! Cli.EXIF_TAG_DATETIME_ORIGINAL = Some (PyStr s) ->
       s <> EmptyString ->
       Cli.extract_exif_date im
       = Ret (Some (PyStr.replace ":" "-" (spec_first_whitespace_token s)))).
Proof.
  intros H.
  specialize (H Sample.runtime Sample.pillow
                (Ret (Sample.exif_of Sample.tab_separated))
                (Sample.exif_of Sample.tab_separated)
                Sample.tab_separated eq_refl eq_refl).
  vm_compute in H. specialize (H ltac:(discriminate)). discriminate H.
Qed.

Lemma extract_exif_date_total_witness :
  Cli.extract_exif_date (RT := Sample.runtime) (PIL := Sample.pillow)
    (Raise (LibraryError 1)) = Ret None.
Proof.
  destruct (extract_exif_date_total (RT := Sample.runtime)
              (PIL := Sample.pillow) (Raise (LibraryError 1))) as (_ & H & _).
  apply (H (LibraryError 1)). reflexivity.
Defined.

(** ** Output names *)

Section OutputNames.
Import Gui.





End OutputNames.

(** ** The image watermark at opacity 0 *)

Section ZeroOpacity.
Context {OV : Gui.Overlay}.
Import Gui.

Lemma blend8_zero (out inp : Byte.byte) : blend8 Byte.x00 out inp = out.
Proof.
  unfold blend8. change (Z_of_byte Byte.x00) with 0.
  rewrite Z.mul_0_r, Z.add_0_r, Z.sub_0_r.
  destruct out; vm_compute; reflexivity.
Qed.

Lemma paste_pixel_transparent (m out inp : pixel) :
  alpha m = Byte.x00 -> paste_pixel (Some m) out inp = out.
Proof.
  intros Hm. destruct out as [[[r1 g1] b1] a1], inp as [[[r2 g2] b2] a2].
  simpl. rewrite Hm, !blend8_zero. reflexivity.
Qed.

Lemma imap_same {A : Type} (f : nat -> A -> A) (l : list A) :
  (forall i a, l !! i = Some a -> f i a = a) -> imap f l = l.
Proof.
  intros Hf. apply list_eq. intros i. rewrite list_lookup_imap.
  destruct (l !! i) as [a|] eqn:E; simpl; [|reflexivity].
  rewrite (Hf i a E). reflexivity.
Qed.

Lemma zlookup_Some {A : Type} (l : list A) (i : Z) (a : A) :
  zlookup l i = Some a -> a ∈ l.
Proof.
  unfold zlookup. destruct (i <? 0); [discriminate|].
  apply list_elem_of_lookup_2.
Qed.

(** A row pasted through itself as mask, all of it transparent, leaves
    the destination row as it was. *)
Lemma paste_row_transparent (x : Z) (srow drow : list pixel) :
  Forall (fun p => alpha p = Byte.x00) srow ->
  paste_row x srow (Some srow) drow = drow.
Proof.
  intros Ht. unfold paste_row. apply imap_same. intros i out _.
  destruct (zlookup srow (Z.of_nat i - x)) as [inp|] eqn:E; [|reflexivity].
  apply paste_pixel_transparent.
  rewrite Forall_forall in Ht. apply Ht. eapply zlookup_Some, E.
Qed.

Lemma paste_transparent (dst wm : Image) (box : Z * Z) :
  Forall (Forall (fun p => alpha p = Byte.x00)) (rows wm) ->
  paste dst wm box (Some wm) = dst.
Proof.
  intros Ht. destruct box as [x y]. destruct dst as [sz rs]. unfold paste. simpl.
  f_equal. apply imap_same. intros j drow _.
  destruct (zlookup (rows wm) (Z.of_nat j - y)) as [srow|] eqn:E; [|reflexivity].
  apply paste_row_transparent.
  rewrite Forall_forall in Ht. apply Ht. eapply zlookup_Some, E.
Qed.

Lemma zlookup_nat {A : Type} (l : list A) (i : nat) :
  zlookup l (Z.of_nat i - 0) = l !! i.
Proof.
  unfold zlookup. rewrite Z.sub_0_r.
  destruct (Z.ltb_spec (Z.of_nat i) 0); [lia|]. rewrite Nat2Z.id. reflexivity.
Qed.

Lemma paste_row_full (srow : list pixel) (c : pixel) :
  paste_row 0 srow None (replicate (length srow) c) = srow.
Proof.
  unfold paste_row. apply list_eq. intros i. rewrite list_lookup_imap.
  rewrite zlookup_nat.
  destruct (srow !! i) as [p|] eqn:E.
  - assert (i < length srow)%nat as Hi by (eapply lookup_lt_Some, E).
    rewrite lookup_replicate_2 by assumption. reflexivity.
  - assert (replicate (length srow) c !! i = None) as Hn
      by (apply lookup_replicate_None, lookup_ge_None, E).
    rewrite Hn. reflexivity.
Qed.

(** A new raster of the size of [img] with [img] pasted at the origin
    is [img]. *)
Lemma paste_onto_new (img : Image) (c : pixel) :
  wf_image img -> paste (Image_new (size img) c) img (0, 0) None = img.
Proof.
  intros [Hh Hw]. destruct img as [[w h] rs]. unfold wf_image, width, height in *.
  simpl in *. unfold paste, Image_new. simpl. f_equal.
  apply list_eq. intros j. rewrite list_lookup_imap, zlookup_nat.
  destruct (rs !! j) as [srow|] eqn:E.
  - assert (j < length rs)%nat as Hj by (eapply lookup_lt_Some, E).
    rewrite lookup_replicate_2 by lia. simpl.
    rewrite Forall_forall in Hw.
    rewrite <- (Hw srow) by (eapply list_elem_of_lookup_2, E).
    rewrite paste_row_full. reflexivity.
  - assert (length rs <= j)%nat as Hj by (apply lookup_ge_None, E).
    assert (replicate (Z.to_nat h) (replicate (Z.to_nat w) c) !! j = None) as Hn
      by (apply lookup_replicate_None; lia).
    rewrite Hn. reflexivity.
Qed.

Lemma scale_alpha_zero (x : Z) : scale_alpha 0 x = Ret 0.
Proof. unfold scale_alpha. rewrite Z.mul_0_r. reflexivity. Qed.

Lemma build_lut_zero (xs : list Z) :
  build_lut 0 xs = Ret (replicate (length xs) Byte.x00).
Proof.
  induction xs as [|x xs IH]; simpl; [reflexivity|].
  rewrite scale_alpha_zero, IH. reflexivity.
Qed.

Lemma Z_of_byte_lt (a : Byte.byte) : (Z.to_nat (Z_of_byte a) < 256)%nat.
Proof.
  unfold Z_of_byte. pose proof (Byte.to_N_bounded a) as H. lia.
Qed.

Lemma point_alpha_zero (lut : list Byte.byte) (im : Image) :
  (forall a, lut !! Z.to_nat (Z_of_byte a) = Some Byte.x00) ->
  Forall (Forall (fun p => alpha p = Byte.x00)) (rows (point_alpha lut im)).
Proof.
  intros Hlut. unfold point_alpha. simpl.
  apply Forall_forall. intros r Hr.
  apply list_elem_of_fmap in Hr as (r0 & -> & _).
  apply Forall_forall. intros p Hp.
  apply list_elem_of_fmap in Hp as (p0 & -> & _).
  destruct p0 as [[[r g] b] a]. unfold alpha. simpl.
  rewrite Hlut. reflexivity.
Qed.

Lemma zero_lut_lookup (a : Byte.byte) :
  replicate (length range256) Byte.x00 !! Z.to_nat (Z_of_byte a)
  = Some Byte.x00.
Proof.
  apply lookup_replicate_2.
  replace (length range256) with 256%nat by (vm_compute; reflexivity).
  apply Z_of_byte_lt.
Qed.

Lemma point_alpha_colours (lut : list Byte.byte) (im : Image) :
  colours (point_alpha lut im) = colours im.
Proof.
  unfold colours, point_alpha. simpl.
  rewrite <- !list_fmap_compose. apply list_fmap_ext. intros _ r _. simpl.
  rewrite <- !list_fmap_compose. apply list_fmap_ext. intros _ p _. simpl.
  destruct p as [[[r0 g] b] a]. reflexivity.
Qed.

Lemma in_range256 (x : Z) : 0 <= x <= 255 -> x ∈ range256.
Proof.
  intros Hx. unfold range256. apply list_elem_of_fmap.
  exists (Z.to_nat x). split; [lia|].
  apply elem_of_seq. lia.
Qed.

Lemma in_range101 (x : Z) : 0 <= x <= 100 -> x ∈ map Z.of_nat (seq 0 101).
Proof.
  intros Hx. apply list_elem_of_fmap.
  exists (Z.to_nat x). split; [lia|].
  apply elem_of_seq. lia.
Qed.

(** On samples of 8 bits and percentages, [int(x * opacity / 100)] is
    the truncated quotient. *)
Lemma scale_alpha_truncates (opacity x : Z) :
  0 <= opacity <= 100 -> 0 <= x <= 255 ->
  scale_alpha opacity x = Ret ((x * opacity) `div` 100).
Proof.
  intros Ho Hx.
  assert (forallb (fun o =>
            forallb (fun v =>
              match scale_alpha o v with
              | Ret r => Z.eqb r ((v * o) `div` 100)
              | Raise _ => false
              end) range256) (map Z.of_nat (seq 0 101)) = true) as Hall
    by (vm_compute; reflexivity).
  rewrite forallb_forall in Hall.
  specialize (Hall opacity (proj1 (list_elem_of_In _ _) (in_range101 _ Ho))).
  rewrite forallb_forall in Hall.
  specialize (Hall x (proj1 (list_elem_of_In _ _) (in_range256 _ Hx))).
  destruct (scale_alpha opacity x) as [r|e]; [|discriminate].
  apply Z.eqb_eq in Hall. congruence.
Qed.

(** The composite of a base with an overlay whose alpha went through
    the table of opacity 0. *)
Lemma composite_zero (img wm_rgba : Image) (box : Z * Z) (c : pixel) :
  wf_image img ->
  paste (paste (Image_new (size img) c) img (0, 0) None)
        (point_alpha (replicate (length range256) Byte.x00) wm_rgba) box
        (Some (point_alpha (replicate (length range256) Byte.x00) wm_rgba))
  = img.
Proof.
  intros Hwf. rewrite paste_onto_new by assumption.
  apply paste_transparent, point_alpha_zero, zero_lut_lookup.
Qed.

Lemma apply_zero_result (app : App) (img res : Image) (app' : App) :
  wf_image img -> watermark_image_opacity_slider app = 0 ->
  _apply_image_watermark app img = Ret (res, app') -> res = img.
Proof.
  intros Hwf Hop. unfold _apply_image_watermark.
  destruct (String.eqb _ _ || negb _)%bool.
  { intros E. injection E as <- _. reflexivity. }
  intros E.
  apply ebind_Ret in E as (wm_img & _ & E).
  apply ebind_Ret in E as (scale & _ & E).
  apply ebind_Ret in E as (wm_width & _ & E).
  apply ebind_Ret in E as (wm_height & _ & E).
  apply ebind_Ret in E as (wm_img1 & _ & E).
  apply ebind_Ret in E as (wm_rgba & _ & E).
  rewrite Hop, build_lut_zero, ebind_ret_l in E. cbv beta in E.
  apply ebind_Ret in E as ([[x y] app1] & _ & E).
  cbv beta iota in E.
  assert (res = paste (paste (Image_new (size img)
                                (Byte.xff, Byte.xff, Byte.xff, Byte.x00))
                             img (0, 0) None)
                      (point_alpha (replicate (length range256) Byte.x00) wm_rgba)
                      (x, y)
                      (Some (point_alpha (replicate (length range256) Byte.x00)
                               wm_rgba))) as -> by congruence.
  apply composite_zero, Hwf.
Qed.

(** An overlay file that Pillow does not open, or does not resize to
    the size asked for, makes [_apply_image_watermark] raise: nothing
    there is guarded. *)
Lemma apply_overlay_failure (app : App) (img : Image) :
  watermark_image_path app <> EmptyString ->
  os_path_exists (watermark_image_path app) = true ->
  (forall e, Image_open (watermark_image_path app) = Raise e ->
     _apply_image_watermark app img = Raise e)
  /\ (forall wm_img scale wm_width wm_height e,
        Image_open (watermark_image_path app) = Ret wm_img ->
        PyFloat.truediv (watermark_image_size_slider app) 100 = Ret scale ->
        scaled (overlay_width wm_img) scale = Ret wm_width ->
        scaled (overlay_height wm_img) scale = Ret wm_height ->
        Image_resize wm_img (wm_width, wm_height) = Raise e ->
        _apply_image_watermark app img = Raise e).
Proof.
  intros Hp Hex. unfold _apply_image_watermark.
  destruct (String.eqb_spec (watermark_image_path app) EmptyString);
    [contradiction|].
  rewrite Hex. simpl orb. cbv iota. split.
  - intros e ->. reflexivity.
  - intros wm_img scale wm_width wm_height e Hopen Hscale Hw Hh Hres.
    rewrite Hopen, ebind_ret_l. cbv beta.
    rewrite Hscale, ebind_ret_l. cbv beta.
    rewrite Hw, ebind_ret_l. cbv beta.
    rewrite Hh, ebind_ret_l. cbv beta.
    rewrite Hres. reflexivity.
Qed.

(** C5, as amended. With the opacity at 0, [_apply_image_watermark]
    returns the base raster itself, pixel for pixel, for every base
    whose rows agree with its size, whenever it returns: without an
    overlay file the base is returned as it is; with one, once Pillow
    has opened, resized and converted it, the alpha of every overlay
    pixel becomes 0 while the colours stay, and the composite is the
    base. An overlay that Pillow does not open or does not resize, as
    when the scaled width or height is 0, makes the call raise at
    every opacity. In general the alpha table is [x * opacity / 100]
    truncated to an integer. *)
Theorem zero_opacity_keeps_base (app : App) (img : Image) :
  wf_image img ->
  watermark_image_opacity_slider app = 0 ->
  (forall res app', _apply_image_watermark app img = Ret (res, app') ->
     res = img)
  /\ (watermark_image_path app = EmptyString
      \/ os_path_exists (watermark_image_path app) = false ->
      _apply_image_watermark app img = Ret (img, app))
  /\ (forall wm_img scale wm_width wm_height wm_img1 wm_rgba,
        watermark_image_path app <> EmptyString ->
        os_path_exists (watermark_image_path app) = true ->
        Image_open (watermark_image_path app) = Ret wm_img ->
        PyFloat.truediv (watermark_image_size_slider app) 100 = Ret scale ->
        scaled (overlay_width wm_img) scale = Ret wm_width ->
        scaled (overlay_height wm_img) scale = Ret wm_height ->
        Image_resize wm_img (wm_width, wm_height) = Ret wm_img1 ->
        overlay_rgba wm_img1 = Ret wm_rgba ->
        exists app', _apply_image_watermark app img = Ret (img, app'))
  /\ build_lut 0 range256 = Ret (replicate 256 Byte.x00)
  /\ (forall lut im, colours (point_alpha lut im) = colours im)
  /\ (forall opacity x, 0 <= opacity <= 100 -> 0 <= x <= 255 ->
        scale_alpha opacity x = Ret ((x * opacity) `div` 100))
  /\ (forall wm_img scale wm_width wm_height e,
        watermark_image_path app <> EmptyString ->
        os_path_exists (watermark_image_path app) = true ->
        Image_open (watermark_image_path app) = Ret wm_img ->
        PyFloat.truediv (watermark_image_size_slider app) 100 = Ret scale ->
        scaled (overlay_width wm_img) scale = Ret wm_width ->
        scaled (overlay_height wm_img) scale = Ret wm_height ->
        Image_resize wm_img (wm_width, wm_height) = Raise e ->
        _apply_image_watermark app img = Raise e)
  /\ (forall e,
        watermark_image_path app <> EmptyString ->
        os_path_exists (watermark_image_path app) = true ->
        Image_open (watermark_image_path app) = Raise e ->
        _apply_image_watermark app img = Raise e).
Proof.
  intros Hwf Hop. repeat split.
  - intros res app'. apply apply_zero_result; assumption.
  - intros Hno. unfold _apply_image_watermark.
    destruct Hno as [-> | ->]; [reflexivity|].
    rewrite orb_true_r. reflexivity.
  - intros wm_img scale wm_width wm_height wm_img1 wm_rgba
           Hp Hex Hopen Hscale Hw Hh Hres Hrgba.
    destruct (calculate_position_returns app (width img) (height img)
                wm_width wm_height (margin_spin app)) as ([[x y] app'] & Hpos).
    exists app'.
    assert (_apply_image_watermark app img
            = Ret (paste (paste (Image_new (size img)
                                   (Byte.xff, Byte.xff, Byte.xff, Byte.x00))
                                img (0, 0) None)
                         (point_alpha (replicate (length range256) Byte.x00) wm_rgba)
                         (x, y)
                         (Some (point_alpha (replicate (length range256) Byte.x00)
                                  wm_rgba)),
                   app')) as ->.
    { unfold _apply_image_watermark.
      destruct (String.eqb_spec (watermark_image_path app) EmptyString);
        [contradiction|].
      rewrite Hex. simpl orb. cbv iota.
      rewrite Hopen, ebind_ret_l. cbv beta.
      rewrite Hscale, ebind_ret_l. cbv beta.
      rewrite Hw, ebind_ret_l. cbv beta.
      rewrite Hh, ebind_ret_l. cbv beta.
      rewrite Hres, ebind_ret_l. cbv beta.
      rewrite Hrgba, ebind_ret_l. cbv beta.
      rewrite Hop, build_lut_zero, ebind_ret_l. cbv beta.
      rewrite Hpos, ebind_ret_l. reflexivity. }
    rewrite composite_zero by assumption. reflexivity.
  - apply point_alpha_colours.
  - apply scale_alpha_truncates.
  - intros wm_img scale wm_width wm_height e Hp Hex.
    apply (apply_overlay_failure app img Hp Hex).
  - intros e Hp Hex. apply (apply_overlay_failure app img Hp Hex).
Qed.

End ZeroOpacity.

Lemma zero_opacity_keeps_base_witness :
  exists app',
    Gui._apply_image_watermark (OV := Sample.overlay_lib) Sample.app_prefix_jpeg
      Sample.base_image
    = Ret (Sample.base_image, app').
Proof.
  assert (wf_image Sample.base_image) as Hwf
    by (split; [reflexivity | repeat constructor]).
  destruct (zero_opacity_keeps_base (OV := Sample.overlay_lib)
              Sample.app_prefix_jpeg Sample.base_image Hwf eq_refl)
    as (_ & _ & Hrun & _).
  eapply Hrun.
  - discriminate.
  - reflexivity.
  - reflexivity.
  - vm_compute. reflexivity.
  - vm_compute. reflexivity.
  - vm_compute. reflexivity.
  - reflexivity.
  - reflexivity.
Defined.

(** The claim C5 in its own words fails on an overlay of 2 by 1 pixels
    at half its size: the scaled height is 0, Pillow refuses to resize,
    and the call raises instead of returning the base. *)
Lemma zero_opacity_resize_counterexample :
  ~ (forall (OV : Gui.Overlay) (app : Gui.App) (img : Gui.Image),
       wf_image img ->
       Gui.watermark_image_opacity_slider app = 0 ->
       exists app', Gui._apply_image_watermark app img = Ret (img, app')).
Proof.
  intros H.
  destruct (H Studio.overlay_pillow Studio.app_half_logo Sample.base_image)
    as (app' & E).
  - split; [reflexivity | repeat constructor].
  - reflexivity.
  - vm_compute in E. discriminate E.
Qed.

(** ** The order of paths *)

Section PathOrder.

Lemma ascii_compare_refl (a : ascii) : Ascii.compare a a = Eq.
Proof. unfold Ascii.compare. apply N.compare_refl. Qed.


Lemma string_compare_refl (s : string) : String.compare s s = Eq.
Proof.
  induction s as [|a s IH]; simpl; [reflexivity|].
  rewrite ascii_compare_refl. exact IH.
Qed.


Lemma path_compare_refl (p : path) : PyPath.compare p p = Eq.
Proof.
  induction p as [|a p IH]; simpl; [reflexivity|].
  rewrite string_compare_refl. exact IH.
Qed.







End PathOrder.

(** ** The files of a batch *)

Section BatchFiles.
Context {RT : Runtime}.
Import Cli.




Lemma is_dir_not_file (fs : gmap (list string) Fs.kind) (p : path) :
  Fs.is_dir fs p = true -> Fs.is_file fs p = false.
Proof.
  unfold Fs.is_dir, Fs.is_file. destruct (Fs.kind_of fs p) as [[| |]|]; congruence.
Qed.




(** The run of the generator: what it returns is the list of
    [iter_image_files], and it returns whenever the system answers. *)
Lemma image_files_among_Ret (fs : gmap (list string) Fs.kind)
    (entries found : list path) :
  image_files_among fs entries = Ret found ->
  found = List.filter (fun q => Fs.is_file fs q && supported q) entries.
Proof.
  revert found. induction entries as [|q rest IH]; intros found.
  - intros [= <-]. reflexivity.
  - cbn [image_files_among]. unfold path_is_file, os_stat.
    destruct (stat_error q); [discriminate|]. cbn [ebind].
    destruct (image_files_among fs rest) as [r|]; [|discriminate].
    cbn [ebind]. intros [= <-]. rewrite (IH r eq_refl). reflexivity.
Qed.

Lemma image_files_among_answered (fs : gmap (list string) Fs.kind)
    (entries : list path) :
  (forall q, q ∈ entries -> stat_error q = None) ->
  image_files_among fs entries
  = Ret (List.filter (fun q => Fs.is_file fs q && supported q) entries).
Proof.
  induction entries as [|q rest IH]; intros Hok; [reflexivity|].
  cbn [image_files_among]. unfold path_is_file, os_stat.
  rewrite (Hok q) by apply list_elem_of_here. cbn [ebind].
  rewrite IH by (intros q' Hq'; apply Hok, list_elem_of_further, Hq').
  reflexivity.
Qed.

Lemma list_iter_image_files_Ret (fs : gmap (list string) Fs.kind) (p : path)
    (found : list path) :
  list_iter_image_files fs p = Ret found -> found = iter_image_files fs p.
Proof.
  unfold list_iter_image_files, iter_image_files, path_is_file, path_is_dir,
    path_iterdir, os_stat.
  destruct (stat_error p); [discriminate|]. cbn [ebind].
  destruct (Fs.is_file fs p); [congruence|].
  destruct (Fs.is_dir fs p); [|congruence].
  destruct (listdir_error p); [discriminate|]. cbn [ebind].
  apply image_files_among_Ret.
Qed.

Lemma list_iter_image_files_answered (fs : gmap (list string) Fs.kind)
    (p : path) :
  stat_error p = None ->
  (Fs.is_dir fs p = true ->
   listdir_error p = None
   /\ forall q, q ∈ Fs.iterdir fs p -> stat_error q = None) ->
  list_iter_image_files fs p = Ret (iter_image_files fs p).
Proof.
  intros Hstat Hdir.
  unfold list_iter_image_files, iter_image_files, path_is_file, path_is_dir,
    path_iterdir, os_stat.
  rewrite Hstat. cbn [ebind].
  destruct (Fs.is_file fs p) eqn:Hf; [reflexivity|].
  destruct (Fs.is_dir fs p) eqn:Hd; [|reflexivity].
  destruct (Hdir eq_refl) as (-> & Hentries). cbn [ebind].
  apply image_files_among_answered. intros q Hq. apply Hentries.
  rewrite <- (merge_sort_Permutation PyPath.le). exact Hq.
Qed.



End BatchFiles.

(** ** The batch of the command-line tool *)

Section Batch.
Context {RT : Runtime} {PIL : Pillow}.
Import Cli.

Lemma print_accepted (m : message) (w : World) :
  stdout_error m = None ->
  print m w = (Ret tt, {| fs := fs w; stdout := stdout w ++ [m] |}).
Proof. intros H. unfold print. rewrite H. reflexivity. Qed.

Lemma print_refused (m : message) (e : exn) (w : World) :
  stdout_error m = Some e -> print m w = (Raise e, w).
Proof. intros H. unfold print. rewrite H. reflexivity. Qed.

(** A line is written, or the error of the standard output is raised
    and the world stays. *)
Lemma print_run (m : message) (w w' : World) (r : Exc unit) :
  print m w = (r, w') ->
  (r = Ret tt /\ w' = {| fs := fs w; stdout := stdout w ++ [m] |}
   /\ stdout_error m = None)
  \/ (exists e, r = Raise e /\ w' = w /\ stdout_error m = Some e).
Proof.
  unfold print. destruct (stdout_error m) as [e|]; intros [= <- <-].
  - right. exists e. auto.
  - left. auto.
Qed.

Lemma warns_only_ret {A : Type} (a : A) : warns_only (wret a).
Proof.
  intros w r w' [= <- <-]. split; [reflexivity|].
  exists []. rewrite app_nil_r. split; [reflexivity | constructor].
Qed.

Lemma warns_only_raise {A : Type} (e : exn) : warns_only (@wraise A e).
Proof.
  intros w r w' [= <- <-]. split; [reflexivity|].
  exists []. rewrite app_nil_r. split; [reflexivity | constructor].
Qed.

Lemma warns_only_lift {A : Type} (c : Exc A) : warns_only (lift c).
Proof.
  intros w r w' [= <- <-]. split; [reflexivity|].
  exists []. rewrite app_nil_r. split; [reflexivity | constructor].
Qed.

Lemma warns_only_print (m : message) : is_warning m -> warns_only (print m).
Proof.
  intros Hm w r w' E.
  destruct (print_run _ _ _ _ E) as [(_ & -> & _)|(e & _ & -> & _)].
  - split; [reflexivity|].
    exists [m]. split; [reflexivity | repeat constructor; exact Hm].
  - split; [reflexivity|].
    exists []. rewrite app_nil_r. split; [reflexivity | constructor].
Qed.

Lemma warns_only_then {w0 w1 w2 : World} :
  (fs w1 = fs w0
   /\ exists msgs : list message,
        stdout w1 = (stdout w0 ++ msgs)%list /\ Forall is_warning msgs) ->
  (fs w2 = fs w1
   /\ exists msgs : list message,
        stdout w2 = (stdout w1 ++ msgs)%list /\ Forall is_warning msgs) ->
  fs w2 = fs w0
  /\ exists msgs : list message,
       stdout w2 = (stdout w0 ++ msgs)%list /\ Forall is_warning msgs.
Proof.
  intros (Hf1 & m1 & Hs1 & Hw1) (Hf2 & m2 & Hs2 & Hw2).
  split; [congruence|]. exists (m1 ++ m2)%list.
  split; [rewrite Hs2, Hs1, app_assoc; reflexivity|].
  apply Forall_app; split; assumption.
Qed.

Lemma warns_only_bind {A B : Type} (c : M A) (k : A -> M B) :
  warns_only c -> (forall a, warns_only (k a)) -> warns_only (wbind c k).
Proof.
  intros Hc Hk w r w'. unfold wbind.
  destruct (c w) as [[a|e] w1] eqn:Ec; intros E.
  - exact (warns_only_then (Hc _ _ _ Ec) (Hk a _ _ _ E)).
  - injection E as <- <-. exact (Hc _ _ _ Ec).
Qed.

Lemma warns_only_try {A : Type} (c : M A) (h : exn -> M A) :
  warns_only c -> (forall e, warns_only (h e)) -> warns_only (wtry c h).
Proof.
  intros Hc Hh w r w'. unfold wtry.
  destruct (c w) as [[a|e] w1] eqn:Ec; intros E.
  - injection E as <- <-. exact (Hc _ _ _ Ec).
  - exact (warns_only_then (Hc _ _ _ Ec) (Hh e _ _ _ E)).
Qed.

Lemma load_font_warns (fp : option string) (sz : Z) : warns_only (load_font fp sz).
Proof.
  unfold load_font. apply warns_only_bind.
  - destruct fp as [f|]; [|apply warns_only_ret].
    apply warns_only_try.
    + apply warns_only_bind; [apply warns_only_lift|].
      intros a. apply warns_only_ret.
    + intros e. apply warns_only_bind; [apply warns_only_print; exact I|].
      intros _. apply warns_only_ret.
  - intros [f|]; [apply warns_only_ret|].
    apply warns_only_try; [apply warns_only_lift|].
    intros _. apply warns_only_lift.
Qed.

Lemma draw_watermark_warns (im : image) (text : string)
    (options : WatermarkOptions) :
  warns_only (draw_watermark im text options).
Proof.
  unfold draw_watermark.
  apply warns_only_bind; [apply warns_only_lift|]. intros img.
  apply warns_only_bind.
  { intros w r w'. destruct (ImageColor_getrgb (color options)) as [c|e].
    - apply warns_only_ret.
    - destruct e; try apply warns_only_raise.
      apply warns_only_bind; [apply warns_only_print; exact I|].
      intros _. apply warns_only_ret. }
  intros text_color.
  apply warns_only_bind; [apply load_font_warns|]. intros fnt.
  apply warns_only_bind; [apply warns_only_lift|]. intros [[[b0 b1] b2] b3].
  destruct (compute_position _ _ _ _) as [x y].
  apply warns_only_bind.
  { apply warns_only_try; [apply warns_only_lift|].
    intros _. apply warns_only_ret. }
  intros img1.
  apply warns_only_bind; [apply warns_only_lift|]. intros img2.
  apply warns_only_lift.
Qed.

Lemma warnings_hold_no_ok (msgs : list message) (f q : path) :
  Forall is_warning msgs -> OkSaved f q ∉ msgs.
Proof.
  intros Hw Hin. rewrite Forall_forall in Hw. exact (Hw _ Hin).
Qed.

(** One file of the batch, whatever the outcome: the lines printed are
    appended; either the file system is as before and no success is
    printed, or the output file was written at
    [out_dir / image_path.name], and a success that is printed names
    that path. The call returns unless the standard output refuses the
    error line of the handler. *)
Lemma process_image_file_run (image_path : path) (options : WatermarkOptions)
    (out_dir : path) (w w' : World) (r : Exc unit) :
  process_image_file image_path options out_dir w = (r, w') ->
  (exists msgs : list message,
     stdout w' = (stdout w ++ msgs)%list
     /\ ((fs w' = fs w /\ forall f q, OkSaved f q ∉ msgs)
         \/ (Fs.write_file (fs w)
               (PyPath.joinpath out_dir (PyPath.name image_path)) = Ret (fs w')
             /\ forall f q, OkSaved f q ∈ msgs ->
                  f = image_path
                  /\ q = PyPath.joinpath out_dir (PyPath.name image_path))))
  /\ (r = Ret tt
      \/ exists e e0, r = Raise e
                      /\ stdout_error (ErrorFailed image_path e0) = Some e).
Proof.
  set (out_path := PyPath.joinpath out_dir (PyPath.name image_path)).
  (* the handler, after a body that has printed warnings at most *)
  assert (forall (w1 : World) (ms : list message) (same : bool) e0 r1 w2,
            (if same then fs w1 = fs w
             else Fs.write_file (fs w) out_path = Ret (fs w1)) ->
            stdout w1 = (stdout w ++ ms)%list ->
            Forall is_warning ms ->
            print (ErrorFailed image_path e0) w1 = (r1, w2) ->
            (exists msgs : list message,
               stdout w2 = (stdout w ++ msgs)%list
               /\ ((fs w2 = fs w /\ forall f q, OkSaved f q ∉ msgs)
                   \/ (Fs.write_file (fs w) out_path = Ret (fs w2)
                       /\ forall f q, OkSaved f q ∈ msgs ->
                            f = image_path /\ q = out_path)))
            /\ (r1 = Ret tt
                \/ exists e e1, r1 = Raise e
                                /\ stdout_error (ErrorFailed image_path e1)
                                   = Some e)) as Herr.
  { intros w1 ms same e0 r1 w2 Hf Hs Hw E.
    destruct (print_run _ _ _ _ E) as [(-> & -> & _)|(e & -> & -> & He)].
    - split; [|left; reflexivity].
      exists (ms ++ [ErrorFailed image_path e0])%list. cbn [fs stdout].
      split; [rewrite Hs, app_assoc; reflexivity|].
      assert (forall f q, OkSaved f q ∉ (ms ++ [ErrorFailed image_path e0])%list)
        as Hno.
      { intros f q Hin. apply elem_of_app in Hin as [Hin|Hin].
        - exact (warnings_hold_no_ok _ _ _ Hw Hin).
        - apply list_elem_of_singleton in Hin. discriminate. }
      destruct same; [left; auto|right].
      split; [exact Hf|]. intros f q Hin. destruct (Hno f q Hin).
    - split; [|right; eauto].
      exists ms. split; [exact Hs|].
      destruct same; [left|right].
      + split; [exact Hf|]. intros f q. apply warnings_hold_no_ok, Hw.
      + split; [exact Hf|]. intros f q Hin.
        destruct (warnings_hold_no_ok _ _ _ Hw Hin). }
  assert (forall e0 r1 w2,
            print (ErrorFailed image_path e0) w = (r1, w2) ->
            (exists msgs : list message,
               stdout w2 = (stdout w ++ msgs)%list
               /\ ((fs w2 = fs w /\ forall f q, OkSaved f q ∉ msgs)
                   \/ (Fs.write_file (fs w) out_path = Ret (fs w2)
                       /\ forall f q, OkSaved f q ∈ msgs ->
                            f = image_path /\ q = out_path)))
            /\ (r1 = Ret tt
                \/ exists e e1, r1 = Raise e
                                /\ stdout_error (ErrorFailed image_path e1)
                                   = Some e)) as Herr0.
  { intros e0 r1 w2. apply (Herr w [] true e0); [reflexivity| |constructor].
    rewrite app_nil_r. reflexivity. }
  assert (forall r1 w2,
            match print (SkipNoDate image_path) w with
            | (Ret a, w1) => (Ret a, w1)
            | (Raise e, w1) => print (ErrorFailed image_path e) w1
            end = (r1, w2) ->
            (exists msgs : list message,
               stdout w2 = (stdout w ++ msgs)%list
               /\ ((fs w2 = fs w /\ forall f q, OkSaved f q ∉ msgs)
                   \/ (Fs.write_file (fs w) out_path = Ret (fs w2)
                       /\ forall f q, OkSaved f q ∈ msgs ->
                            f = image_path /\ q = out_path)))
            /\ (r1 = Ret tt
                \/ exists e e1, r1 = Raise e
                                /\ stdout_error (ErrorFailed image_path e1)
                                   = Some e)) as Hskip.
  { intros r1 w2.
    destruct (print (SkipNoDate image_path) w) as [[[]|e1] w1] eqn:Ep;
      destruct (print_run _ _ _ _ Ep) as [(Hr & -> & _)|(e & Hr & -> & _)];
      try discriminate Hr.
    - intros [= <- <-]. split; [|left; reflexivity].
      exists [SkipNoDate image_path]. split; [reflexivity|].
      left. split; [reflexivity|]. intros f q Hin.
      apply list_elem_of_singleton in Hin. discriminate.
    - apply Herr0. }
  unfold process_image_file, wtry, wbind, lift. fold out_path.
  destruct (Image_open image_path) as [im|e]; [|apply Herr0].
  destruct (extract_exif_date im) as [[text|]|e];
    [|apply Hskip|apply Herr0].
  destruct text as [|c t]; [apply Hskip|].
  destruct (draw_watermark im (String c t) options w) as [[wmk|e] w1] eqn:Ed;
    destruct (draw_watermark_warns _ _ _ _ _ _ Ed) as (Hf & ms & Hs & Hw).
  2:{ apply (Herr w1 ms true e); assumption. }
  destruct (Image_encode wmk _ _) as [[]|e].
  2:{ apply (Herr w1 ms true e); assumption. }
  unfold on_fs. rewrite Hf.
  destruct (Fs.write_file (fs w) out_path) as [fs'|e] eqn:Ew.
  2:{ apply (Herr w1 ms true e); assumption. }
  destruct (print (OkSaved image_path out_path) _) as [[[]|e1] w3] eqn:Ep;
    destruct (print_run _ _ _ _ Ep) as [(Hr & -> & _)|(e & Hr & -> & _)];
    try discriminate Hr.
  - intros [= <- <-]. split; [|left; reflexivity].
    exists (ms ++ [OkSaved image_path out_path])%list. cbn [fs stdout].
    split; [rewrite Hs, app_assoc; reflexivity|].
    right. split; [reflexivity|]. intros f q Hin.
    apply elem_of_app in Hin as [Hin|Hin].
    + destruct (warnings_hold_no_ok _ _ _ Hw Hin).
    + apply list_elem_of_singleton in Hin. injection Hin as -> ->. auto.
  - apply (Herr _ ms false e1); [reflexivity|exact Hs|exact Hw].
Qed.

(** With a standard output that accepts every line, one file always
    returns. *)
Lemma process_image_file_returns (image_path : path)
    (options : WatermarkOptions) (out_dir : path) (w : World) :
  (forall m, stdout_error m = None) ->
  exists w', process_image_file image_path options out_dir w = (Ret tt, w').
Proof.
  intros Hout.
  destruct (process_image_file image_path options out_dir w) as [r w'] eqn:E.
  destruct (process_image_file_run _ _ _ _ _ _ E)
    as (_ & [-> | (e & e0 & _ & He)]); [eauto|].
  rewrite Hout in He. discriminate.
Qed.

Lemma write_file_Ret (fs0 fs1 : gmap (list string) Fs.kind) (p : path) :
  Fs.write_file fs0 p = Ret fs1 ->
  p <> [] /\ fs1 = <[p := Fs.File]> fs0 /\ Fs.kind_of fs0 p <> Some Fs.Dir.
Proof.
  unfold Fs.write_file. destruct p as [|a p]; [discriminate|].
  destruct (Fs.kind_of fs0 (a :: p)) as [[| |]|] eqn:E; try discriminate.
  - intros [= <-]. repeat split; congruence.
  - destruct (Fs.kind_of fs0 (PyPath.parent (a :: p))) as [[| |]|];
      try discriminate.
    intros [= <-]. repeat split; congruence.
Qed.

Lemma kind_of_insert (fs0 : gmap (list string) Fs.kind) (p q : path)
    (k : Fs.kind) :
  p <> [] ->
  Fs.kind_of (<[p := k]> fs0) q
  = if decide (p = q) then Some k else Fs.kind_of fs0 q.
Proof.
  intros Hp. unfold Fs.kind_of. destruct q as [|b q].
  - destruct (decide (p = [])); [contradiction|reflexivity].
  - rewrite lookup_insert. reflexivity.
Qed.

Lemma write_file_kinds (fs0 fs1 : gmap (list string) Fs.kind) (p : path) :
  Fs.write_file fs0 p = Ret fs1 ->
  Fs.kind_of fs1 p = Some Fs.File
  /\ (forall q, Fs.kind_of fs0 q = Some Fs.File -> Fs.kind_of fs1 q = Some Fs.File)
  /\ (forall q, Fs.kind_of fs0 q = Some Fs.Dir -> Fs.kind_of fs1 q = Some Fs.Dir).
Proof.
  intros E. apply write_file_Ret in E as (Hp & -> & Hd).
  repeat split; intros; rewrite kind_of_insert by assumption.
  - rewrite decide_True by reflexivity. reflexivity.
  - destruct (decide (p = q)); congruence.
  - destruct (decide (p = q)); congruence.
Qed.

(** The loop of [main], whatever its outcome: every success it prints
    names a file of the batch and the output path
    [out_dir / file.name], where a regular file then is; files and
    directories that existed stay. *)
Lemma process_all_run (files : list path) (options : WatermarkOptions)
    (out_dir : path) (w w' : World) (r : Exc unit) :
  process_all files options out_dir w = (r, w') ->
  exists msgs : list message,
    stdout w' = (stdout w ++ msgs)%list
    /\ (forall f q, OkSaved f q ∈ msgs ->
          f ∈ files /\ q = PyPath.joinpath out_dir (PyPath.name f)
          /\ Fs.kind_of (fs w') q = Some Fs.File)
    /\ (forall q, Fs.kind_of (fs w) q = Some Fs.File ->
          Fs.kind_of (fs w') q = Some Fs.File)
    /\ (forall q, Fs.kind_of (fs w) q = Some Fs.Dir ->
          Fs.kind_of (fs w') q = Some Fs.Dir).
Proof.
  revert w. induction files as [|f files IH]; intros w E.
  - injection E as <- <-. exists []. rewrite app_nil_r.
    split; [reflexivity|]. split; [|split; auto]. intros f q Hin. inversion Hin.
  - cbn [process_all] in E. unfold wbind in E.
    destruct (process_image_file f options out_dir w) as [r1 w1] eqn:E1.
    destruct (process_image_file_run _ _ _ _ _ _ E1)
      as ((m1 & Hs1 & Hcase) & _).
    assert ((forall q, Fs.kind_of (fs w) q = Some Fs.File ->
               Fs.kind_of (fs w1) q = Some Fs.File)
            /\ (forall q, Fs.kind_of (fs w) q = Some Fs.Dir ->
                  Fs.kind_of (fs w1) q = Some Fs.Dir)) as (Hfile1 & Hdir1).
    { destruct Hcase as [(Hf & _)|(Hw & _)].
      - rewrite Hf. auto.
      - apply write_file_kinds in Hw as (_ & ? & ?). auto. }
    assert (forall g q, OkSaved g q ∈ m1 ->
              g = f /\ q = PyPath.joinpath out_dir (PyPath.name f)
              /\ Fs.kind_of (fs w1) q = Some Fs.File) as Hok1.
    { intros g q Hin. destruct Hcase as [(_ & Hno)|(Hw & Hone)].
      - destruct (Hno _ _ Hin).
      - destruct (Hone _ _ Hin) as (-> & ->). split; [reflexivity|].
        split; [reflexivity|].
        apply write_file_kinds in Hw as (? & _). assumption. }
    destruct r1 as [[]|e].
    + destruct (IH w1 E) as (m2 & Hs2 & Hok2 & Hfile2 & Hdir2).
      exists (m1 ++ m2)%list.
      split; [rewrite Hs2, Hs1, app_assoc; reflexivity|].
      split; [|split; auto].
      intros g q Hin. apply elem_of_app in Hin as [Hin|Hin].
      * destruct (Hok1 _ _ Hin) as (-> & -> & Hk).
        split; [left|]. split; [reflexivity|]. apply Hfile2, Hk.
      * destruct (Hok2 _ _ Hin) as (? & ? & ?).
        split; [right; assumption|]. auto.
    + injection E as <- <-. exists m1. split; [exact Hs1|].
      split; [|split; auto].
      intros g q Hin. destruct (Hok1 _ _ Hin) as (-> & -> & Hk).
      split; [left|]. auto.
Qed.

Lemma process_all_returns (files : list path) (options : WatermarkOptions)
    (out_dir : path) (w : World) :
  (forall m, stdout_error m = None) ->
  exists w', process_all files options out_dir w = (Ret tt, w').
Proof.
  intros Hout. revert w. induction files as [|f files IH]; intros w.
  - exists w. reflexivity.
  - destruct (process_image_file_returns f options out_dir w Hout) as (w1 & E1).
    destruct (IH w1) as (w2 & E2).
    exists w2. cbn [process_all]. unfold wbind. rewrite E1. exact E2.
Qed.

Lemma watermark_name_not_empty (s : string) : s +:+ "_watermark" <> EmptyString.
Proof. destruct s; discriminate. Qed.

Lemma output_dir_path (base : path) :
  PyPath.joinpath base (PyPath.name base +:+ "_watermark")
  = (base ++ [PyPath.name base +:+ "_watermark"])%list.
Proof.
  unfold PyPath.joinpath.
  destruct (PyPath.name base +:+ "_watermark") eqn:E; [|reflexivity].
  destruct (watermark_name_not_empty _ E).
Qed.

Lemma parent_snoc (p : path) (s : string) : PyPath.parent (p ++ [s]) = p.
Proof. apply List.removelast_last. Qed.

Lemma name_snoc (p : path) (s : string) : PyPath.name (p ++ [s]) = s.
Proof. apply List.last_last. Qed.

(** [mkdir(parents=True, exist_ok=True)] inside a directory: the path is
    created when it is free, left alone when it is a directory, and the
    call raises when something else bears the name. *)
Lemma mkdir_in_dir (n : nat) (fs0 : gmap (list string) Fs.kind) (p : path) :
  Fs.is_dir fs0 (PyPath.parent p) = true ->
  Fs.mkdir (S n) true true fs0 p
  = match Fs.kind_of fs0 p with
    | None => Ret (<[p := Fs.Dir]> fs0)
    | Some Fs.Dir => Ret fs0
    | Some _ => Raise FileExistsError
    end.
Proof.
  unfold Fs.is_dir. intros Hd. simpl. unfold Fs.os_mkdir, Fs.is_dir.
  destruct (Fs.kind_of fs0 p) as [[| |]|] eqn:E; simpl; try reflexivity.
  destruct (Fs.kind_of fs0 (PyPath.parent p)) as [[| |]|]; try discriminate.
  reflexivity.
Qed.

Lemma ensure_output_dir_run (base : path) (w : World) :
  Fs.is_dir (fs w) base = true ->
  ensure_output_dir base w
  = match Fs.kind_of (fs w) (base ++ [PyPath.name base +:+ "_watermark"]) with
    | None =>
        (Ret (base ++ [PyPath.name base +:+ "_watermark"])%list,
         {| fs := <[(base ++ [PyPath.name base +:+ "_watermark"])%list := Fs.Dir]>
                    (fs w);
            stdout := stdout w |})
    | Some Fs.Dir =>
        (Ret (base ++ [PyPath.name base +:+ "_watermark"])%list,
         {| fs := fs w; stdout := stdout w |})
    | Some _ => (Raise FileExistsError, w)
    end.
Proof.
  intros Hd. unfold ensure_output_dir, wbind, get_fs, on_fs, wret.
  rewrite (is_dir_not_file _ _ Hd), output_dir_path.
  rewrite length_app, Nat.add_comm. simpl length.
  rewrite mkdir_in_dir by (rewrite parent_snoc; exact Hd).
  destruct (Fs.kind_of (fs w) _) as [[| |]|]; reflexivity.
Qed.

(** The directory that [main] hands to [ensure_output_dir]. *)
Lemma source_dir_is_dir (fs0 : gmap (list string) Fs.kind) (input : path) :
  fs_wf fs0 -> Fs.exists_ fs0 input = true ->
  Fs.is_dir fs0 (if Fs.is_dir fs0 input then input else PyPath.parent input)
  = true.
Proof.
  intros Hwf Hex. destruct (Fs.is_dir fs0 input) eqn:Hd; [exact Hd|].
  unfold Fs.exists_, Fs.is_dir in *. destruct input as [|a input]; [discriminate|].
  unfold Fs.kind_of in Hex at 1. simpl in Hex.
  destruct (fs0 !! (a :: input)) as [k|] eqn:E; [|discriminate].
  rewrite (Hwf _ _ E). reflexivity.
Qed.

(** The call is refused, and then nothing has happened, or it does what
    [ensure_output_dir] does. *)
Lemma path_mkdir_cases (fs0 : gmap (list string) Fs.kind) (p : path) :
  (exists e, path_mkdir fs0 p = Raise e)
  \/ path_mkdir fs0 p = Fs.mkdir (List.length p) true true fs0 p.
Proof.
  unfold path_mkdir, os_stat.
  destruct (Fs.kind_of fs0 p).
  - destruct (stat_error p); [left; eauto | right; reflexivity].
  - destruct (mkdir_error p); [left; eauto | right; reflexivity].
Qed.

Lemma ensure_output_dir_call_cases (base : path) (w : World) :
  (exists e, ensure_output_dir_call base w = (Raise e, w))
  \/ ensure_output_dir_call base w = ensure_output_dir base w.
Proof.
  unfold ensure_output_dir_call, ensure_output_dir, wbind, get_fs, lift,
    on_fs, path_is_file, os_stat.
  destruct (stat_error base); [left; eauto|]. cbn [ebind].
  match goal with
  | |- context [path_mkdir ?f ?p] =>
      destruct (path_mkdir_cases f p) as [(e & ->)| ->]
  end; [left; eauto | right; reflexivity].
Qed.

Lemma ensure_output_dir_call_run (base : path) (w : World) :
  Fs.is_dir (fs w) base = true ->
  ensure_output_dir_call base w
  = match stat_error base with
    | Some e => (Raise e, w)
    | None =>
        match Fs.kind_of (fs w) (base ++ [PyPath.name base +:+ "_watermark"]) with
        | None =>
            match mkdir_error (base ++ [PyPath.name base +:+ "_watermark"]) with
            | Some e => (Raise e, w)
            | None => ensure_output_dir base w
            end
        | Some _ =>
            match stat_error (base ++ [PyPath.name base +:+ "_watermark"]) with
            | Some e => (Raise e, w)
            | None => ensure_output_dir base w
            end
        end
    end.
Proof.
  intros Hd.
  unfold ensure_output_dir_call, ensure_output_dir, wbind, get_fs, lift,
    on_fs, path_is_file, path_mkdir, os_stat.
  destruct (stat_error base); [reflexivity|]. cbn [ebind].
  rewrite (is_dir_not_file _ _ Hd), output_dir_path.
  destruct (Fs.kind_of (fs w) _).
  - destruct (stat_error _); reflexivity.
  - destruct (mkdir_error _); reflexivity.
Qed.

(** [main], step by step: each look at the input is a call that can be
    refused, each line one that the standard output can refuse. *)
Lemma main_steps (args : Namespace) (w : World) :
  main args w
  = match path_exists (fs w) (args_input_path args) with
    | Raise e => (Raise e, w)
    | Ret false =>
        match print (NoInputPath (args_input_path args)) w with
        | (Ret _, w1) => (Ret 1, w1)
        | (Raise e, w1) => (Raise e, w1)
        end
    | Ret true =>
        match list_iter_image_files (fs w) (args_input_path args) with
        | Raise e => (Raise e, w)
        | Ret [] =>
            match print NoImageFiles w with
            | (Ret _, w1) => (Ret 1, w1)
            | (Raise e, w1) => (Raise e, w1)
            end
        | Ret (f :: files) =>
            match path_is_dir (fs w) (args_input_path args) with
            | Raise e => (Raise e, w)
            | Ret dir =>
                match ensure_output_dir_call
                        (if dir then args_input_path args
                         else PyPath.parent (args_input_path args)) w with
                | (Ret out_dir, w1) =>
                    match process_all (f :: files)
                            {| font_size := args_font_size args;
                               color := args_color args;
                               position := args_position args;
                               margin := args_margin args;
                               font_path := args_font args |} out_dir w1 with
                    | (Ret _, w2) => (Ret 0, w2)
                    | (Raise e, w2) => (Raise e, w2)
                    end
                | (Raise e, w1) => (Raise e, w1)
                end
            end
        end
    end.
Proof.
  unfold main, wbind, get_fs, lift.
  destruct (path_exists (fs w) (args_input_path args)) as [[|]|e];
    [|reflexivity|reflexivity].
  cbn [negb].
  destruct (list_iter_image_files (fs w) (args_input_path args))
    as [[|f files]|e]; [reflexivity| |reflexivity].
  destruct (path_is_dir (fs w) (args_input_path args)) as [dir|e];
    [|reflexivity].
  destruct (ensure_output_dir_call _ w) as [[out_dir|e] w1]; [|reflexivity].
  destruct (process_all _ _ _ w1) as [[[]|e] w2]; reflexivity.
Qed.

Lemma path_exists_Ret (fs0 : gmap (list string) Fs.kind) (p : path) (b : bool) :
  path_exists fs0 p = Ret b -> b = Fs.exists_ fs0 p /\ stat_error p = None.
Proof.
  unfold path_exists, os_stat. destruct (stat_error p); [discriminate|].
  intros [= <-]. auto.
Qed.

Lemma path_is_dir_Ret (fs0 : gmap (list string) Fs.kind) (p : path) (b : bool) :
  path_is_dir fs0 p = Ret b -> b = Fs.is_dir fs0 p /\ stat_error p = None.
Proof.
  unfold path_is_dir, os_stat. destruct (stat_error p); [discriminate|].
  intros [= <-]. auto.
Qed.

(** [main] on a system that answers: the steps on the file system
    itself. *)
Lemma main_answered (args : Namespace) (w : World) :
  stat_error (args_input_path args) = None ->
  (Fs.is_dir (fs w) (args_input_path args) = true ->
   listdir_error (args_input_path args) = None
   /\ forall q, q ∈ Fs.iterdir (fs w) (args_input_path args) ->
                stat_error q = None) ->
  main args w
  = if negb (Fs.exists_ (fs w) (args_input_path args)) then
      match print (NoInputPath (args_input_path args)) w with
      | (Ret _, w1) => (Ret 1, w1)
      | (Raise e, w1) => (Raise e, w1)
      end
    else
      match iter_image_files (fs w) (args_input_path args) with
      | [] =>
          match print NoImageFiles w with
          | (Ret _, w1) => (Ret 1, w1)
          | (Raise e, w1) => (Raise e, w1)
          end
      | files =>
          match ensure_output_dir_call
                  (if Fs.is_dir (fs w) (args_input_path args)
                   then args_input_path args
                   else PyPath.parent (args_input_path args)) w with
          | (Ret out_dir, w1) =>
              match process_all files
                      {| font_size := args_font_size args;
                         color := args_color args;
                         position := args_position args;
                         margin := args_margin args;
                         font_path := args_font args |} out_dir w1 with
              | (Ret _, w2) => (Ret 0, w2)
              | (Raise e, w2) => (Raise e, w2)
              end
          | (Raise e, w1) => (Raise e, w1)
          end
      end.
Proof.
  intros Hstat Hdir. rewrite main_steps.
  rewrite (list_iter_image_files_answered _ _ Hstat Hdir).
  unfold path_exists, path_is_dir, os_stat. rewrite Hstat. cbn [ebind].
  destruct (Fs.exists_ (fs w) (args_input_path args)); [|reflexivity].
  cbn [negb]. destruct (iter_image_files _ _) as [|f files]; reflexivity.
Qed.

(** Whatever [main] does, when it gets as far as the batch the system
    has answered, and the batch is that of [iter_image_files]. *)
Lemma main_outcome (args : Namespace) (w w' : World) (r : Exc Z) :
  main args w = (r, w') ->
  ((exists e, r = Raise e) /\ w' = w)
  \/ (r = Ret 1 /\ exists m, print m w = (Ret tt, w'))
  \/ (Fs.exists_ (fs w) (args_input_path args) = true
      /\ iter_image_files (fs w) (args_input_path args) <> []
      /\ match ensure_output_dir
                 (if Fs.is_dir (fs w) (args_input_path args)
                  then args_input_path args
                  else PyPath.parent (args_input_path args)) w with
         | (Ret out_dir, w1) =>
             match process_all (iter_image_files (fs w) (args_input_path args))
                     {| font_size := args_font_size args;
                        color := args_color args;
                        position := args_position args;
                        margin := args_margin args;
                        font_path := args_font args |} out_dir w1 with
             | (Ret _, w2) => (Ret 0, w2)
             | (Raise e, w2) => (Raise e, w2)
             end
         | (Raise e, w1) => (Raise e, w1)
         end = (r, w')).
Proof.
  rewrite main_steps.
  destruct (path_exists (fs w) (args_input_path args)) as [present|e] eqn:Hex.
  2:{ intros [= <- <-]. left. eauto. }
  apply path_exists_Ret in Hex as (-> & Hstat).
  destruct (Fs.exists_ (fs w) (args_input_path args)) eqn:Hex.
  2:{ destruct (print _ w) as [[[]|e] w1] eqn:Ep; intros [= <- <-].
      - right. left. eauto.
      - destruct (print_run _ _ _ _ Ep) as [(? & _)|(? & _ & -> & _)];
          [discriminate|]. left. eauto. }
  destruct (list_iter_image_files (fs w) (args_input_path args))
    as [files|e] eqn:Hfiles.
  2:{ intros [= <- <-]. left. eauto. }
  apply list_iter_image_files_Ret in Hfiles. subst files.
  destruct (iter_image_files (fs w) (args_input_path args)) as [|f files]
    eqn:Hfiles.
  { destruct (print _ w) as [[[]|e] w1] eqn:Ep; intros [= <- <-].
    - right. left. eauto.
    - destruct (print_run _ _ _ _ Ep) as [(? & _)|(? & _ & -> & _)];
        [discriminate|]. left. eauto. }
  destruct (path_is_dir (fs w) (args_input_path args)) as [dir|e] eqn:Hdir.
  2:{ intros [= <- <-]. left. eauto. }
  apply path_is_dir_Ret in Hdir as (-> & _).
  destruct (ensure_output_dir_call_cases
              (if Fs.is_dir (fs w) (args_input_path args)
               then args_input_path args
               else PyPath.parent (args_input_path args)) w)
    as [(e & ->)| ->].
  { intros [= <- <-]. left. eauto. }
  intros E. right. right. split; [reflexivity|]. split; [discriminate|].
  exact E.
Qed.

(** Where an exception of the generator and of the batch comes from. *)
Lemma image_files_among_raises (fs0 : gmap (list string) Fs.kind)
    (entries : list path) (e : exn) :
  image_files_among fs0 entries = Raise e -> exists q, stat_error q = Some e.
Proof.
  induction entries as [|q rest IH]; [discriminate|].
  cbn [image_files_among]. unfold path_is_file, os_stat.
  destruct (stat_error q) as [e1|] eqn:Hq.
  - intros [= <-]. eauto.
  - cbn [ebind]. destruct (image_files_among fs0 rest) as [r|e1];
      [discriminate|]. intros [= <-]. apply IH. reflexivity.
Qed.

Lemma list_iter_image_files_raises (fs0 : gmap (list string) Fs.kind)
    (p : path) (e : exn) :
  list_iter_image_files fs0 p = Raise e ->
  (exists q, stat_error q = Some e) \/ (exists q, listdir_error q = Some e).
Proof.
  unfold list_iter_image_files, path_is_file, path_is_dir, path_iterdir,
    os_stat.
  destruct (stat_error p) as [e1|] eqn:Hp; [intros [= <-]; left; eauto|].
  cbn [ebind]. destruct (Fs.is_file fs0 p); [discriminate|].
  destruct (Fs.is_dir fs0 p); [|discriminate].
  destruct (listdir_error p) as [e1|] eqn:Hl; [intros [= <-]; right; eauto|].
  cbn [ebind]. intros H. left. exact (image_files_among_raises _ _ _ H).
Qed.

Lemma process_all_raises (files : list path) (options : WatermarkOptions)
    (out_dir : path) (w w' : World) (e : exn) :
  process_all files options out_dir w = (Raise e, w') ->
  exists m, stdout_error m = Some e.
Proof.
  revert w. induction files as [|f files IH]; intros w E; [discriminate E|].
  cbn [process_all] in E. unfold wbind in E.
  destruct (process_image_file f options out_dir w) as [r1 w1] eqn:E1.
  destruct r1 as [[]|e1]; [exact (IH w1 E)|].
  injection E as -> <-.
  destruct (process_image_file_run _ _ _ _ _ _ E1)
    as (_ & [Hr|(e2 & e0 & Hr & He)]); [discriminate Hr|].
  injection Hr as ->. eauto.
Qed.

(** C7, as amended. When the system answers the calls by which [main]
    looks at the input and the standard output accepts every line,
    [main] returns 1 exactly when the input path does not exist or no
    supported image file is found; otherwise, when the system also
    answers the calls that make the output directory, it returns 0
    whenever that directory is there or its name is free, whatever
    happens to the single files: processing one file then always
    returns, with a skip or an error printed. Nothing of the rest is
    guarded. When something that is not a directory bears the name of
    the output directory, creating it raises [FileExistsError], and
    [main] lets it through before any file is processed. A refusal of
    the system to look at the input path, to list the input directory,
    to look at the source directory or to create the output directory
    leaves [main] as that exception, and so does a line that the
    standard output refuses: the one of [main] itself, and the error
    line in the handler of [process_image_file], which ends the
    batch. There is no other outcome: [main] returns 0 or 1, or raises
    [FileExistsError] or what the system or the standard output
    raised. *)
Theorem main_exit_code (args : Namespace) (w : World) :
  fs_wf (fs w) ->
  let input := args_input_path args in
  let files := iter_image_files (fs w) input in
  let src := if Fs.is_dir (fs w) input then input else PyPath.parent input in
  let out_dir := (src ++ [PyPath.name src +:+ "_watermark"])%list in
  let answered :=
    stat_error input = None
    /\ (Fs.is_dir (fs w) input = true ->
        listdir_error input = None
        /\ forall q, q ∈ Fs.iterdir (fs w) input -> stat_error q = None) in
  let creation_answered :=
    stat_error src = None
    /\ match Fs.kind_of (fs w) out_dir with
       | None => mkdir_error out_dir = None
       | Some _ => stat_error out_dir = None
       end in
  let printed := forall m, stdout_error m = None in
  (answered -> printed ->
   ((exists w', main args w = (Ret 1, w'))
    <-> Fs.exists_ (fs w) input = false \/ files = []))
  /\ (answered -> Fs.exists_ (fs w) input = true -> files <> [] ->
      (printed -> creation_answered ->
       Fs.kind_of (fs w) out_dir = None
       \/ Fs.kind_of (fs w) out_dir = Some Fs.Dir ->
       exists w', main args w = (Ret 0, w'))
      /\ (creation_answered ->
          Fs.kind_of (fs w) out_dir = Some Fs.File
          \/ Fs.kind_of (fs w) out_dir = Some Fs.Special ->
          main args w = (Raise FileExistsError, w))
      /\ (forall e, stat_error src = Some e -> main args w = (Raise e, w))
      /\ (forall e, stat_error src = None ->
            Fs.kind_of (fs w) out_dir = None ->
            mkdir_error out_dir = Some e -> main args w = (Raise e, w)))
  /\ (printed ->
      forall image_path options dir w0,
        exists w1, process_image_file image_path options dir w0 = (Ret tt, w1))
  /\ (printed ->
      forall paths options dir w0,
        exists w1, process_all paths options dir w0 = (Ret tt, w1))
  /\ (forall e, stat_error input = Some e -> main args w = (Raise e, w))
  /\ (forall e, stat_error input = None -> Fs.is_dir (fs w) input = true ->
        listdir_error input = Some e -> main args w = (Raise e, w))
  /\ (forall e, stat_error input = None -> Fs.exists_ (fs w) input = false ->
        stdout_error (NoInputPath input) = Some e ->
        main args w = (Raise e, w))
  /\ (forall image_path options dir w0 e e',
        Image_open image_path = Raise e ->
        stdout_error (ErrorFailed image_path e) = Some e' ->
        process_image_file image_path options dir w0 = (Raise e', w0))
  /\ (forall f paths options dir w0 e w1,
        process_image_file f options dir w0 = (Raise e, w1) ->
        process_all (f :: paths) options dir w0 = (Raise e, w1))
  /\ (forall r w',
        main args w = (r, w') ->
        r = Ret 0 \/ r = Ret 1
        \/ exists e,
             r = Raise e
             /\ (e = FileExistsError
                 \/ (exists p, stat_error p = Some e)
                 \/ (exists p, listdir_error p = Some e)
                 \/ (exists p, mkdir_error p = Some e)
                 \/ (exists m, stdout_error m = Some e))).
Proof.
  intros Hwf input files src out_dir answered creation_answered printed.
  assert (answered -> Fs.exists_ (fs w) input = true -> files <> [] ->
          main args w
          = match ensure_output_dir_call src w with
            | (Ret d, w1) =>
                match process_all files
                        {| font_size := args_font_size args;
                           color := args_color args;
                           position := args_position args;
                           margin := args_margin args;
                           font_path := args_font args |} d w1 with
                | (Ret _, w2) => (Ret 0, w2)
                | (Raise e, w2) => (Raise e, w2)
                end
            | (Raise e, w1) => (Raise e, w1)
            end) as Hmain.
  { intros (Hstat & Hdir) Hex Hfiles. rewrite (main_answered args w Hstat Hdir).
    fold input. rewrite Hex. cbn [negb]. fold files. fold src.
    destruct files; [congruence|reflexivity]. }
  assert (Fs.exists_ (fs w) input = true ->
          ensure_output_dir_call src w
          = match stat_error src with
            | Some e => (Raise e, w)
            | None =>
                match Fs.kind_of (fs w) out_dir with
                | None =>
                    match mkdir_error out_dir with
                    | Some e => (Raise e, w)
                    | None =>
                        (Ret out_dir,
                         {| fs := <[out_dir := Fs.Dir]> (fs w);
                            stdout := stdout w |})
                    end
                | Some k =>
                    match stat_error out_dir with
                    | Some e => (Raise e, w)
                    | None =>
                        match k with
                        | Fs.Dir => (Ret out_dir,
                                     {| fs := fs w; stdout := stdout w |})
                        | _ => (Raise FileExistsError, w)
                        end
                    end
                end
            end) as Hmake.
  { intros Hex. pose proof (source_dir_is_dir _ _ Hwf Hex) as Hsrc.
    fold input in Hsrc. fold src in Hsrc.
    rewrite (ensure_output_dir_call_run src w Hsrc).
    rewrite (ensure_output_dir_run src w Hsrc). fold out_dir.
    destruct (stat_error src); [reflexivity|].
    destruct (Fs.kind_of (fs w) out_dir) as [[| |]|]; reflexivity. }
  split; [|split; [|split; [|split; [|split; [|split; [|split; [|split;
    [|split]]]]]]]].
  - intros Hans Hout. pose proof Hans as (Hstat & Hdir). split.
    + intros (w' & E).
      destruct (Fs.exists_ (fs w) input) eqn:Hex; [|left; reflexivity].
      assert (files = [] \/ files <> []) as [Heq|Hne]
        by (destruct files; [left; reflexivity | right; discriminate]).
      * right. exact Heq.
      * exfalso. rewrite (Hmain Hans eq_refl Hne) in E.
        destruct (ensure_output_dir_call src w) as [[d|e] w1];
          [|discriminate E].
        destruct (process_all files _ d w1) as [[[]|e] w2]; discriminate E.
    + intros Hcase. rewrite (main_answered args w Hstat Hdir). fold input.
      destruct (Fs.exists_ (fs w) input) eqn:Hex; cbn [negb].
      * destruct Hcase as [Hcase|Hcase]; [discriminate|].
        fold files. rewrite Hcase.
        rewrite (print_accepted _ _ (Hout _)). eauto.
      * rewrite (print_accepted _ _ (Hout _)). eauto.
  - intros Hans Hex Hfiles. rewrite (Hmain Hans Hex Hfiles), (Hmake Hex).
    split; [|split; [|split]].
    + intros Hout (-> & Hmk) [Hk|Hk]; rewrite Hk in Hmk |- *; rewrite Hmk.
      * match goal with
        | |- context [process_all ?fl ?o ?d ?w1] =>
            destruct (process_all_returns fl o d w1 Hout) as (w2 & ->)
        end. eauto.
      * match goal with
        | |- context [process_all ?fl ?o ?d ?w1] =>
            destruct (process_all_returns fl o d w1 Hout) as (w2 & ->)
        end. eauto.
    + intros (-> & Hmk) [Hk|Hk]; rewrite Hk in Hmk |- *; rewrite Hmk;
        reflexivity.
    + intros e ->. reflexivity.
    + intros e -> -> ->. reflexivity.
  - intros Hout image_path options dir w0.
    apply process_image_file_returns, Hout.
  - intros Hout paths options dir w0. apply process_all_returns, Hout.
  - intros e He. rewrite main_steps. fold input.
    unfold path_exists, os_stat. rewrite He. reflexivity.
  - intros e Hstat Hd He. rewrite main_steps. fold input.
    unfold path_exists, list_iter_image_files, path_is_file, path_is_dir,
      path_iterdir, os_stat.
    rewrite Hstat, He. cbn [ebind].
    rewrite (is_dir_not_file _ _ Hd), Hd.
    unfold Fs.exists_. unfold Fs.is_dir in Hd.
    destruct (Fs.kind_of (fs w) input) as [[| |]|]; try discriminate Hd.
    reflexivity.
  - intros e Hstat Hex He. rewrite main_steps. fold input.
    unfold path_exists, os_stat. rewrite Hstat. cbn [ebind]. rewrite Hex.
    rewrite (print_refused _ _ _ He). reflexivity.
  - intros image_path options dir w0 e e' Hopen He.
    unfold process_image_file, wtry, wbind, lift. rewrite Hopen.
    apply print_refused, He.
  - intros f paths options dir w0 e w1 E.
    cbn [process_all]. unfold wbind. rewrite E. reflexivity.
  - intros r w' E. rewrite main_steps in E. fold input in E.
    assert (forall m w1 e, print m w = (Raise e, w1) ->
              exists m0, stdout_error m0 = Some e) as Hprint.
    { intros m w1 e Ep.
      destruct (print_run _ _ _ _ Ep) as [(? & _)|(e1 & He1 & _ & Hs)];
        [discriminate|]. injection He1 as ->. eauto. }
    destruct (path_exists (fs w) input) as [present|e] eqn:Hpe.
    2:{ injection E as <- <-. right. right. exists e. split; [reflexivity|].
        right. left. exists input. unfold path_exists, os_stat in Hpe.
        destruct (stat_error input); [|discriminate Hpe].
        injection Hpe as ->. reflexivity. }
    apply path_exists_Ret in Hpe as (-> & Hstat).
    destruct (Fs.exists_ (fs w) input) eqn:Hex.
    2:{ destruct (print _ w) as [[[]|e] w1] eqn:Ep; injection E as <- <-.
        - right. left. reflexivity.
        - right. right. exists e. split; [reflexivity|]. do 4 right.
          exact (Hprint _ _ _ Ep). }
    destruct (list_iter_image_files (fs w) input) as [[|f0 rest]|e] eqn:Hfl.
    + destruct (print _ w) as [[[]|e] w1] eqn:Ep; injection E as <- <-.
      * right. left. reflexivity.
      * right. right. exists e. split; [reflexivity|]. do 4 right.
        exact (Hprint _ _ _ Ep).
    + destruct (path_is_dir (fs w) input) as [dir|e] eqn:Hpd.
      2:{ unfold path_is_dir, os_stat in Hpd. rewrite Hstat in Hpd.
          discriminate Hpd. }
      apply path_is_dir_Ret in Hpd as (-> & _). fold src in E.
      rewrite (Hmake eq_refl) in E.
      assert (forall d w1,
                match process_all (f0 :: rest)
                        {| font_size := args_font_size args;
                           color := args_color args;
                           position := args_position args;
                           margin := args_margin args;
                           font_path := args_font args |} d w1 with
                | (Ret _, w2) => (Ret 0, w2)
                | (Raise e, w2) => (Raise e, w2)
                end = (r, w') ->
                r = Ret 0 \/ r = Ret 1
                \/ exists e,
                     r = Raise e
                     /\ (e = FileExistsError
                         \/ (exists p, stat_error p = Some e)
                         \/ (exists p, listdir_error p = Some e)
                         \/ (exists p, mkdir_error p = Some e)
                         \/ (exists m, stdout_error m = Some e))) as Hloop.
      { intros d w1 E1.
        destruct (process_all _ _ d w1) as [[[]|e] w2] eqn:E2;
          injection E1 as <- <-.
        - left. reflexivity.
        - right. right. exists e. split; [reflexivity|]. do 4 right.
          exact (process_all_raises _ _ _ _ _ _ E2). }
      destruct (stat_error src) as [e|] eqn:Hs.
      { injection E as <- <-. right. right. exists e. split; [reflexivity|].
        right. left. eauto. }
      destruct (Fs.kind_of (fs w) out_dir) as [k|] eqn:Hk.
      * destruct (stat_error out_dir) as [e|] eqn:Ho.
        { injection E as <- <-. right. right. exists e. split; [reflexivity|].
          right. left. eauto. }
        destruct k; [|exact (Hloop _ _ E)|];
          injection E as <- <-; right; right; exists FileExistsError;
          (split; [reflexivity|]); left; reflexivity.
      * destruct (mkdir_error out_dir) as [e|] eqn:Ho.
        { injection E as <- <-. right. right. exists e. split; [reflexivity|].
          do 3 right. left. eauto. }
        exact (Hloop _ _ E).
    + injection E as <- <-. right. right. exists e. split; [reflexivity|].
      destruct (list_iter_image_files_raises _ _ _ Hfl) as [H|H];
        [right; left; exact H | right; right; left; exact H].
Qed.

Lemma files_supported (fs0 : gmap (list string) Fs.kind) (p f : path) :
  f ∈ iter_image_files fs0 p -> supported f = true.
Proof.
  unfold iter_image_files. destruct (Fs.is_file fs0 p).
  - destruct (supported p) eqn:Hs; intros Hin.
    + apply list_elem_of_singleton in Hin as ->. exact Hs.
    + inversion Hin.
  - destruct (Fs.is_dir fs0 p); intros Hin; [|inversion Hin].
    apply list_elem_of_In, List.filter_In in Hin as (_ & Hin).
    apply andb_true_iff in Hin as (_ & Hs). exact Hs.
Qed.

Lemma supported_has_name (f : path) :
  supported f = true -> PyPath.name f <> EmptyString.
Proof.
  unfold supported, PyPath.suffix. intros Hs Hn. rewrite Hn in Hs.
  vm_compute in Hs. discriminate Hs.
Qed.

Lemma joinpath_name (dir : path) (s : string) :
  s <> EmptyString -> PyPath.joinpath dir s = (dir ++ [s])%list.
Proof. intros Hs. destruct s; [contradiction|reflexivity]. Qed.

(** C8, as amended. The output directory is the entry
    [<source-dir-name>_watermark] inside the source directory (the input
    directory, or the directory of the input file); it is created when
    nothing bears that name and left alone when it is a directory
    already. Every file that [main] reports as saved was written into
    that directory under the file name of its input. *)
Theorem output_directory_and_names (args : Namespace) (w : World) :
  fs_wf (fs w) ->
  Fs.exists_ (fs w) (args_input_path args) = true ->
  let input := args_input_path args in
  let files := iter_image_files (fs w) input in
  let src := if Fs.is_dir (fs w) input then input else PyPath.parent input in
  let out_dir := (src ++ [PyPath.name src +:+ "_watermark"])%list in
  (PyPath.parent out_dir = src
   /\ PyPath.name out_dir = PyPath.name src +:+ "_watermark")
  /\ (Fs.kind_of (fs w) out_dir = None ->
      ensure_output_dir src w
      = (Ret out_dir,
         {| fs := <[out_dir := Fs.Dir]> (fs w); stdout := stdout w |}))
  /\ (Fs.kind_of (fs w) out_dir = Some Fs.Dir ->
      ensure_output_dir src w
      = (Ret out_dir, {| fs := fs w; stdout := stdout w |}))
  /\ (forall w', main args w = (Ret 0, w') ->
        Fs.is_dir (fs w') out_dir = true
        /\ exists msgs : list message,
             stdout w' = (stdout w ++ msgs)%list
             /\ forall f q, OkSaved f q ∈ msgs ->
                  f ∈ files
                  /\ q = (out_dir ++ [PyPath.name f])%list
                  /\ PyPath.parent q = out_dir
                  /\ PyPath.name q = PyPath.name f
                  /\ Fs.is_file (fs w') q = true).
Proof.
  intros Hwf Hex input files src out_dir.
  pose proof (source_dir_is_dir _ _ Hwf Hex) as Hsrc. fold input in Hsrc.
  fold src in Hsrc.
  split; [split; [apply parent_snoc | apply name_snoc]|].
  split; [|split].
  - intros Hk. rewrite (ensure_output_dir_run src w Hsrc). fold out_dir.
    rewrite Hk. reflexivity.
  - intros Hk. rewrite (ensure_output_dir_run src w Hsrc). fold out_dir.
    rewrite Hk. reflexivity.
  - intros w' E.
    destruct (main_outcome _ _ _ _ E)
      as [((e & He) & _)|[(He & _)|(_ & Hfiles & E0)]];
      [discriminate He|discriminate He|].
    clear E. fold input files src in E0.
    rewrite (ensure_output_dir_run src w Hsrc) in E0. fold out_dir in E0.
    assert (exists w1, Fs.kind_of (fs w1) out_dir = Some Fs.Dir
                       /\ stdout w1 = stdout w
                       /\ (let (e0, w2) :=
                             process_all files
                               {| font_size := args_font_size args;
                                  color := args_color args;
                                  position := args_position args;
                                  margin := args_margin args;
                                  font_path := args_font args |} out_dir w1 in
                           match e0 with
                           | Ret _ => (Ret 0, w2)
                           | Raise e => (Raise e, w2)
                           end) = (Ret 0, w')) as (w1 & Hdir & Hout & E1).
    { destruct (Fs.kind_of (fs w) out_dir) as [[| |]|] eqn:Hk;
        try discriminate E0.
      - eexists. split; [|split; [|exact E0]]; [exact Hk | reflexivity].
      - eexists. split; [|split; [|exact E0]]; [|reflexivity]. simpl.
        rewrite kind_of_insert by (apply not_eq_sym, app_cons_not_nil).
        rewrite decide_True by reflexivity. reflexivity. }
    destruct (process_all files _ out_dir w1) as [r2 w2] eqn:E2.
    destruct (process_all_run _ _ _ _ _ _ E2)
      as (msgs & Hs2 & Hok & _ & Hkeep).
    destruct r2 as [[]|e]; [|discriminate E1]. injection E1 as <-.
    split; [unfold Fs.is_dir; rewrite (Hkeep _ Hdir); reflexivity|].
    exists msgs. split; [rewrite Hs2, Hout; reflexivity|].
    intros f q Hin. destruct (Hok f q Hin) as (Hf & Hq & Hfile).
    pose proof (supported_has_name f (files_supported _ _ _ Hf)) as Hname.
    rewrite (joinpath_name _ _ Hname) in Hq. subst q.
    split; [exact Hf|]. split; [reflexivity|].
    split; [apply parent_snoc|]. split; [apply name_snoc|].
    unfold Fs.is_file. rewrite Hfile. reflexivity.
Qed.

End Batch.

(** ** The sample album *)

Lemma album_wf : fs_wf Sample.album.
Proof.
  intros p k H. apply elem_of_map_to_list in H.
  vm_compute (map_to_list Sample.album) in H.
  repeat (apply elem_of_cons in H as [H|H];
          [injection H as -> ->; vm_compute; reflexivity|]).
  inversion H.
Qed.

Lemma album_blocked_wf : fs_wf Sample.album_blocked.
Proof.
  intros p k H. apply elem_of_map_to_list in H.
  vm_compute (map_to_list Sample.album_blocked) in H.
  repeat (apply elem_of_cons in H as [H|H];
          [injection H as -> ->; vm_compute; reflexivity|]).
  inversion H.
Qed.

Lemma main_exit_code_witness :
  exists w',
    Cli.main (RT := Sample.runtime) (PIL := Sample.pillow) Sample.args_photos
      {| fs := Sample.album; stdout := [] |} = (Ret 0, w').
Proof.
  destruct (main_exit_code (RT := Sample.runtime) (PIL := Sample.pillow)
              Sample.args_photos {| fs := Sample.album; stdout := [] |}
              album_wf) as (_ & Hbatch & _).
  destruct Hbatch as (Hzero & _).
  - split; [reflexivity|]. intros _. split; reflexivity.
  - reflexivity.
  - vm_compute. discriminate.
  - apply Hzero.
    + intros m. reflexivity.
    + split; [reflexivity|]. vm_compute. reflexivity.
    + left. reflexivity.
Defined.

(** On a system that does not let the program read [photos], or make
    a directory, [main] ends with the refusal; with a standard output
    that refuses every line, the batch ends at its first file, after the
    output directory was made and the picture saved. *)
Example main_unreadable_directory :
  Cli.main (RT := Studio.runtime_unreadable) (PIL := Sample.pillow)
    Sample.args_photos {| fs := Sample.album; stdout := [] |}
  = (Raise PermissionError, {| fs := Sample.album; stdout := [] |}).
Proof. reflexivity. Qed.

Example main_unwritable_directory :
  Cli.main (RT := Studio.runtime_readonly) (PIL := Sample.pillow)
    Sample.args_photos {| fs := Sample.album; stdout := [] |}
  = (Raise PermissionError, {| fs := Sample.album; stdout := [] |}).
Proof. reflexivity. Qed.

Example main_refused_line :
  Cli.main (RT := Studio.runtime_mute) (PIL := Sample.pillow)
    Sample.args_photos {| fs := Sample.album; stdout := [] |}
  = (Raise UnicodeEncodeError,
     {| fs := <[ ["photos"; "photos_watermark"; "a.png"] := Fs.File ]>
                (<[ ["photos"; "photos_watermark"] := Fs.Dir ]> Sample.album);
        stdout := [] |}).
Proof. reflexivity. Qed.

(** The claim C7 in its own words fails when a regular file bears the
    name of the output directory: the input exists, pictures are found,
    and [main] raises instead of returning 0. *)
Lemma main_exit_code_counterexample :
  ~ (forall (RT : Runtime) (PIL : Pillow) (args : Cli.Namespace) (w : World),
       fs_wf (fs w) ->
       Fs.exists_ (fs w) (Cli.args_input_path args) = true ->
       Cli.iter_image_files (fs w) (Cli.args_input_path args) <> [] ->
       exists w', Cli.main args w = (Ret 0, w')).
Proof.
  intros H.
  destruct (H Sample.runtime Sample.pillow Sample.args_photos
              {| fs := Sample.album_blocked; stdout := [] |} album_blocked_wf)
    as (w' & E).
  - vm_compute. reflexivity.
  - vm_compute. discriminate.
  - vm_compute in E. discriminate E.
Qed.

Lemma output_directory_and_names_witness :
  Cli.ensure_output_dir ["photos"] {| fs := Sample.album; stdout := [] |}
  = (Ret ["photos"; "photos_watermark"],
     {| fs := <[ ["photos"; "photos_watermark"] := Fs.Dir ]> Sample.album;
        stdout := [] |}).
Proof.
  destruct (output_directory_and_names (RT := Sample.runtime)
              (PIL := Sample.pillow) Sample.args_photos
              {| fs := Sample.album; stdout := [] |} album_wf eq_refl)
    as (_ & Hnew & _).
  apply Hnew. vm_compute. reflexivity.
Defined.

(** The claim C8 in its own words fails: the output directory is an
    entry of the source directory, not a directory next to it. *)
Lemma output_directory_sibling_counterexample :
  ~ (forall (base : path) (w : World) (out_dir : path) (w1 : World),
       Fs.is_dir (fs w) base = true ->
       Cli.ensure_output_dir base w = (Ret out_dir, w1) ->
       PyPath.parent out_dir = PyPath.parent base
       /\ PyPath.name out_dir = PyPath.name base +:+ "_watermark").
Proof.
  intros H.
  destruct (H ["photos"] {| fs := Sample.album; stdout := [] |}
              ["photos"; "photos_watermark"]
              {| fs := <[ ["photos"; "photos_watermark"] := Fs.Dir ]> Sample.album;
                 stdout := [] |}) as (Hparent & _).
  - vm_compute. reflexivity.
  - vm_compute. reflexivity.
  - vm_compute in Hparent. discriminate Hparent.
Qed.


(** * Further properties *)

(** ** One file and the whole batch of the command-line tool *)

Section BatchEffects.
Context {RT : Runtime} {PIL : Pillow}.
Import Cli.





(** X3. [ensure_output_dir] can be called again: after a call that
    returned, a second call returns the same directory and changes
    nothing. *)
Theorem ensure_output_dir_again (base out_dir : path) (w w1 : World) :
  Fs.is_dir (fs w) base = true ->
  ensure_output_dir base w = (Ret out_dir, w1) ->
  Fs.is_dir (fs w1) out_dir = true
  /\ ensure_output_dir base w1 = (Ret out_dir, w1).
Proof.
  intros Hd E. rewrite (ensure_output_dir_run base w Hd) in E.
  set (out := (base ++ [PyPath.name base +:+ "_watermark"])%list) in *.
  assert (out <> []) as Hout by (apply not_eq_sym, app_cons_not_nil).
  assert (out <> base) as Hob.
  { intros Heq. apply (f_equal (@length string)) in Heq. unfold out in Heq.
    rewrite length_app in Heq. simpl in Heq. lia. }
  assert (out_dir = out /\ Fs.kind_of (fs w1) out = Some Fs.Dir
          /\ Fs.is_dir (fs w1) base = true) as (-> & Hk & Hd1).
  { unfold Fs.is_dir in *.
    destruct (Fs.kind_of (fs w) out) as [[| |]|] eqn:Hk;
      try discriminate E; injection E as <- <-; simpl.
    - auto.
    - rewrite !kind_of_insert by assumption.
      rewrite decide_True by reflexivity. rewrite decide_False by assumption.
      auto. }
  split; [unfold Fs.is_dir; rewrite Hk; reflexivity|].
  rewrite (ensure_output_dir_run base w1 Hd1). fold out. rewrite Hk.
  destruct w1; reflexivity.
Qed.

End BatchEffects.

(** ** The form of the extracted date *)

Section DateForm.
Context {RT : Runtime} {PIL : Pillow}.
Import Cli.

Lemma replace_removes (a b : ascii) (s : string) :
  a <> b -> PyStr.has_char a (PyStr.replace a b s) = false.
Proof.
  intros Hab. induction s as [|c s IH]; simpl; [reflexivity|].
  rewrite IH, orb_false_r.
  destruct (Ascii.eqb_spec c a) as [->|Hc].
  - apply Ascii.eqb_neq. congruence.
  - apply Ascii.eqb_neq. exact Hc.
Qed.

Lemma replace_keeps_absent (a b c : ascii) (s : string) :
  b <> c -> PyStr.has_char c s = false ->
  PyStr.has_char c (PyStr.replace a b s) = false.
Proof.
  intros Hbc. induction s as [|d s IH]; simpl; [reflexivity|].
  intros H. apply orb_false_iff in H as (Hd & Hs). rewrite (IH Hs), orb_false_r.
  destruct (Ascii.eqb d a); [apply Ascii.eqb_neq; exact Hbc | exact Hd].
Qed.

Lemma replace_absent (a b : ascii) (s : string) :
  PyStr.has_char a s = false -> PyStr.replace a b s = s.
Proof.
  induction s as [|c s IH]; simpl; [reflexivity|].
  intros H. apply orb_false_iff in H as (Hc & Hs).
  rewrite (IH Hs), Hc. reflexivity.
Qed.

Lemma split_head_has_no_separator (sep : ascii) (s : string) :
  PyStr.has_char sep (hd EmptyString (PyStr.split sep s)) = false.
Proof.
  induction s as [|c s IH]; simpl; [reflexivity|].
  destruct (Ascii.eqb c sep) eqn:Ec; [reflexivity|].
  destruct (PyStr.split sep s) as [|w ws]; simpl in *.
  - rewrite Ec. reflexivity.
  - rewrite Ec, IH. reflexivity.
Qed.

Lemma split_without_separator (sep : ascii) (s : string) :
  PyStr.has_char sep s = false -> PyStr.split sep s = [s].
Proof.
  induction s as [|c s IH]; simpl; [reflexivity|].
  intros H. apply orb_false_iff in H as (Hc & Hs).
  rewrite Hc, (IH Hs). reflexivity.
Qed.

Lemma date_of_value_shape (v : pyval) (d : string) :
  date_of_value v = Ret (Some d) ->
  exists s, d = PyStr.replace ":" "-"
                  (hd EmptyString (PyStr.split " " (PyStr.strip s))).
Proof.
  destruct v as [|s|b|n|t].
  - discriminate.
  - rewrite date_of_text. destruct (String.eqb s EmptyString); [discriminate|].
    intros [= <-]. eauto.
  - destruct b as [|x b]; [discriminate|].
    destruct (bytes_decode (x :: b)) as [s|e] eqn:Hd.
    + rewrite (date_of_decoded (x :: b) s) by (discriminate || assumption).
      intros [= <-]. eauto.
    + unfold date_of_value. simpl. rewrite Hd. discriminate.
  - rewrite date_of_no_date by (right; left; eauto). discriminate.
  - rewrite date_of_no_date by (right; right; eauto). discriminate.
Qed.

Lemma scan_tags_shape (exif : gmap Z pyval) (tags : list Z) (d : string) :
  scan_tags exif tags = Ret (Some d) ->
  exists tag, tag ∈ tags
              /\ date_of_value (default PyNone (exif !! tag)) = Ret (Some d).
Proof.
  induction tags as [|tag tags IH]; simpl; [discriminate|].
  destruct (date_of_value (default PyNone (exif !! tag))) as [[d0|]|e] eqn:E.
  - intros [= <-]. exists tag. split; [left|exact E].
  - intros H. destruct (IH H) as (t & Ht & Hd). exists t. split; [right|]; auto.
  - discriminate.
Qed.

(** X4. A date that [extract_exif_date] returns holds no colon and no space:
    it is the first space-separated part of a tag value with every
    colon replaced. *)
Theorem exif_date_has_no_colon_or_space (im : image) (d : string) :
  extract_exif_date im = Ret (Some d) ->
  PyStr.has_char ":" d = false /\ PyStr.has_char " " d = false.
Proof.
  unfold extract_exif_date.
  destruct (Image_getexif im) as [exif|e]; [|discriminate].
  destruct (bool_decide (exif = ∅)); [discriminate|].
  intros H. apply scan_tags_shape in H as (tag & _ & H).
  apply date_of_value_shape in H as (s & ->). split.
  - apply replace_removes. discriminate.
  - apply replace_keeps_absent; [discriminate|].
    apply split_head_has_no_separator.
Qed.

(** X5. A DateTimeOriginal that is written with hyphens already, without
    space, colon or surrounding whitespace, is returned as it is. *)
Theorem exif_date_in_hyphen_form_is_kept (im : image) (exif : gmap Z pyval)
    (s : string) :
  Image_getexif im = Ret exif ->
  exif !! EXIF_TAG_DATETIME_ORIGINAL = Some (PyStr s) ->
  s <> EmptyString ->
  PyStr.strip s = s ->
  PyStr.has_char " " s = false ->
  PyStr.has_char ":" s = false ->
  extract_exif_date im = Ret (Some s).
Proof.
  intros Hg Ht Hs Hstrip Hsp Hco.
  assert (exif <> ∅) as Hne.
  { intros ->. rewrite lookup_empty in Ht. discriminate. }
  rewrite (extract_scans im exif Hg Hne).
  apply scan_tags_hit. rewrite Ht. simpl default.
  rewrite (text_date s Hs), Hstrip.
  rewrite (split_without_separator " " s Hsp). simpl hd.
  rewrite (replace_absent ":" "-" s Hco). reflexivity.
Qed.

End DateForm.

(** ** Where a watermark can land *)

Section Landing.
Import Gui.

Lemma centre_inside (W w : Z) :
  w <= W -> 0 <= (W - w) `div` 2 /\ (W - w) `div` 2 + w <= W.
Proof.
  intros H. pose proof (Z.div_mod (W - w) 2 ltac:(lia)).
  pose proof (Z.mod_pos_bound (W - w) 2 ltac:(lia)). lia.
Qed.

Lemma preset_position_cases (app : App) (W H w h m : Z) :
  preset_position app W H w h m = (m, m)
  \/ preset_position app W H w h m = (W - w - m, m)
  \/ preset_position app W H w h m = (m, H - h - m)
  \/ preset_position app W H w h m = (W - w - m, H - h - m)
  \/ preset_position app W H w h m = ((W - w) `div` 2, (H - h) `div` 2).
Proof.
  unfold preset_position, WATERMARK_POSITIONS, dict_get.
  repeat (destruct (String.eqb (last_position app) _); [tauto|]). tauto.
Qed.

(** X6. With a margin that is not negative and a watermark that fits into
    the image together with one margin, both programs put the watermark
    wholly inside the image, whatever the stored position is: a preset,
    a custom tag that maps or one that fails, or an unknown key. *)
Theorem watermark_lands_inside (W H w h m : Z) :
  0 <= m -> w + m <= W -> h + m <= H ->
  (forall position x y,
     Cli.compute_position (W, H) (w, h) position m = (x, y) ->
     0 <= x /\ x + w <= W /\ 0 <= y /\ y + h <= H)
  /\ (forall app x y app',
        _calculate_watermark_position app W H w h m = Ret ((x, y), app') ->
        0 <= x /\ x + w <= W /\ 0 <= y /\ y + h <= H).
Proof.
  intros Hm Hw Hh.
  pose proof (centre_inside W w ltac:(lia)) as Hcw.
  pose proof (centre_inside H h ltac:(lia)) as Hch.
  split.
  - intros position x y. unfold Cli.compute_position.
    repeat (destruct (String.eqb position _); [intros [= <- <-]; lia|]).
    intros [= <- <-]. lia.
  - assert (forall app x y, preset_position app W H w h m = (x, y) ->
              0 <= x /\ x + w <= W /\ 0 <= y /\ y + h <= H) as Hpre.
    { intros app x y E.
      destruct (preset_position_cases app W H w h m)
        as [E1|[E1|[E1|[E1|E1]]]]; rewrite E1 in E; injection E as <- <-; lia. }
    intros app x y app'. unfold _calculate_watermark_position.
    destruct (PyStr.startswith _ _).
    + destruct (custom_position app W H w h) as [[x0 y0]|e] eqn:E;
        cbv [try_except ebind].
      * intros [= <- <- <-].
        apply custom_position_Ret in E
          as (? & ? & ? & ? & ? & a & b & _ & _ & _ & _ & _ & -> & ->).
        unfold clamp. lia.
      * intros H0.
        assert (preset_position (set_last_position app "br") W H w h m = (x, y))
          as E1 by congruence.
        apply (Hpre _ _ _ E1).
    + intros H0.
      assert (preset_position app W H w h m = (x, y)) as E1 by congruence.
      apply (Hpre _ _ _ E1).
Qed.

(** X7. A call of [_calculate_watermark_position] changes the stored
    position in one case only, a custom tag that fails, and then to
    ['br']; a second call with the same sizes returns the same position
    and changes nothing. *)
Theorem position_call_is_stable (app app' : App) (W H w h m : Z) (xy : Z * Z) :
  _calculate_watermark_position app W H w h m = Ret (xy, app') ->
  (app' = app \/ app' = set_last_position app "br")
  /\ _calculate_watermark_position app' W H w h m = Ret (xy, app').
Proof.
  unfold _calculate_watermark_position.
  destruct (PyStr.startswith "custom_" (last_position app)) eqn:Hc.
  - destruct (custom_position app W H w h) as [xy0|e] eqn:E; simpl.
    + intros [= <- <-]. split; [left; reflexivity|]. rewrite Hc, E. reflexivity.
    + intros [= <- <-]. split; [right; reflexivity|]. reflexivity.
  - intros [= <- <-]. split; [left; reflexivity|]. rewrite Hc. reflexivity.
Qed.

(** X8. A stored position that is neither a custom tag nor one of the five
    keys is treated as the bottom-right corner, and stays stored. *)
Theorem unknown_position_is_bottom_right (app : App) (W H w h m : Z) :
  PyStr.startswith "custom_" (last_position app) = false ->
  dict_get WATERMARK_POSITIONS (last_position app) = None ->
  _calculate_watermark_position app W H w h m
  = Ret ((W - w - m, H - h - m), app).
Proof.
  intros Hc Hk. unfold _calculate_watermark_position, preset_position.
  rewrite Hc, Hk. reflexivity.
Qed.

End Landing.

(** ** The position tag, written and read back *)

Section PositionTag.
Import Gui Interaction.

Lemma digits_value_uint (d d' : Decimal.uint) :
  PyStr.digits_value (Z.of_N (Unsigned.of_lu d')) (NilEmpty.string_of_uint d)
  = Some (Z.of_N (Unsigned.of_lu (Decimal.revapp d d'))).
Proof.
  revert d'. induction d as [|d IH|d IH|d IH|d IH|d IH|d IH|d IH|d IH|d IH|d IH];
    intros d'; [reflexivity|..];
    cbn [NilEmpty.string_of_uint PyStr.digits_value Decimal.revapp];
    match goal with
    | |- context [PyStr.is_digit ?c] =>
        change (PyStr.is_digit c) with true; cbv iota;
        let v := eval vm_compute in (PyStr.code c - 48) in
        change (PyStr.code c - 48) with v
    end;
    rewrite <- IH; f_equal; cbn [Unsigned.of_lu]; lia.
Qed.

Lemma digits_value_of_uint (d : Decimal.uint) :
  PyStr.digits_value 0 (NilEmpty.string_of_uint d)
  = Some (Z.of_N (Pos.of_uint d)).
Proof.
  rewrite Unsigned.of_uint_alt. exact (digits_value_uint d Decimal.Nil).
Qed.

Lemma uint_string_head (d : Decimal.uint) :
  d <> Decimal.Nil ->
  exists c t, NilEmpty.string_of_uint d = String c t
              /\ PyStr.is_digit c = true.
Proof.
  destruct d; [congruence|..]; intros _; simpl; eexists _, _;
    (split; [reflexivity | reflexivity]).
Qed.

Lemma rstrip_uint (d : Decimal.uint) :
  PyStr.int_rstrip (NilEmpty.string_of_uint d) = NilEmpty.string_of_uint d.
Proof.
  induction d; [reflexivity|..];
    cbn [NilEmpty.string_of_uint PyStr.int_rstrip]; rewrite IHd;
    destruct (NilEmpty.string_of_uint d); reflexivity.
Qed.

Lemma has_char_uint (c : ascii) (d : Decimal.uint) :
  PyStr.is_digit c = false ->
  PyStr.has_char c (NilEmpty.string_of_uint d) = false.
Proof.
  intros Hc. induction d; [reflexivity|..];
    cbn [NilEmpty.string_of_uint PyStr.has_char]; rewrite IHd, orb_false_r;
    apply Ascii.eqb_neq; intros <-; discriminate Hc.
Qed.

Lemma is_digit_not_special (c : ascii) :
  PyStr.is_digit c = true ->
  PyStr.is_int_space c = false /\ c <> "-"%char /\ c <> "+"%char.
Proof.
  intros Hc. repeat split.
  - unfold PyStr.is_digit, PyStr.is_int_space in *. lia.
  - intros ->. discriminate Hc.
  - intros ->. discriminate Hc.
Qed.

Lemma to_int_of_uint (d : Decimal.uint) :
  d <> Decimal.Nil ->
  PyStr.to_int (NilEmpty.string_of_uint d) = Ret (Z.of_N (Pos.of_uint d))
  /\ PyStr.to_int (String "-" (NilEmpty.string_of_uint d))
     = Ret (- Z.of_N (Pos.of_uint d)).
Proof.
  intros Hd. destruct (uint_string_head d Hd) as (c & t & Hs & Hc).
  destruct (is_digit_not_special c Hc) as (Hsp & Hm & Hp).
  pose proof (digits_value_of_uint d) as Hv.
  pose proof (rstrip_uint d) as Hr.
  unfold PyStr.to_int, PyStr.int_strip. split.
  - rewrite Hs in *. cbn [PyStr.int_lstrip]. rewrite Hsp, Hr.
    destruct (Ascii.ascii_dec c "-") as [->|_]; [congruence|].
    destruct (Ascii.ascii_dec c "+") as [->|_]; [congruence|].
    destruct c as [[] [] [] [] [] [] [] []]; try congruence;
      rewrite Hv; reflexivity.
  - cbn [PyStr.int_lstrip]. change (PyStr.is_int_space "-") with false. cbv iota.
    cbn [PyStr.int_rstrip]. rewrite Hr, Hs. change (PyStr.is_int_space "-") with false.
    cbv iota. rewrite <- Hs, Hv. reflexivity.
Qed.

(** [int(str(n)) == n] *)
Lemma to_int_str_of_int (n : Z) : PyStr.to_int (str_of_int n) = Ret n.
Proof.
  unfold str_of_int. destruct n as [|p|p]; [reflexivity|..];
    cbn [Z.to_int NilEmpty.string_of_int];
    destruct (to_int_of_uint (Pos.to_uint p) (Unsigned.to_uint_nonnil p))
      as (Hpos & Hneg).
  - rewrite Hpos, Unsigned.of_to. reflexivity.
  - rewrite Hneg, Unsigned.of_to. reflexivity.
Qed.

Lemma str_of_int_has_no_underscore (n : Z) :
  PyStr.has_char "_" (str_of_int n) = false.
Proof.
  unfold str_of_int. destruct n as [|p|p]; [reflexivity|..];
    cbn [Z.to_int NilEmpty.string_of_int PyStr.has_char];
    rewrite has_char_uint by reflexivity; reflexivity.
Qed.

Lemma split_at_separator (sep : ascii) (a b : string) :
  PyStr.has_char sep a = false ->
  PyStr.split sep (a +:+ String sep b) = a :: PyStr.split sep b.
Proof.
  induction a as [|c a IH]; simpl.
  - intros _. rewrite Ascii.eqb_refl. reflexivity.
  - intros H. apply orb_false_iff in H as (Hc & Ha).
    rewrite Hc, (IH Ha). reflexivity.
Qed.

Lemma tag_splits (x y : Z) :
  PyStr.split "_" ("custom_" +:+ str_of_int x +:+ "_" +:+ str_of_int y)
  = ["custom"; str_of_int x; str_of_int y].
Proof.
  change ("custom_" +:+ str_of_int x +:+ "_" +:+ str_of_int y)
    with ("custom" +:+ String "_" (str_of_int x +:+ String "_" (str_of_int y))).
  rewrite split_at_separator by reflexivity.
  rewrite split_at_separator by apply str_of_int_has_no_underscore.
  rewrite (split_without_separator "_" _ (str_of_int_has_no_underscore y)).
  reflexivity.
Qed.

(** X9. The tag that a drag stores reads back as the same two integers,
    negative ones included: the preview puts the label at the dragged
    point clamped to the preview, and the export maps exactly the
    dragged point. A tag written by a drag never takes the fallback for
    a reason of its form. *)
Theorem position_tag_round_trip (app : App) (x y W H w h : Z) :
  let app' := on_watermark_position_changed app x y in
  PyStr.startswith "custom_" (last_position app') = true
  /\ PyStr.split "_" (last_position app') = ["custom"; str_of_int x; str_of_int y]
  /\ PyStr.to_int (str_of_int x) = Ret x
  /\ PyStr.to_int (str_of_int y) = Ret y
  /\ preview_custom_position app' W H w h
     = Ret (clamp x (W - w), clamp y (H - h))
  /\ custom_position app' W H w h
     = (let! scale_x := PyFloat.truediv W (preview_label_width app) in
        let! scale_y := PyFloat.truediv H (preview_label_height app) in
        let! x0 := scaled x scale_x in
        let! y0 := scaled y scale_y in
        Ret (clamp x0 (W - w), clamp y0 (H - h)))%exc.
Proof.
  intros app'.
  assert (last_position app'
          = "custom_" +:+ str_of_int x +:+ "_" +:+ str_of_int y) as Hl
    by reflexivity.
  split.
  { rewrite Hl. unfold PyStr.startswith. simpl.
    destruct (str_of_int x +:+ "_" +:+ str_of_int y); reflexivity. }
  split; [rewrite Hl; apply tag_splits|].
  split; [apply to_int_str_of_int|].
  split; [apply to_int_str_of_int|].
  split.
  - unfold preview_custom_position. rewrite Hl, tag_splits.
    rewrite !to_int_str_of_int. reflexivity.
  - unfold custom_position. rewrite Hl, tag_splits.
    change (preview_label_width app') with (preview_label_width app).
    change (preview_label_height app') with (preview_label_height app).
    unfold scale_coord. rewrite !to_int_str_of_int. reflexivity.
Qed.

End PositionTag.

(** ** Dark colours and the size of the preview *)

Section ColourAndPreview.
Import Gui Interaction.

Lemma forallb_range (test : Z -> bool) (n start : Z) :
  forallb test (map (fun k => start + Z.of_nat k) (seq 0 (Z.to_nat n))) = true ->
  forall z, start <= z < start + n -> test z = true.
Proof.
  intros Hall z Hz. rewrite forallb_forall in Hall. apply Hall.
  apply in_map_iff. exists (Z.to_nat (z - start)). split; [lia|].
  apply in_seq. lia.
Qed.

(** The comparison [n / 1000 < 128] of [is_dark_color], for every sum
    that three components give. *)
Lemma brightness_check (v : Z) :
  match PyFloat.truediv v 1000 with
  | Ret f =>
      match PyFloat.of_int 128 with
      | Ret limit => Bool.eqb (flt f limit) (v <? 128000)
      | Raise _ => false
      end
  | Raise _ => false
  end = true ->
  exists f limit,
    PyFloat.truediv v 1000 = Ret f /\ PyFloat.of_int 128 = Ret limit
    /\ flt f limit = (v <? 128000).
Proof.
  destruct (PyFloat.truediv v 1000) as [f|e];
    [|intros H; exact (False_ind _ (Bool.diff_false_true H))].
  destruct (PyFloat.of_int 128) as [limit|e];
    [|intros H; exact (False_ind _ (Bool.diff_false_true H))].
  intros H. exists f, limit. repeat split. apply Bool.eqb_prop, H.
Qed.

Lemma brightness_table :
  forallb
    (fun hi =>
       forallb
         (fun lo =>
            match PyFloat.truediv (1000 * hi + lo) 1000 with
            | Ret f =>
                match PyFloat.of_int 128 with
                | Ret limit =>
                    Bool.eqb (flt f limit) (1000 * hi + lo <? 128000)
                | Raise _ => false
                end
            | Raise _ => false
            end)
         (map (fun k => 0 + Z.of_nat k) (seq 0 (Z.to_nat 1000))))
    (map (fun k => 0 + Z.of_nat k) (seq 0 (Z.to_nat 256))) = true.
Proof.
  vm_cast_no_check (eq_refl true).
Qed.

Lemma brightness_threshold (n : Z) :
  0 <= n <= 255000 ->
  exists f limit,
    PyFloat.truediv n 1000 = Ret f /\ PyFloat.of_int 128 = Ret limit
    /\ flt f limit = (n <? 128000).
Proof.
  intros Hn. apply brightness_check.
  pose proof (Z.div_mod n 1000 ltac:(lia)) as Hdm.
  pose proof (Z.mod_pos_bound n 1000 ltac:(lia)) as Hmod.
  assert (0 <= n / 1000 < 0 + 256) as Hhi by lia.
  assert (0 <= n mod 1000 < 0 + 1000) as Hlo by lia.
  pose proof (forallb_range _ _ _ brightness_table _ Hhi) as T.
  cbv beta in T.
  pose proof (forallb_range _ _ _ T _ Hlo) as T2.
  cbv beta in T2. rewrite <- Hdm in T2. exact T2.
Qed.

Lemma substring_beyond (n m : nat) (s : string) :
  (String.length s <= n)%nat -> String.substring n m s = EmptyString.
Proof.
  revert n. induction s as [|c s IH]; intros n Hn.
  - destruct n, m; reflexivity.
  - destruct n as [|n]; [simpl in Hn; lia|]. simpl. apply IH. simpl in Hn. lia.
Qed.

(** X10. [is_dark_color]: when the three slices are hexadecimal components
    between 0 and 255, the colour is dark exactly when
    [299 r + 587 g + 114 b < 128000]; a string of fewer than six
    characters, like any string with a slice that is no number, is not
    dark, and nothing is raised. *)
Theorem is_dark_color_threshold (color_hex : string) :
  (forall r g b,
     to_int16 (slice 1 3 color_hex) = Ret r ->
     to_int16 (slice 3 5 color_hex) = Ret g ->
     to_int16 (slice 5 7 color_hex) = Ret b ->
     0 <= r <= 255 -> 0 <= g <= 255 -> 0 <= b <= 255 ->
     is_dark_color color_hex = (r * 299 + g * 587 + b * 114 <? 128000))
  /\ ((String.length color_hex <= 5)%nat -> is_dark_color color_hex = false)
  /\ ((exists e, to_int16 (slice 1 3 color_hex) = Raise e)
      \/ (exists e, to_int16 (slice 3 5 color_hex) = Raise e)
      \/ (exists e, to_int16 (slice 5 7 color_hex) = Raise e) ->
      is_dark_color color_hex = false).
Proof.
  assert ((exists e, to_int16 (slice 1 3 color_hex) = Raise e)
          \/ (exists e, to_int16 (slice 3 5 color_hex) = Raise e)
          \/ (exists e, to_int16 (slice 5 7 color_hex) = Raise e) ->
          is_dark_color color_hex = false) as Hfail.
  { unfold is_dark_color.
    intros [(e & ->)|[(e & He)|(e & He)]]; [reflexivity| |].
    - destruct (to_int16 (slice 1 3 color_hex)); [|reflexivity].
      rewrite He. reflexivity.
    - destruct (to_int16 (slice 1 3 color_hex)); [|reflexivity].
      destruct (to_int16 (slice 3 5 color_hex)); [|reflexivity].
      rewrite He. reflexivity. }
  split; [|split; [|exact Hfail]].
  - intros r g b Hr Hg Hb Br Bg Bb. unfold is_dark_color.
    rewrite Hr, Hg, Hb. cbn [ebind].
    destruct (brightness_threshold (r * 299 + g * 587 + b * 114) ltac:(lia))
      as (f & limit & -> & -> & Hcmp).
    exact Hcmp.
  - intros Hlen. apply Hfail. right. right. exists ValueError.
    unfold slice. rewrite substring_beyond by exact Hlen. reflexivity.
Qed.

Lemma is_one_eq (a : PyFloat.float) :
  match a with
  | S754_finite false m e => (Pos.eqb m 4503599627370496 && Z.eqb e (-52))%bool
  | _ => false
  end = true -> a = one.
Proof.
  destruct a as [s|s| |[] m e]; try (intros H; exact (False_ind _ (Bool.diff_false_true H))).
  intros H. apply andb_true_iff in H as (Hm & He).
  apply Pos.eqb_eq in Hm as ->. apply Z.eqb_eq in He as ->. reflexivity.
Qed.

Lemma small_side_scale (limit v : Z) :
  match PyFloat.truediv limit v with
  | Ret a =>
      ((flt one a
        || match a with
           | S754_finite false m e =>
               (Pos.eqb m 4503599627370496 && Z.eqb e (-52))%bool
           | _ => false
           end)
       && match scaled v one with
          | Ret r => Z.eqb r v
          | Raise _ => false
          end)%bool
  | Raise _ => false
  end = true ->
  exists a, PyFloat.truediv limit v = Ret a
            /\ (flt one a = true \/ a = one)
            /\ scaled v one = Ret v.
Proof.
  destruct (PyFloat.truediv limit v) as [a|e];
    [|intros H; exact (False_ind _ (Bool.diff_false_true H))].
  intros H. apply andb_true_iff in H as (H1 & H2).
  exists a. split; [reflexivity|]. split.
  - apply orb_true_iff in H1 as [H1|H1]; [left; exact H1|right].
    apply is_one_eq, H1.
  - destruct (scaled v one) as [r|e];
      [|exact (False_ind _ (Bool.diff_false_true H2))].
    apply Z.eqb_eq in H2 as ->. reflexivity.
Qed.

Lemma small_width_scale (w : Z) :
  1 <= w <= 800 ->
  exists a, PyFloat.truediv 800 w = Ret a
            /\ (flt one a = true \/ a = one)
            /\ scaled w one = Ret w.
Proof.
  intros Hw. apply small_side_scale.
  assert (1 <= w < 1 + 800) as Hr by lia.
  clear Hw. revert w Hr. apply (forallb_range _ 800 1). vm_compute. reflexivity.
Qed.

Lemma small_height_scale (h : Z) :
  1 <= h <= 600 ->
  exists b, PyFloat.truediv 600 h = Ret b
            /\ (flt one b = true \/ b = one)
            /\ scaled h one = Ret h.
Proof.
  intros Hh. apply small_side_scale.
  assert (1 <= h < 1 + 600) as Hr by lia.
  clear Hh. revert h Hr. apply (forallb_range _ 600 1). vm_compute. reflexivity.
Qed.

Lemma fmin_with_one (c : PyFloat.float) :
  flt one c = true \/ c = one -> fmin c one = one.
Proof.
  unfold fmin. intros [-> | ->]; reflexivity.
Qed.

(** X11. An image of at most 800 by 600 pixels is previewed at its own size
    (the scale is exactly 1.0, the preview never enlarges); an image of
    width or height 0 makes the computation raise
    [ZeroDivisionError], which [update_preview] catches. *)
Theorem preview_keeps_small_images (img_width img_height : Z) :
  (1 <= img_width <= 800 -> 1 <= img_height <= 600 ->
   preview_size img_width img_height = Ret (img_width, img_height))
  /\ (img_width = 0 \/ img_height = 0 ->
      exists e, preview_size img_width img_height = Raise e).
Proof.
  split.
  - intros Hw Hh.
    destruct (small_width_scale img_width Hw) as (a & Ha & Ha1 & Hsw).
    destruct (small_height_scale img_height Hh) as (b & Hb & Hb1 & Hsh).
    unfold preview_size. rewrite Ha, Hb. cbn [ebind].
    assert (fmin (fmin a b) one = one) as ->.
    { apply fmin_with_one. unfold fmin. destruct (flt b a); assumption. }
    rewrite Hsw, Hsh. reflexivity.
  - intros Hz. unfold preview_size, PyFloat.truediv at 1.
    destruct (Z.eqb_spec img_width 0) as [Hw|Hw]; [simpl; eauto|].
    destruct Hz as [Hz|Hz]; [contradiction|].
    destruct (match SFdiv _ _ _ _ with S754_infinity _ => _ | _ => _ end);
      [|simpl; eauto].
    unfold PyFloat.truediv. rewrite Hz. simpl. eauto.
Qed.

End ColourAndPreview.

(** ** A bad font or colour does not lose the picture *)

Section Recovery.
Context {RT : Runtime} {PIL : Pillow}.
Import Cli.

(** The warning that [draw_watermark] prints for the colour. *)
Lemma colour_step (c : string) (w : World) :
  (forall e, ImageColor_getrgb c = Raise e ->
             stdout_error (WarnColor c) = None) ->
  (forall e, ImageColor_getrgb c = Raise e -> e = ValueError) ->
  exists rgb,
    (fun w0 => match ImageColor_getrgb c with
               | Ret c0 => wret c0 w0
               | Raise ValueError =>
                   (print (WarnColor c) ;; wret [255; 255; 255])%M w0
               | Raise e => wraise e w0
               end) w
    = (Ret rgb,
       {| fs := fs w;
          stdout := stdout w ++ match ImageColor_getrgb c with
                                | Ret _ => []
                                | Raise _ => [WarnColor c]
                                end |})
    /\ (forall e, ImageColor_getrgb c = Raise e -> rgb = [255; 255; 255])
    /\ (forall c0, ImageColor_getrgb c = Ret c0 -> rgb = c0).
Proof.
  intros Hout Hval. destruct (ImageColor_getrgb c) as [c0|e] eqn:E.
  - exists c0. split; [|split; [discriminate|congruence]].
    unfold wret. rewrite app_nil_r. destruct w; reflexivity.
  - rewrite (Hval e eq_refl). exists [255; 255; 255].
    split; [|split; [reflexivity|discriminate]].
    unfold wbind. rewrite (print_accepted _ _ (Hout e eq_refl)). reflexivity.
Qed.

(** The warning that [load_font] prints, and the font it returns when
    the default font loads. *)
Lemma load_font_step (fp : option string) (sz : Z) (dflt : font) (w : World) :
  (forall p e, fp = Some p -> ImageFont_truetype p sz = Raise e ->
               stdout_error (WarnFont p e) = None) ->
  ImageFont_load_default = Ret dflt ->
  exists f,
    load_font fp sz w
    = (Ret f,
       {| fs := fs w;
          stdout := stdout w ++ match fp with
                                | Some p =>
                                    match ImageFont_truetype p sz with
                                    | Ret _ => []
                                    | Raise e => [WarnFont p e]
                                    end
                                | None => []
                                end |})
    /\ (forall p f0, fp = Some p -> ImageFont_truetype p sz = Ret f0 -> f = f0)
    /\ (fp = None -> f = dflt)
    /\ (forall p e, fp = Some p -> ImageFont_truetype p sz = Raise e -> f = dflt).
Proof.
  intros Hout Hd. unfold load_font, wbind, wtry, lift, wret.
  destruct fp as [p|].
  - destruct (ImageFont_truetype p sz) as [f0|e] eqn:E.
    + exists f0. rewrite app_nil_r. split; [destruct w; reflexivity|].
      split; [|split]; [congruence|discriminate|congruence].
    + exists dflt. rewrite (print_accepted _ _ (Hout p e eq_refl E)), Hd.
      split; [reflexivity|].
      split; [|split]; [congruence|discriminate|reflexivity].
  - exists dflt. rewrite Hd, app_nil_r. split; [destruct w; reflexivity|].
    split; [|split]; [discriminate|reflexivity|discriminate].
Qed.

(** X12. With a Pillow that converts, measures, draws and encodes, and whose
    default font loads, and with a standard output that accepts the
    lines of the call, a picture that opens and has a date is saved
    whatever font and colour were asked for: a colour that
    [ImageColor.getrgb] rejects with [ValueError] costs one warning
    line, a font file that does not load one more, and the success line
    follows. The call prints nothing else and writes the one file. *)
Theorem bad_font_or_colour_still_saves (image_path out_dir : path)
    (options : WatermarkOptions) (w : World) (im : image) (text : string)
    (dflt : font) (fs1 : gmap (list string) Fs.kind) :
  Image_open image_path = Ret im ->
  extract_exif_date im = Ret (Some text) ->
  text <> EmptyString ->
  (forall i m, exists i', Image_convert i m = Ret i') ->
  (forall i xy t f, exists b, ImageDraw_textbbox i xy t f = Ret b) ->
  (forall i xy t f c, exists i', ImageDraw_text i xy t f c = Ret i') ->
  (forall i p ps, Image_encode i p ps = Ret tt) ->
  ImageFont_load_default = Ret dflt ->
  (forall e, ImageColor_getrgb (color options) = Raise e -> e = ValueError) ->
  (forall e, ImageColor_getrgb (color options) = Raise e ->
     stdout_error (WarnColor (color options)) = None) ->
  (forall p e, font_path options = Some p ->
     ImageFont_truetype p (font_size options) = Raise e ->
     stdout_error (WarnFont p e) = None) ->
  stdout_error (OkSaved image_path
                  (PyPath.joinpath out_dir (PyPath.name image_path))) = None ->
  Fs.write_file (fs w) (PyPath.joinpath out_dir (PyPath.name image_path))
  = Ret fs1 ->
  process_image_file image_path options out_dir w
  = (Ret tt,
     {| fs := fs1;
        stdout :=
          (stdout w
           ++ match ImageColor_getrgb (color options) with
              | Ret _ => []
              | Raise _ => [WarnColor (color options)]
              end
           ++ match font_path options with
              | Some p =>
                  match ImageFont_truetype p (font_size options) with
                  | Ret _ => []
                  | Raise e => [WarnFont p e]
                  end
              | None => []
              end
           ++ [OkSaved image_path
                 (PyPath.joinpath out_dir (PyPath.name image_path))])%list |}).
Proof.
  intros Hopen Hdate Htext Hconv Hbbox Hdraw Henc Hdflt Hcol Hwarn Hfont Hok
         Hwrite.
  unfold process_image_file, wtry.
  unfold wbind at 1, lift at 1. rewrite Hopen.
  unfold wbind at 1, lift at 1. rewrite Hdate.
  destruct text as [|ch text]; [contradiction|].
  unfold draw_watermark.
  destruct (Hconv im "RGBA") as (img & Himg).
  unfold wbind at 1. unfold wbind at 1, lift at 1. rewrite Himg.
  unfold wbind at 1.
  destruct (colour_step (color options) w Hwarn Hcol) as (rgb & -> & _).
  unfold wbind at 1.
  destruct (load_font_step (font_path options) (font_size options) dflt
              {| fs := fs w;
                 stdout := stdout w ++ match ImageColor_getrgb (color options) with
                                       | Ret _ => []
                                       | Raise _ => [WarnColor (color options)]
                                       end |} Hfont Hdflt) as (fnt & -> & _).
  destruct (Hbbox img (0, 0) (String ch text) fnt) as ([[[b0 b1] b2] b3] & Hb).
  unfold wbind at 1, lift at 1. rewrite Hb.
  destruct (compute_position (Image_size img) (b2 - b0, b3 - b1)
              (position options) (margin options)) as [x y].
  match goal with
  | |- context [ImageDraw_text img ?xy ?t ?f ?c] =>
      destruct (Hdraw img xy t f c) as (img1 & Himg1)
  end.
  unfold wbind at 1, wtry, lift at 1. rewrite Himg1.
  destruct (Hdraw img1 (x, y) (String ch text) fnt rgb) as (img2 & Himg2).
  unfold wbind at 1, lift at 1. rewrite Himg2.
  destruct (Hconv img2 (Image_mode im)) as (img3 & Himg3).
  unfold lift at 1. rewrite Himg3.
  unfold wbind at 1, lift at 1. rewrite Henc.
  unfold wbind at 1, on_fs. cbn [fs stdout]. rewrite Hwrite.
  rewrite (print_accepted _ _ Hok). cbn [fs stdout].
  rewrite <- !app_assoc. reflexivity.
Qed.

End Recovery.

(** ** What an image watermark changes *)

Section Frame.
Context {OV : Gui.Overlay}.
Import Gui.

Lemma zlookup_None {A : Type} (l : list A) (k : Z) :
  k < 0 \/ Z.of_nat (length l) <= k -> zlookup l k = None.
Proof.
  intros Hk. unfold zlookup. destruct (Z.ltb_spec k 0) as [|Hpos]; [reflexivity|].
  apply lookup_ge_None. lia.
Qed.

Lemma paste_row_length (x : Z) (src : list pixel) (mask : option (list pixel))
    (dst : list pixel) :
  length (paste_row x src mask dst) = length dst.
Proof.
  unfold paste_row. apply length_imap.
Qed.

Lemma paste_row_outside (x : Z) (src : list pixel)
    (mask : option (list pixel)) (dst : list pixel) (i : nat) :
  zlookup src (Z.of_nat i - x) = None ->
  paste_row x src mask dst !! i = dst !! i.
Proof.
  intros Hout. unfold paste_row. rewrite list_lookup_imap.
  destruct (dst !! i) as [out|]; [|reflexivity]. simpl. rewrite Hout. reflexivity.
Qed.

Lemma paste_size (dst src : Image) (box : Z * Z) (mask : option Image) :
  size (paste dst src box mask) = size dst.
Proof.
  destruct box. reflexivity.
Qed.

Lemma paste_wf (dst src : Image) (box : Z * Z) (mask : option Image) :
  wf_image dst -> wf_image (paste dst src box mask).
Proof.
  intros (Hh & Hw). destruct box as [x y]. unfold wf_image, height, width.
  cbn [paste size rows]. split; [rewrite length_imap; exact Hh|].
  apply Forall_forall. intros r Hr.
  apply list_elem_of_lookup in Hr as (j & Hj).
  rewrite list_lookup_imap in Hj.
  destruct (rows dst !! j) as [drow|] eqn:Ed; [|discriminate].
  assert (length drow = Z.to_nat (fst (size dst))) as Hlen.
  { rewrite Forall_forall in Hw. apply Hw. eapply list_elem_of_lookup_2, Ed. }
  simpl in Hj. injection Hj as <-.
  destruct (zlookup (rows src) (Z.of_nat j - y)) as [srow|]; [|exact Hlen].
  destruct mask as [m|]; [|rewrite paste_row_length; exact Hlen].
  destruct (zlookup (rows m) (Z.of_nat j - y));
    [rewrite paste_row_length|]; exact Hlen.
Qed.

(** [paste] leaves every pixel that the pasted raster does not cover. *)
Lemma paste_outside (dst src : Image) (x y : Z) (mask : option Image)
    (i j : nat) :
  (forall srow, zlookup (rows src) (Z.of_nat j - y) = Some srow ->
                zlookup srow (Z.of_nat i - x) = None) ->
  pixel_at (paste dst src (x, y) mask) i j = pixel_at dst i j.
Proof.
  intros Hout. unfold pixel_at. cbn [paste rows].
  rewrite list_lookup_imap.
  destruct (rows dst !! j) as [drow|]; [|reflexivity]. simpl.
  destruct (zlookup (rows src) (Z.of_nat j - y)) as [srow|]; [|reflexivity].
  specialize (Hout srow eq_refl).
  destruct mask as [m|]; [|apply paste_row_outside, Hout].
  destruct (zlookup (rows m) (Z.of_nat j - y)); [|reflexivity].
  apply paste_row_outside, Hout.
Qed.

Lemma point_alpha_shape (lut : list Byte.byte) (im : Image) (k : Z)
    (row : list pixel) :
  zlookup (rows (point_alpha lut im)) k = Some row ->
  exists row0, zlookup (rows im) k = Some row0 /\ length row = length row0.
Proof.
  unfold zlookup. destruct (k <? 0); [discriminate|].
  cbn [point_alpha rows]. rewrite list_lookup_fmap.
  destruct (rows im !! Z.to_nat k) as [row0|]; [|discriminate].
  simpl. intros [= <-]. exists row0. split; [reflexivity|].
  apply length_map.
Qed.

(** X13. [_apply_image_watermark] returns a raster of the size and shape of
    the base. Without a watermark file it returns the base and changes
    nothing. With one, when the overlay that Pillow hands back has the
    size asked for, every pixel outside the rectangle of that size at
    the computed position is the pixel of the base. *)
Theorem image_watermark_changes_only_its_rectangle (app : App)
    (img res : Image) (app' : App) :
  wf_image img ->
  _apply_image_watermark app img = Ret (res, app') ->
  size res = size img
  /\ wf_image res
  /\ (watermark_image_path app = EmptyString
      \/ os_path_exists (watermark_image_path app) = false ->
      res = img /\ app' = app)
  /\ (forall wm_img scale wm_width wm_height wm_img1 wm_rgba x y app1,
        watermark_image_path app <> EmptyString ->
        os_path_exists (watermark_image_path app) = true ->
        Image_open (watermark_image_path app) = Ret wm_img ->
        PyFloat.truediv (watermark_image_size_slider app) 100 = Ret scale ->
        scaled (overlay_width wm_img) scale = Ret wm_width ->
        scaled (overlay_height wm_img) scale = Ret wm_height ->
        Image_resize wm_img (wm_width, wm_height) = Ret wm_img1 ->
        overlay_rgba wm_img1 = Ret wm_rgba ->
        _calculate_watermark_position app (width img) (height img)
          wm_width wm_height (margin_spin app) = Ret ((x, y), app1) ->
        wf_image wm_rgba ->
        size wm_rgba = (wm_width, wm_height) ->
        app' = app1
        /\ forall i j : nat,
             ~ (x <= Z.of_nat i < x + wm_width
                /\ y <= Z.of_nat j < y + wm_height) ->
             pixel_at res i j = pixel_at img i j).
Proof.
  intros Hwf Hrun.
  assert (watermark_image_path app = EmptyString
          \/ os_path_exists (watermark_image_path app) = false ->
          res = img /\ app' = app) as Hnone.
  { intros Hno. unfold _apply_image_watermark in Hrun.
    destruct Hno as [Hno|Hno]; rewrite Hno in Hrun.
    - simpl in Hrun. split; congruence.
    - rewrite orb_true_r in Hrun. split; congruence. }
  assert (forall wm_img scale wm_width wm_height wm_img1 wm_rgba x y app1,
        watermark_image_path app <> EmptyString ->
        os_path_exists (watermark_image_path app) = true ->
        Image_open (watermark_image_path app) = Ret wm_img ->
        PyFloat.truediv (watermark_image_size_slider app) 100 = Ret scale ->
        scaled (overlay_width wm_img) scale = Ret wm_width ->
        scaled (overlay_height wm_img) scale = Ret wm_height ->
        Image_resize wm_img (wm_width, wm_height) = Ret wm_img1 ->
        overlay_rgba wm_img1 = Ret wm_rgba ->
        _calculate_watermark_position app (width img) (height img)
          wm_width wm_height (margin_spin app) = Ret ((x, y), app1) ->
        exists lut,
          app' = app1
          /\ res = paste img (point_alpha lut wm_rgba) (x, y)
                     (Some (point_alpha lut wm_rgba))) as Hsome.
  { intros wm_img scale wm_width wm_height wm_img1 wm_rgba x y app1
           Hpath Hex Hopen Hscale Hw Hh Hres Hrgba Hpos.
    unfold _apply_image_watermark in Hrun.
    apply String.eqb_neq in Hpath. rewrite Hpath, Hex in Hrun.
    cbn [orb negb] in Hrun.
    rewrite Hopen, Hscale in Hrun. cbn [ebind] in Hrun.
    rewrite Hw in Hrun. cbn [ebind] in Hrun.
    rewrite Hh in Hrun. cbn [ebind] in Hrun.
    rewrite Hres in Hrun. cbn [ebind] in Hrun.
    rewrite Hrgba in Hrun. cbn [ebind] in Hrun.
    destruct (build_lut (watermark_image_opacity_slider app) range256)
      as [lut|e]; [|discriminate].
    cbn [ebind] in Hrun. rewrite Hpos in Hrun. cbn [ebind] in Hrun.
    rewrite paste_onto_new in Hrun by exact Hwf.
    exists lut. split; congruence. }
  assert (size res = size img /\ wf_image res) as (Hsize & Hres).
  { unfold _apply_image_watermark in Hrun.
    destruct (String.eqb (watermark_image_path app) EmptyString
              || negb (os_path_exists (watermark_image_path app)))%bool.
    { assert (res = img) as -> by congruence. split; [reflexivity|exact Hwf]. }
    destruct (Image_open (watermark_image_path app)) as [wm_img|];
      [|discriminate].
    destruct (PyFloat.truediv (watermark_image_size_slider app) 100)
      as [scale|]; [|discriminate].
    cbn [ebind] in Hrun.
    destruct (scaled (overlay_width wm_img) scale) as [wm_width|];
      [|discriminate].
    cbn [ebind] in Hrun.
    destruct (scaled (overlay_height wm_img) scale) as [wm_height|];
      [|discriminate].
    cbn [ebind] in Hrun.
    destruct (Image_resize wm_img (wm_width, wm_height)) as [wm_img1|];
      [|discriminate].
    cbn [ebind] in Hrun.
    destruct (overlay_rgba wm_img1) as [wm_rgba|]; [|discriminate].
    cbn [ebind] in Hrun.
    destruct (build_lut (watermark_image_opacity_slider app) range256)
      as [lut|]; [|discriminate].
    cbn [ebind] in Hrun.
    destruct (_calculate_watermark_position app (width img) (height img)
                wm_width wm_height (margin_spin app)) as [[[x y] app1]|];
      [|discriminate].
    cbn [ebind] in Hrun.
    rewrite paste_onto_new in Hrun by exact Hwf.
    assert (res = paste img (point_alpha lut wm_rgba) (x, y)
                    (Some (point_alpha lut wm_rgba))) as -> by congruence.
    split; [apply paste_size|apply paste_wf, Hwf]. }
  split; [exact Hsize|]. split; [exact Hres|]. split; [exact Hnone|].
  intros wm_img scale wm_width wm_height wm_img1 wm_rgba x y app1
         Hpath Hex Hopen Hscale Hw Hh Hrs Hrgba Hpos (Hrows & Hcols) Hsz.
  destruct (Hsome _ _ _ _ _ _ _ _ _ Hpath Hex Hopen Hscale Hw Hh Hrs Hrgba Hpos)
    as (lut & Happ & ->).
  split; [exact Happ|]. intros i j Hout.
  unfold width, height in Hrows, Hcols. rewrite Hsz in Hrows, Hcols.
  cbn [fst snd] in Hrows, Hcols.
  apply paste_outside. intros srow Hsrow.
  apply point_alpha_shape in Hsrow as (row0 & Hrow0 & Hlen).
  apply zlookup_None. rewrite Hlen.
  pose proof (zlookup_Some _ _ _ Hrow0) as Hin.
  rewrite Forall_forall in Hcols. rewrite (Hcols row0 Hin).
  unfold zlookup in Hrow0.
  destruct (Z.ltb_spec (Z.of_nat j - y) 0) as [|Hj]; [discriminate|].
  apply lookup_lt_Some in Hrow0. rewrite Hrows in Hrow0.
  lia.
Qed.

End Frame.

(** ** What an image watermark does inside its rectangle *)

Section Blend.
Context {OV : Gui.Overlay}.
Import Gui.

Lemma zlookup_shift {A : Type} (l : list A) (i k : nat) (x : Z) :
  Z.of_nat i = x + Z.of_nat k -> zlookup l (Z.of_nat i - x) = l !! k.
Proof.
  intros Hi. unfold zlookup.
  replace (Z.of_nat i - x) with (Z.of_nat k) by lia.
  destruct (Z.ltb_spec (Z.of_nat k) 0) as [|_]; [lia|].
  rewrite Nat2Z.id. reflexivity.
Qed.

Lemma paste_inside (dst wm : Image) (x y : Z) (i j k l : nat)
    (out inp : pixel) :
  Z.of_nat i = x + Z.of_nat k ->
  Z.of_nat j = y + Z.of_nat l ->
  pixel_at dst i j = Some out ->
  pixel_at wm k l = Some inp ->
  pixel_at (paste dst wm (x, y) (Some wm)) i j
  = Some (paste_pixel (Some inp) out inp).
Proof.
  intros Hi Hj Hout Hinp. unfold pixel_at in *. cbn [paste rows].
  rewrite list_lookup_imap.
  destruct (rows dst !! j) as [drow|]; [|discriminate]. simpl.
  rewrite (zlookup_shift _ j l y Hj).
  destruct (rows wm !! l) as [srow|]; [|discriminate].
  unfold paste_row. rewrite list_lookup_imap, Hout. simpl.
  rewrite (zlookup_shift _ i k x Hi), Hinp. reflexivity.
Qed.

Lemma build_lut_lookup (opacity : Z) (xs : list Z) (lut : list Byte.byte)
    (k : nat) (v : Z) :
  build_lut opacity xs = Ret lut ->
  xs !! k = Some v ->
  exists s, scale_alpha opacity v = Ret s /\ lut !! k = Some (clip8 s).
Proof.
  revert lut k. induction xs as [|x xs IH]; intros lut k Hb Hk; [discriminate|].
  cbn [build_lut] in Hb.
  destruct (scale_alpha opacity x) as [s|] eqn:Es; [|discriminate].
  cbn [ebind] in Hb.
  destruct (build_lut opacity xs) as [t|]; [|discriminate].
  cbn [ebind] in Hb. injection Hb as <-.
  destruct k as [|k].
  - injection Hk as <-. exists s. split; [exact Es|reflexivity].
  - apply (IH t k eq_refl Hk).
Qed.

Lemma range256_lookup (a : Byte.byte) :
  range256 !! Z.to_nat (Z_of_byte a) = Some (Z_of_byte a).
Proof.
  unfold range256. rewrite list_lookup_fmap.
  rewrite lookup_seq_lt by apply Z_of_byte_lt.
  simpl. f_equal. unfold Z_of_byte. lia.
Qed.

Lemma Z_of_byte_range (a : Byte.byte) : 0 <= Z_of_byte a <= 255.
Proof.
  pose proof (Z_of_byte_lt a). unfold Z_of_byte in *. lia.
Qed.

Lemma point_alpha_pixel (lut : list Byte.byte) (im : Image) (k l : nat)
    (r g b a : Byte.byte) :
  pixel_at im k l = Some (r, g, b, a) ->
  pixel_at (point_alpha lut im) k l
  = Some (r, g, b, default a (lut !! Z.to_nat (Z_of_byte a))).
Proof.
  unfold pixel_at. cbn [point_alpha rows]. rewrite list_lookup_fmap.
  destruct (rows im !! l) as [row|]; [|discriminate]. simpl.
  rewrite list_lookup_fmap. intros ->. reflexivity.
Qed.

Lemma clip8_byte (a : Byte.byte) : clip8 (Z_of_byte a) = a.
Proof.
  destruct a; reflexivity.
Qed.

Lemma blend8_full (out inp : Byte.byte) : blend8 Byte.xff out inp = inp.
Proof.
  unfold blend8.
  replace (Z_of_byte out * (255 - Z_of_byte Byte.xff)
           + Z_of_byte inp * Z_of_byte Byte.xff)
    with (Z_of_byte inp * 255)
    by (change (Z_of_byte Byte.xff) with 255; lia).
  destruct inp; reflexivity.
Qed.

(** X14. Inside the rectangle, [_apply_image_watermark] blends: where a
    pixel of the overlay falls on a pixel of the base, every channel of
    the result is Pillow's blend of the base and the overlay by the
    overlay's alpha scaled to the opacity, [alpha * opacity // 100]. At
    opacity 100 a fully opaque overlay pixel replaces the base pixel. *)
Theorem image_watermark_blends_inside (app : App) (img : Image)
    (wm_img wm_img1 : overlay) (scale : PyFloat.float)
    (wm_width wm_height x y : Z) (wm_rgba : Image) (app1 : App)
    (i j k l : nat) (r1 g1 b1 a1 r2 g2 b2 a2 : Byte.byte) :
  wf_image img ->
  0 <= watermark_image_opacity_slider app <= 100 ->
  watermark_image_path app <> EmptyString ->
  os_path_exists (watermark_image_path app) = true ->
  Image_open (watermark_image_path app) = Ret wm_img ->
  PyFloat.truediv (watermark_image_size_slider app) 100 = Ret scale ->
  scaled (overlay_width wm_img) scale = Ret wm_width ->
  scaled (overlay_height wm_img) scale = Ret wm_height ->
  Image_resize wm_img (wm_width, wm_height) = Ret wm_img1 ->
  overlay_rgba wm_img1 = Ret wm_rgba ->
  _calculate_watermark_position app (width img) (height img)
    wm_width wm_height (margin_spin app) = Ret ((x, y), app1) ->
  Z.of_nat i = x + Z.of_nat k ->
  Z.of_nat j = y + Z.of_nat l ->
  pixel_at img i j = Some (r1, g1, b1, a1) ->
  pixel_at wm_rgba k l = Some (r2, g2, b2, a2) ->
  let a := clip8 ((Z_of_byte a2 * watermark_image_opacity_slider app) `div` 100) in
  exists res,
    _apply_image_watermark app img = Ret (res, app1)
    /\ pixel_at res i j
       = Some (blend8 a r1 r2, blend8 a g1 g2, blend8 a b1 b2, blend8 a a1 a)
    /\ (watermark_image_opacity_slider app = 100 -> a2 = Byte.xff ->
        pixel_at res i j = Some (r2, g2, b2, Byte.xff)).
Proof.
  intros Hwf Hop Hpath Hex Hopen Hscale Hw Hh Hrs Hrgba Hpos Hi Hj Hout Hinp a.
  assert (exists lut,
            build_lut (watermark_image_opacity_slider app) range256 = Ret lut
            /\ lut !! Z.to_nat (Z_of_byte a2) = Some a) as (lut & Hlut & Ha).
  { destruct (build_lut (watermark_image_opacity_slider app) range256)
      as [lut|e] eqn:El.
    - exists lut. split; [reflexivity|].
      destruct (build_lut_lookup _ _ _ _ _ El (range256_lookup a2))
        as (s & Hs & ->).
      rewrite scale_alpha_truncates in Hs
        by (try exact Hop; apply Z_of_byte_range).
      injection Hs as <-. reflexivity.
    - exfalso. clear -El Hop.
      assert (forall xs, Forall (fun v => 0 <= v <= 255) xs ->
                build_lut (watermark_image_opacity_slider app) xs <> Raise e)
        as Hno.
      { induction xs as [|v xs IH]; intros Hxs; [discriminate|].
        apply Forall_cons in Hxs as (Hv & Hxs). cbn [build_lut].
        rewrite scale_alpha_truncates by assumption. cbn [ebind].
        specialize (IH Hxs).
        destruct (build_lut (watermark_image_opacity_slider app) xs);
          [discriminate|]. cbn [ebind]. congruence. }
      apply (Hno range256); [|exact El].
      apply Forall_forall. intros v Hv. unfold range256 in Hv.
      apply list_elem_of_fmap in Hv as (n & -> & Hn).
      apply elem_of_seq in Hn. lia. }
  exists (paste img (point_alpha lut wm_rgba) (x, y)
            (Some (point_alpha lut wm_rgba))).
  assert (pixel_at (paste img (point_alpha lut wm_rgba) (x, y)
                      (Some (point_alpha lut wm_rgba))) i j
          = Some (blend8 a r1 r2, blend8 a g1 g2, blend8 a b1 b2,
                  blend8 a a1 a)) as Hpix.
  { rewrite (paste_inside _ _ x y i j k l (r1, g1, b1, a1) (r2, g2, b2, a)
               Hi Hj Hout).
    - reflexivity.
    - rewrite (point_alpha_pixel lut wm_rgba k l r2 g2 b2 a2 Hinp), Ha.
      reflexivity. }
  split; [|split; [exact Hpix|]].
  - unfold _apply_image_watermark.
    apply String.eqb_neq in Hpath. rewrite Hpath, Hex. cbn [orb negb].
    rewrite Hopen, Hscale. cbn [ebind]. rewrite Hw. cbn [ebind].
    rewrite Hh. cbn [ebind]. rewrite Hrs. cbn [ebind].
    rewrite Hrgba. cbn [ebind]. rewrite Hlut. cbn [ebind].
    rewrite Hpos. cbn [ebind].
    rewrite paste_onto_new by exact Hwf. reflexivity.
  - intros H100 Hff. rewrite Hpix.
    assert (a = Byte.xff) as ->.
    { unfold a. rewrite H100, Hff. reflexivity. }
    rewrite !blend8_full. reflexivity.
Qed.

End Blend.

(** ** The two programs on the same position keys *)

Section Presets.
Import Gui.

(** X15. On each of the five keys the command-line tool and the application
    compute the same position. On any other string they part: the
    command-line function takes the centre, the application's table has
    no entry (and the application then takes the bottom-right corner). *)
Theorem programs_agree_on_the_five_keys (key : string) (W H w h m : Z) :
  (forall label f,
     dict_get WATERMARK_POSITIONS key = Some (label, f) ->
     key ∈ ["tl"; "tr"; "bl"; "br"; "center"]
     /\ Cli.compute_position (W, H) (w, h) key m = f W H w h m)
  /\ (dict_get WATERMARK_POSITIONS key = None ->
      (key ∉ ["tl"; "tr"; "bl"; "br"; "center"])
      /\ Cli.compute_position (W, H) (w, h) key m
         = ((W - w) `div` 2, (H - h) `div` 2)).
Proof.
  unfold Cli.compute_position, WATERMARK_POSITIONS. cbn [dict_get].
  destruct (String.eqb_spec key "tl") as [->|Htl].
  { split; [|discriminate]. intros label f [= <- <-].
    split; [|reflexivity].
    repeat constructor. }
  destruct (String.eqb_spec key "tr") as [->|Htr].
  { split; [|discriminate]. intros label f [= <- <-].
    split; [|reflexivity].
    repeat constructor. }
  destruct (String.eqb_spec key "bl") as [->|Hbl].
  { split; [|discriminate]. intros label f [= <- <-].
    split; [|reflexivity].
    repeat constructor. }
  destruct (String.eqb_spec key "br") as [->|Hbr].
  { split; [|discriminate]. intros label f [= <- <-].
    split; [|reflexivity].
    repeat constructor. }
  destruct (String.eqb_spec key "center") as [->|Hc].
  { split; [|discriminate]. intros label f [= <- <-].
    split; [|reflexivity].
    repeat constructor. }
  split; [discriminate|]. intros _. split; [|reflexivity].
  intros Hin.
  repeat (apply elem_of_cons in Hin as [Hin|Hin]; [congruence|]).
  inversion Hin.
Qed.

End Presets.

(** ** Instances of the further properties *)



Lemma ensure_output_dir_again_witness :
  Cli.ensure_output_dir ["photos"]
    {| fs := <[ ["photos"; "photos_watermark"] := Fs.Dir ]> Sample.album;
       stdout := [] |}
  = (Ret ["photos"; "photos_watermark"],
     {| fs := <[ ["photos"; "photos_watermark"] := Fs.Dir ]> Sample.album;
        stdout := [] |}).
Proof.
  apply (ensure_output_dir_again ["photos"] ["photos"; "photos_watermark"]
           {| fs := Sample.album; stdout := [] |}).
  - vm_compute. reflexivity.
  - vm_compute. reflexivity.
Defined.

Lemma exif_date_has_no_colon_or_space_witness :
  PyStr.has_char ":" "2023-11-05" = false
  /\ PyStr.has_char " " "2023-11-05" = false.
Proof.
  apply (exif_date_has_no_colon_or_space (RT := Sample.runtime)
           (PIL := Sample.pillow)
           (Ret (Sample.exif_of "2023:11:05 14:22:10"))).
  vm_compute. reflexivity.
Defined.

Lemma exif_date_in_hyphen_form_is_kept_witness :
  Cli.extract_exif_date (RT := Sample.runtime) (PIL := Sample.pillow)
    (Ret (Sample.exif_of "2023-11-05"))
  = Ret (Some "2023-11-05").
Proof.
  apply (exif_date_in_hyphen_form_is_kept (RT := Sample.runtime)
           (PIL := Sample.pillow) (Ret (Sample.exif_of "2023-11-05"))
           (Sample.exif_of "2023-11-05")).
  - reflexivity.
  - vm_compute. reflexivity.
  - discriminate.
  - vm_compute. reflexivity.
  - vm_compute. reflexivity.
  - vm_compute. reflexivity.
Defined.

Lemma watermark_lands_inside_witness :
  exists x y,
    Cli.compute_position (800, 600) (100, 40) "center" 12 = (x, y)
    /\ 0 <= x /\ x + 100 <= 800 /\ 0 <= y /\ y + 40 <= 600.
Proof.
  exists 350, 280. split; [reflexivity|].
  apply (proj1 (watermark_lands_inside 800 600 100 40 12
                  ltac:(lia) ltac:(lia) ltac:(lia)) "center").
  reflexivity.
Defined.

Lemma position_call_is_stable_witness :
  Gui._calculate_watermark_position
    (Gui.set_last_position Sample.app_custom_bad_tag "br") 800 600 100 40 12
  = Ret ((688, 548), Gui.set_last_position Sample.app_custom_bad_tag "br").
Proof.
  apply (position_call_is_stable Sample.app_custom_bad_tag).
  vm_compute. reflexivity.
Defined.

Lemma unknown_position_is_bottom_right_witness :
  Gui._calculate_watermark_position
    (Gui.set_last_position Sample.app_prefix_jpeg "middle") 800 600 100 40 12
  = Ret ((688, 548), Gui.set_last_position Sample.app_prefix_jpeg "middle").
Proof.
  apply (unknown_position_is_bottom_right
           (Gui.set_last_position Sample.app_prefix_jpeg "middle")
           800 600 100 40 12).
  - vm_compute. reflexivity.
  - vm_compute. reflexivity.
Defined.

Lemma is_dark_color_threshold_witness :
  Interaction.is_dark_color "#336699" = true
  /\ Interaction.is_dark_color "#fff" = false.
Proof.
  destruct (is_dark_color_threshold "#336699") as (Hhex & _).
  destruct (is_dark_color_threshold "#fff") as (_ & Hshort & _).
  split.
  - apply (Hhex 51 102 153); [reflexivity | reflexivity | reflexivity
                              | lia | lia | lia].
  - apply Hshort. simpl. lia.
Defined.

Lemma preview_keeps_small_images_witness :
  Interaction.preview_size 640 480 = Ret (640, 480).
Proof.
  apply (proj1 (preview_keeps_small_images 640 480)); lia.
Defined.

Lemma bad_font_or_colour_still_saves_witness :
  Cli.process_image_file (RT := Sample.runtime) (PIL := Studio.pillow)
    ["photos"; "a.png"] Studio.options_bad ["photos"]
    {| fs := Sample.album; stdout := [] |}
  = (Ret tt,
     {| fs := <[ ["photos"; "a.png"] := Fs.File ]> Sample.album;
        stdout := [WarnColor "nocolour";
                   WarnFont "missing.ttf" (LibraryError 3);
                   OkSaved ["photos"; "a.png"] ["photos"; "a.png"]] |}).
Proof.
  apply (bad_font_or_colour_still_saves (RT := Sample.runtime)
           (PIL := Studio.pillow) ["photos"; "a.png"] ["photos"]
           Studio.options_bad {| fs := Sample.album; stdout := [] |}
           (Ret (Sample.exif_of "2023:11:05 14:22:10")) "2023-11-05" tt).
  - reflexivity.
  - vm_compute. reflexivity.
  - discriminate.
  - intros i m. exists i. reflexivity.
  - intros i xy t f. exists (0, 0, 100, 40). reflexivity.
  - intros i xy t f c. exists i. reflexivity.
  - reflexivity.
  - reflexivity.
  - intros e He. vm_compute in He. congruence.
  - intros e He. reflexivity.
  - intros p e Hp He. reflexivity.
  - reflexivity.
  - reflexivity.
Defined.

Lemma image_watermark_changes_only_its_rectangle_witness :
  Gui._apply_image_watermark (OV := Sample.overlay_lib) Studio.app_logo_corner
    Sample.base_image = Ret (Studio.stamped, Studio.app_logo_corner)
  /\ pixel_at Studio.stamped 0 1 = pixel_at Sample.base_image 0 1.
Proof.
  assert (wf_image Sample.base_image) as Hwf.
  { split; [reflexivity|]. repeat constructor. }
  assert (Gui._apply_image_watermark (OV := Sample.overlay_lib)
            Studio.app_logo_corner Sample.base_image
          = Ret (Studio.stamped, Studio.app_logo_corner)) as Hrun.
  { vm_compute. reflexivity. }
  split; [exact Hrun|].
  destruct (image_watermark_changes_only_its_rectangle
              (OV := Sample.overlay_lib) Studio.app_logo_corner
              Sample.base_image Studio.stamped Studio.app_logo_corner
              Hwf Hrun) as (_ & _ & _ & Hframe).
  destruct (Hframe Sample.logo Interaction.one 2 1 Sample.logo Sample.logo
              1 1 Studio.app_logo_corner) as (_ & Hout).
  - discriminate.
  - reflexivity.
  - reflexivity.
  - vm_compute. reflexivity.
  - vm_compute. reflexivity.
  - vm_compute. reflexivity.
  - reflexivity.
  - reflexivity.
  - vm_compute. reflexivity.
  - split; [reflexivity|]. repeat constructor.
  - reflexivity.
  - apply Hout. lia.
Defined.

Lemma image_watermark_blends_inside_witness :
  exists res,
    Gui._apply_image_watermark (OV := Sample.overlay_lib)
      Studio.app_logo_corner Sample.base_image
    = Ret (res, Studio.app_logo_corner)
    /\ pixel_at res 1 1 = Some Sample.blue.
Proof.
  assert (wf_image Sample.base_image) as Hwf.
  { split; [reflexivity|]. repeat constructor. }
  destruct (image_watermark_blends_inside (OV := Sample.overlay_lib)
              Studio.app_logo_corner Sample.base_image
              Sample.logo Sample.logo Interaction.one 2 1 1 1 Sample.logo
              Studio.app_logo_corner 1 1 0 0
              Byte.xff Byte.x00 Byte.x00 Byte.xff
              Byte.x00 Byte.x00 Byte.xff Byte.xff)
    as (res & Hrun & _ & Hfull).
  - exact Hwf.
  - simpl. lia.
  - discriminate.
  - reflexivity.
  - reflexivity.
  - vm_compute. reflexivity.
  - vm_compute. reflexivity.
  - vm_compute. reflexivity.
  - reflexivity.
  - reflexivity.
  - vm_compute. reflexivity.
  - reflexivity.
  - reflexivity.
  - reflexivity.
  - reflexivity.
  - exists res. split; [exact Hrun|]. apply Hfull; reflexivity.
Defined.

Lemma programs_agree_on_the_five_keys_witness :
  Cli.compute_position (800, 600) (100, 40) "tr" 12 = (688, 12).
Proof.
  destruct (programs_agree_on_the_five_keys "tr" 800 600 100 40 12)
    as (Hkey & _).
  destruct (Hkey "top-right" (fun img_w img_h w h m => (img_w - w - m, m))
              eq_refl) as (_ & E).
  exact E.
Defined.
